(** * Downscaling pipeline: data pairing and time-conditioned U-Net

    A shallow embedding of [dataset.py] (paired sample provider, split
    generator, temporal aligner) and of [models.py] (sinusoidal time
    embedding, conditional resampling block, encoder-decoder assembly),
    together with the properties stated about them.

    Conventions of the embedding:
    - a Python call that may raise returns a [result]; the raised exception
      is the Python exception class;
    - a numpy array is a shape together with its row-major data;
    - Python [int] is [Z]; a Python [float] that is computed with (the
      fractions of [spliting_indices]) is a binary64 number of the standard
      library's [SpecFloat], with its rounding to nearest, ties to even; a
      float that is only stored and compared (a timestamp, a drop rate) is
      an exact rational [Q];
    - the sinusoidal embedding is evaluated over the real numbers [R];
    - the network is run on abstract tensors through the interface
      [TensorOps]; its instances are shapes (with the size checks that
      PyTorch performs) and symbolic expressions (the operations applied, in
      order);
    - the learned parameters of the layers and what the constructors of the
      network print are not modelled. *)

From Stdlib Require Import ZArith QArith Qround Qpower Reals Psatz.
From Stdlib Require SpecFloat.
From stdpp Require Import gmap strings list pretty.

Set Warnings "-register-all".

Local Open Scope Z_scope.

(** ** Python exceptions and results *)

Inductive exception : Set :=
| IndexError
| ValueError
| TypeError
| RuntimeError
| ZeroDivisionError
| FileNotFoundError
| OSError
| AttributeError
| OverflowError.

Global Instance exception_eq_dec : EqDecision exception.
Proof. solve_decision. Defined.

Inductive result (A : Type) : Type :=
| Return (a : A)
| Raise (e : exception).
Global Arguments Return {A} a.
Global Arguments Raise {A} e.

Global Instance result_ret : MRet result := fun A a => Return a.
Global Instance result_bind : MBind result := fun A B k r =>
  match r with
  | Return a => k a
  | Raise e => Raise e
  end.

Global Instance result_fmap : FMap result := fun A B f r =>
  match r with
  | Return a => Return (f a)
  | Raise e => Raise e
  end.

Definition raises {A} (r : result A) : Prop :=
  match r with Return _ => False | Raise _ => True end.

(** ** numpy arrays *)

Module np.

(** An n-dimensional array: [shape] as numpy reports it and the elements
    in row-major (C) order. *)
Record ndarray (V : Type) : Type := mk_ndarray {
  shape : list nat;
  data : list V
}.
Global Arguments mk_ndarray {V} shape data.
Global Arguments shape {V} _.
Global Arguments data {V} _.

Definition prod_list (l : list nat) : nat := foldr Nat.mul 1%nat l.

(** Number of elements of one entry along the first axis. *)
Definition row_size {V} (a : ndarray V) : nat := prod_list (tail (shape a)).

(** [len(a)]: the size of the first axis; a 0-d array is unsized. *)
Definition len {V} (a : ndarray V) : result nat :=
  match shape a with
  | [] => Raise TypeError
  | n :: _ => Return n
  end.

(** Normalisation of one integer index against an axis of size [n]:
    negative indices count from the end, anything else out of range
    raises. *)
Definition norm_index (n : nat) (i : Z) : result nat :=
  if decide (0 <= i < Z.of_nat n) then Return (Z.to_nat i)
  else if decide (- Z.of_nat n <= i < 0) then Return (Z.to_nat (Z.of_nat n + i))
  else Raise IndexError.

(** One Python [int] used as an index, [a[i]]: numpy converts it to a C
    long, which fails with [OverflowError] outside [[-2^63, 2^63)], before
    it looks at the axis. No axis is that long, so such an index is out of
    range as well, and the range is tested first here. *)
Definition scalar_index (n : nat) (i : Z) : result nat :=
  match norm_index n i with
  | Return j => Return j
  | Raise _ =>
      if decide (- 2 ^ 63 <= i < 2 ^ 63) then Raise IndexError
      else Raise OverflowError
  end.

Fixpoint norm_indices (n : nat) (idx : list Z) : result (list nat) :=
  match idx with
  | [] => Return []
  | i :: idx' =>
      j ← norm_index n i;
      js ← norm_indices n idx';
      Return (j :: js)
  end.

(** The [i]-th entry along the first axis, as a flat run of elements. *)
Definition row {V} (a : ndarray V) (i : nat) : list V :=
  take (row_size a) (drop (i * row_size a)%nat (data a)).

(** [a[indices]] with [indices] an integer array: gathers whole entries
    along the first axis. *)
Definition take_rows {V} (a : ndarray V) (idx : list Z) : result (ndarray V) :=
  match shape a with
  | [] => Raise IndexError
  | n :: rest =>
      js ← norm_indices n idx;
      Return (mk_ndarray (length idx :: rest) (js ≫= row a))
  end.

(** Bounds of the Python slice [lo:hi] on an axis of size [n]. *)
Definition slice_bound (n : nat) (i : Z) : nat :=
  if decide (i < 0) then Z.to_nat (Z.max 0 (Z.of_nat n + i))
  else Nat.min n (Z.to_nat i).

(** [a[lo:hi]] along the first axis. *)
Definition slice {V} (a : ndarray V) (lo hi : Z) : result (ndarray V) :=
  match shape a with
  | [] => Raise IndexError
  | n :: rest =>
      let l := slice_bound n lo in
      let h := slice_bound n hi in
      Return (mk_ndarray ((h - l)%nat :: rest)
                (take ((h - l) * row_size a)%nat (drop (l * row_size a)%nat (data a))))
  end.

(** [l[lo:hi]] on a one-dimensional array kept as a list; an omitted
    bound is [None]. *)
Definition slice1 {V} (l : list V) (lo hi : option Z) : list V :=
  let b := from_option (slice_bound (length l)) 0%nat lo in
  let e := from_option (slice_bound (length l)) (length l) hi in
  take (e - b) (drop b l).

(** [np.concatenate((a, b), axis=0)]. *)
Definition concatenate0 {V} (a b : ndarray V) : result (ndarray V) :=
  match shape a, shape b with
  | n :: ra, m :: rb =>
      if decide (ra = rb)
      then Return (mk_ndarray ((n + m)%nat :: ra) (data a ++ data b))
      else Raise ValueError
  | _, _ => Raise ValueError
  end.

(** [np.expand_dims(a, axis)] for a non-negative axis. *)
Definition expand_dims {V} (a : ndarray V) (axis : nat) : result (ndarray V) :=
  if decide (axis <= length (shape a))%nat
  then Return (mk_ndarray (take axis (shape a) ++ 1%nat :: drop axis (shape a)) (data a))
  else Raise ValueError.

(** Splits [l] into consecutive chunks of [k] elements. *)
Fixpoint chunks {V} (count k : nat) (l : list V) : list (list V) :=
  match count with
  | O => []
  | S c => take k l :: chunks c k (drop k l)
  end.

(** [np.concatenate((a, b), axis)] for a non-negative axis: the blocks
    below the axis alternate between the two operands. *)
Definition concatenate {V} (a b : ndarray V) (axis : nat) : result (ndarray V) :=
  match shape a !! axis, shape b !! axis with
  | Some n, Some m =>
      if decide (take axis (shape a) = take axis (shape b)
                 /\ drop (S axis) (shape a) = drop (S axis) (shape b))
      then
        let outer := prod_list (take axis (shape a)) in
        let ka := prod_list (drop axis (shape a)) in
        let kb := prod_list (drop axis (shape b)) in
        Return (mk_ndarray
                  (take axis (shape a) ++ (n + m)%nat :: drop (S axis) (shape a))
                  (mjoin (zip_with app (chunks outer ka (data a))
                                       (chunks outer kb (data b)))))
      else Raise ValueError
  | _, _ => Raise ValueError
  end.

(** [np.where(a == v)[0][0]]: the first-axis coordinate of the first
    element (in row-major order) that equals [v]. With no such element
    the inner index array is empty and subscripting it raises. *)
Definition where_first (a : ndarray Q) (v : Q) : result Z :=
  match shape a with
  | [] => Raise ValueError
  | _ :: _ =>
      match list_find (fun d => Qeq_bool d v = true) (data a) with
      | Some (k, _) => Return (Z.of_nat (k / row_size a)%nat)
      | None => Raise IndexError
      end
  end.

End np.

(** ** dataset.py: DownscalingDataset *)

Module DownscalingDataset.

Record t (V : Type) : Type := mk {
  low_res_data : np.ndarray V;
  high_res_data : np.ndarray V;
  low_var_name : option string;
  high_var_name : option string
}.
Global Arguments mk {V}.
Global Arguments low_res_data {V}.
Global Arguments high_res_data {V}.
Global Arguments low_var_name {V}.
Global Arguments high_var_name {V}.

(** [__init__]: the optional gather happens first, the length comparison
    is made on the stored (gathered) arrays. *)
Definition __init__ {V} (low_res high_res : np.ndarray V)
    (low_name high_name : option string) (indices : option (list Z))
  : result (t V) :=
  '(low, high) ←
    match indices with
    | Some idx =>
        low ← np.take_rows low_res idx;
        high ← np.take_rows high_res idx;
        Return (low, high)
    | None => Return (low_res, high_res)
    end;
  n_low ← np.len low;
  n_high ← np.len high;
  if decide (n_low ≠ n_high) then Raise ValueError
  else Return (mk low high low_name high_name).

Definition __len__ {V} (self : t V) : result nat :=
  np.len (low_res_data self).

(** [__getitem__] for an integer index: the low-resolution entry is
    copied into a fresh array, the high-resolution entry is the indexed
    entry itself. *)
Definition __getitem__ {V} (self : t V) (idx : Z)
  : result (np.ndarray V * np.ndarray V) :=
  match np.shape (low_res_data self), np.shape (high_res_data self) with
  | n :: rl, m :: rh =>
      i ← np.scalar_index n idx;
      j ← np.scalar_index m idx;
      Return (np.mk_ndarray rl (np.row (low_res_data self) i),
              np.mk_ndarray rh (np.row (high_res_data self) j))
  | _, _ => Raise IndexError
  end.

End DownscalingDataset.

(** ** dataset.py: spliting_indices *)

(** The generator behind [np.random]: a tape of raw draws and a cursor. *)
Record rng : Type := mk_rng {
  tape : nat -> nat;
  cursor : nat
}.

(** A draw in the closed interval [[0, max]]. *)
Definition random_interval (g : rng) (max : nat) : nat * rng :=
  ((tape g (cursor g) `mod` S max)%nat, mk_rng (tape g) (S (cursor g))).

(** [x[i], x[j] = x[j], x[i]]. *)
Definition swap {A} (x : list A) (i j : nat) : list A :=
  match x !! i, x !! j with
  | Some a, Some b => <[j:=a]> (<[i:=b]> x)
  | _, _ => x
  end.

(** The in-place shuffle of [np.random.shuffle]: for [i] from the last
    position down to 1, exchange position [i] with a drawn position
    [j <= i]. *)
Fixpoint shuffle_from {A} (i : nat) (x : list A) (g : rng) : list A * rng :=
  match i with
  | O => (x, g)
  | S i' =>
      let '(j, g') := random_interval g i in
      shuffle_from i' (swap x i j) g'
  end.

Definition shuffle {A} (x : list A) (g : rng) : list A * rng :=
  shuffle_from (length x - 1) x g.

(** [np.random.permutation(n)]: shuffles [np.arange(n)]. *)
Definition np_random_permutation (n : Z) (g : rng) : list Z * rng :=
  shuffle (seqZ 0 n) g.

(** A Python [float]: an IEEE 754 binary64 number, with 53 bits of
    precision and exponents below 1024. *)
Definition float : Set := SpecFloat.spec_float.
Definition float_prec : Z := 53.
Definition float_emax : Z := 1024.

(** [x * y] on floats: the exact product rounded to the nearest float,
    ties to even. *)
Definition float_mul (x y : float) : float :=
  SpecFloat.SFmul float_prec float_emax x y.

(** [float(n)] for a Python [int], as done for the mixed product
    [x * n]: the nearest float, ties to even; [OverflowError] when [n] is
    beyond the largest float. *)
Definition float_of_int (n : Z) : result float :=
  match SpecFloat.binary_normalize float_prec float_emax n 0 false with
  | SpecFloat.S754_infinity _ => Raise OverflowError
  | x => Return x
  end.

(** [int(x)] on a float: truncation towards zero; an infinity and a NaN
    have no integer. *)
Definition int_of_float (x : float) : result Z :=
  match x with
  | SpecFloat.S754_zero _ => Return 0
  | SpecFloat.S754_infinity _ => Raise OverflowError
  | SpecFloat.S754_nan => Raise ValueError
  | SpecFloat.S754_finite s m e =>
      Return (SpecFloat.cond_Zopp s (Z.shiftl (Z.pos m) e))
  end.

(** [x * n] for a float [x] and an int [n]: the int is converted first. *)
Definition float_mul_int (x : float) (n : Z) : result float :=
  y ← float_of_int n;
  Return (float_mul x y).

(** [int(x * n)]. *)
Definition int_of_product (x : float) (n : Z) : result Z :=
  p ← float_mul_int x n;
  int_of_float p.

Definition spliting_indices (n : Z) (val_pct test_pct : float) (g : rng)
  : result ((list Z * list Z * list Z) * rng) :=
  n_val ← int_of_product val_pct n;
  n_test ← int_of_product test_pct n;
  let n_train := n - n_val - n_test in
  let '(indices, g') := np_random_permutation n g in
  Return ((np.slice1 indices None (Some n_train),
           np.slice1 indices (Some n_train) (Some (n_train + n_val)),
           np.slice1 indices (Some (n_train + n_val)) None), g').

(** ** dataset.py: the temporal aligner *)

(** What a path on disk holds: a [.npy] array or a netCDF dataset with its
    named variables. *)
Inductive file : Type :=
| NpyFile (a : np.ndarray Q)
| NcFile (variables : gmap string (np.ndarray Q)).

(** The process environment, which the aligner only reads: the files and
    the local UTC offset in seconds at 01:00 on 1 January of a year. *)
Record env : Type := mk_env {
  fs : gmap string file;
  utcoffset : Z -> Z
}.

(** What the aligner leaves behind: the lines printed and the paths opened
    (most recent last). *)
Record log : Type := mk_log {
  stdout : list string;
  opened : list string
}.

Definition io (A : Type) : Type := env -> log -> result A * log.

Global Instance io_ret : MRet io := fun A a _ l => (Return a, l).
Global Instance io_bind : MBind io := fun A B k m e l =>
  match m e l with
  | (Return a, l') => k a e l'
  | (Raise x, l') => (Raise x, l')
  end.

Definition lift {A} (r : result A) : io A := fun _ l => (r, l).

Definition print (line : string) : io unit := fun _ l =>
  (Return (), mk_log (stdout l ++ [line]) (opened l)).

Definition open_file (path : string) : io file := fun e l =>
  let l' := mk_log (stdout l) (opened l ++ [path]) in
  match fs e !! path with
  | Some f => (Return f, l')
  | None => (Raise FileNotFoundError, l')
  end.

(** [np.load(path)]. *)
Definition np_load (path : string) : io (np.ndarray Q) :=
  f ← open_file path;
  match f with
  | NpyFile a => mret a
  | NcFile _ => lift (Raise ValueError)
  end.

(** [nc.Dataset(path)]. *)
Definition nc_Dataset (path : string) : io (gmap string (np.ndarray Q)) :=
  f ← open_file path;
  match f with
  | NcFile vars => mret vars
  | NpyFile _ => lift (Raise OSError)
  end.

(** [dataset[name][:]]. *)
Definition nc_variable (ds : gmap string (np.ndarray Q)) (name : string)
  : result (np.ndarray Q) :=
  match ds !! name with
  | Some a => Return a
  | None => Raise IndexError
  end.

(** Days before 1 January of [year] in the proleptic Gregorian calendar. *)
Definition days_before_year (year : Z) : Z :=
  let y := year - 1 in
  y * 365 + y / 4 - y / 100 + y / 400.

(** Seconds since the epoch of 01:00 local time on 1 January of [year];
    719163 is the ordinal of 1970-01-01. *)
Definition new_year_hour (e : env) (year : Z) : Z :=
  (days_before_year year + 1 - 719163) * 86400 + 3600 - utcoffset e year.

(** [datetime(year, 1, 1, 1).timestamp()]: a naive datetime is read in
    local time. The constructor wants the year between [MINYEAR] and
    [MAXYEAR]; the conversion of local time looks a day back, which for
    year 1 is year 0, out of range. Both failures are [ValueError]. *)
Definition datetime_timestamp (year : Z) : io Q := fun e l =>
  if decide (2 <= year <= 9999)
  then (Return (inject_Z (new_year_hour e year)), l)
  else (Raise ValueError, l).

(** The body of the loop of [merge_out_data], over the remaining years. *)
Fixpoint merge_out_loop (years : list Z)
    (high_res_data high_res_dt : option (np.ndarray Q))
  : io (option (np.ndarray Q) * option (np.ndarray Q)) :=
  match years with
  | [] => mret (high_res_data, high_res_dt)
  | year :: years' =>
      match high_res_data with
      | None =>
          d ← np_load ("download/cerra/si10-" +:+ pretty year +:+ ".npy");
          dt ← np_load ("download/cerra/datetime_" +:+ pretty year +:+ ".npy");
          merge_out_loop years' (Some d) (Some dt)
      | Some acc =>
          tmp ← np_load ("download/cerra/si10-" +:+ pretty year +:+ ".npy");
          d ← lift (np.concatenate0 acc tmp);
          tmp_dt ← np_load ("download/cerra/datetime_" +:+ pretty year +:+ ".npy");
          dt ← lift (match high_res_dt with
                     | Some acc_dt => np.concatenate0 acc_dt tmp_dt
                     | None => Raise ValueError
                     end);
          merge_out_loop years' (Some d) (Some dt)
      end
  end.

Definition merge_out_data (start_year end_year : Z)
  : io (option (np.ndarray Q) * option (np.ndarray Q)) :=
  merge_out_loop (seqZ start_year (end_year + 1 - start_year)) None None.

(** The loop of [make_clean_data] over the input variables. *)
Fixpoint load_in_vars (in_vars : list string) (in_data : option (np.ndarray Q))
  : io (option (np.ndarray Q)) :=
  match in_vars with
  | [] => mret in_data
  | in_var :: in_vars' =>
      ds ← nc_Dataset ("download/era5/" +:+ in_var +:+ "-2010_2020.nc");
      v ← lift (nc_variable ds in_var);
      tmp_data ← lift (np.expand_dims v 3);
      match in_data with
      | None => load_in_vars in_vars' (Some tmp_data)
      | Some acc =>
          c ← lift (np.concatenate acc tmp_data 3);
          load_in_vars in_vars' (Some c)
      end
  end.

(** [np.where(out_date == hour)[0][0]]; comparing [None] with a number is
    [False], whose index array is empty. *)
Definition lookup_hour (out_date : option (np.ndarray Q)) (hour : Q) : result Z :=
  match out_date with
  | Some dates => np.where_first dates hour
  | None => Raise IndexError
  end.

(** [a[lo:hi]] on a value that may be [None]. *)
Definition subscript_slice (a : option (np.ndarray Q)) (lo hi : Z)
  : result (np.ndarray Q) :=
  match a with
  | Some arr => np.slice arr lo hi
  | None => Raise TypeError
  end.

(** [make_clean_data]: [Return None] is the bare [return]. *)
Definition make_clean_data (in_vars : list string) (start_year end_year : Z)
  : io (option (np.ndarray Q * np.ndarray Q)) :=
  if decide (start_year < 2010 \/ end_year > 2020) then
    print "year must be greater than 2010 and less than 2020";;
    mret None
  else
    '(out_data, out_date) ← merge_out_data 2010 2020;
    in_data ← load_in_vars in_vars None;
    low_hour ← datetime_timestamp start_year;
    high_hour ← datetime_timestamp end_year;
    low_index ← lift (lookup_hour out_date low_hour);
    high_index ← lift (lookup_hour out_date high_hour);
    print (pretty low_index +:+ " " +:+ pretty high_index);;
    lows ← lift (subscript_slice in_data low_index high_index);
    highs ← lift (subscript_slice out_data low_index high_index);
    mret (Some (lows, highs)).

(** ** Python lists *)

(** [l[i]] for an integer [i]: negative indices count from the end. *)
Definition py_index {A} (l : list A) (i : Z) : result A :=
  let j := if decide (i < 0) then Z.of_nat (length l) + i else i in
  if decide (0 <= j) then
    match l !! Z.to_nat j with
    | Some a => Return a
    | None => Raise IndexError
    end
  else Raise IndexError.

(** [[f(a) for a in l]]: the elements are evaluated in order and the first
    exception ends the comprehension. *)
Fixpoint comprehension {A B} (f : A -> result B) (l : list A) : result (list B) :=
  match l with
  | [] => Return []
  | a :: l' =>
      b ← f a;
      bs ← comprehension f l';
      Return (b :: bs)
  end.

(** [l.pop()]: removes and returns the last element. *)
Definition list_pop {A} (l : list A) : result (A * list A) :=
  match last l with
  | Some a => Return (a, removelast l)
  | None => Raise IndexError
  end.

(** ** torch: layers and tensor operations *)

(** A Python float obtained as [math.log(10000) / d], possibly negated. *)
Inductive scalar : Set :=
| log_10000_over (d : Z)
| neg (s : scalar).

(** [math.log(10000) / d] for an integer [d]. *)
Definition math_log_10000_div (d : Z) : result scalar :=
  if decide (d = 0) then Raise ZeroDivisionError else Return (log_10000_over d).

Module nn.

(** The learned parameters of a layer are not modelled; a layer is its
    configuration and the attribute [name] it is stored under. *)
Record Conv : Set := mk_Conv {
  conv_name : string;
  transposed : bool;
  in_channels : Z;
  out_channels : Z;
  kernel_size : Z;
  stride : Z;
  padding : Z
}.

Record BatchNorm : Set := mk_BatchNorm {
  bn_name : string;
  num_features : Z
}.

Record Lin : Set := mk_Lin {
  lin_name : string;
  in_features : Z;
  out_features : Z
}.

Record Drop : Set := mk_Drop { p : Q }.

(** The constructors allocate the parameter tensors, which fails on a
    negative size. *)
Definition Conv2d (name : string) (in_ch out_ch k s pad : Z) : result Conv :=
  if decide (0 <= in_ch /\ 0 <= out_ch) then Return (mk_Conv name false in_ch out_ch k s pad)
  else Raise RuntimeError.

Definition ConvTranspose2d (name : string) (in_ch out_ch k s pad : Z) : result Conv :=
  if decide (0 <= in_ch /\ 0 <= out_ch) then Return (mk_Conv name true in_ch out_ch k s pad)
  else Raise RuntimeError.

Definition BatchNorm2d (name : string) (features : Z) : result BatchNorm :=
  if decide (0 <= features) then Return (mk_BatchNorm name features)
  else Raise RuntimeError.

Definition Linear (name : string) (in_f out_f : Z) : result Lin :=
  if decide (0 <= in_f /\ 0 <= out_f) then Return (mk_Lin name in_f out_f)
  else Raise RuntimeError.

Definition Dropout (prob : Q) : result Drop :=
  if decide (Qle_bool 0 prob = true /\ Qle_bool prob 1 = true) then Return (mk_Drop prob)
  else Raise ValueError.

End nn.

(** What [torch.sigmoid] computes on each element. *)
Definition sigmoid (v : R) : R := (1 / (1 + exp (- v)))%R.

(** The tensor operations the two modules call. *)
Class TensorOps (T : Type) : Type := {
  torch_arange : Z -> result T;
  mul_scalar : T -> scalar -> T;
  torch_exp : T -> T;
  torch_sin : T -> T;
  torch_cos : T -> T;
  torch_sigmoid : T -> T;
  torch_relu : T -> T;
  (** [x[:, None]] is [index_none 1 x], [x[None, :]] is [index_none 0 x] *)
  index_none : nat -> T -> result T;
  (** [x[(..., ) + (None, ) * 2]] *)
  append_two_axes : T -> T;
  torch_mul : T -> T -> result T;
  torch_add : T -> T -> result T;
  torch_cat : list T -> Z -> result T;
  (** [torch.mean(x, dim, keepdim=True)] and [torch.max(x, dim, keepdim=True)[0]] *)
  torch_mean : T -> Z -> result T;
  torch_max : T -> Z -> result T;
  apply_conv : nn.Conv -> T -> result T;
  apply_batch_norm : bool -> nn.BatchNorm -> T -> result T;
  apply_linear : nn.Lin -> T -> result T;
  apply_dropout : bool -> nn.Drop -> T -> T
}.

(** ** models.py: SinusoidalPositionEmbeddings *)

Module SinusoidalPositionEmbeddings.

Section forward.
Context {T : Type} `{TensorOps T}.

Definition forward (dim : Z) (time : T) : result T :=
  let half_dim := dim `div` 2 in
  embeddings ← math_log_10000_div (half_dim - 1);
  steps ← torch_arange half_dim;
  let embeddings := torch_exp (mul_scalar steps (neg embeddings)) in
  column ← index_none 1 time;
  row ← index_none 0 embeddings;
  embeddings ← torch_mul column row;
  torch_cat [torch_sin embeddings; torch_cos embeddings] (-1).
End forward.

(** The same computation on a one-dimensional batch of real timesteps;
    the result is the list of rows of the embedding matrix. *)
Fixpoint scalar_value (s : scalar) : R :=
  match s with
  | log_10000_over d => (ln 10000 / IZR d)%R
  | neg s' => (- scalar_value s')%R
  end.

Definition arange (n : Z) : result (list Z) :=
  if decide (n < 0) then Raise RuntimeError else Return (seqZ 0 n).

Definition forward_real (dim : Z) (time : list R) : result (list (list R)) :=
  let half_dim := dim `div` 2 in
  embeddings ← math_log_10000_div (half_dim - 1);
  steps ← arange half_dim;
  let embeddings :=
    (fun i => exp (IZR i * scalar_value (neg embeddings))%R) <$> steps in
  let embeddings :=
    (fun t => (fun e => (t * e)%R) <$> embeddings) <$> time in
  Return ((fun r => (sin <$> r) ++ (cos <$> r)) <$> embeddings).

End SinusoidalPositionEmbeddings.

(** ** models.py: SpatialAttention *)

Module SpatialAttention.

Record t : Set := mk { conv : nn.Conv }.

Definition __init__ (kernel_size : Z) : result t :=
  c ← nn.Conv2d "conv" 2 1 kernel_size 1 (kernel_size `div` 2);
  Return (mk c).

Section forward.
Context {T : Type} `{TensorOps T}.

Definition forward (self : t) (x : T) : result T :=
  avg_out ← torch_mean x 1;
  max_out ← torch_max x 1;
  concat ← torch_cat [avg_out; max_out] 1;
  c ← apply_conv (conv self) concat;
  let attention := torch_sigmoid c in
  torch_mul x attention.
End forward.

End SpatialAttention.

(** ** models.py: Block *)

Module Block.

Record t : Set := mk {
  time_mlp : nn.Lin;
  conv1 : nn.Conv;
  transform : nn.Conv;
  conv2 : nn.Conv;
  bnorm1 : nn.BatchNorm;
  bnorm2 : nn.BatchNorm;
  attention : bool;
  spatial_attention : option SpatialAttention.t;
  dropout : option Q;
  drop : option nn.Drop;
  training : bool
}.

(** Truth value of [self.dropout]: [None] and [0.0] are false. *)
Definition dropout_set (d : option Q) : bool :=
  match d with
  | Some q => negb (Qeq_bool q 0)
  | None => false
  end.

Definition __init__ (in_ch out_ch time_emb_dim : Z) (attn up : bool)
    (dropout_rate : option Q) : result t :=
  time_mlp ← nn.Linear "time_mlp" time_emb_dim out_ch;
  '(conv1, transform) ←
    (if up then
       c ← nn.Conv2d "conv1" in_ch out_ch 3 1 1;
       tr ← nn.ConvTranspose2d "transform" out_ch out_ch 4 2 1;
       Return (c, tr)
     else
       c ← nn.Conv2d "conv1" in_ch out_ch 3 1 1;
       tr ← nn.Conv2d "transform" out_ch out_ch 4 2 1;
       Return (c, tr));
  conv2 ← nn.Conv2d "conv2" out_ch out_ch 3 1 1;
  bnorm1 ← nn.BatchNorm2d "bnorm1" out_ch;
  bnorm2 ← nn.BatchNorm2d "bnorm2" out_ch;
  spatial_attention ←
    (if attn then sa ← SpatialAttention.__init__ 7; Return (Some sa)
     else Return None);
  drop ←
    (if dropout_set dropout_rate then
       match dropout_rate with
       | Some q => d ← nn.Dropout q; Return (Some d)
       | None => Return None
       end
     else Return None);
  Return (mk time_mlp conv1 transform conv2 bnorm1 bnorm2 attn
            spatial_attention dropout_rate drop true).

Section forward.
Context {T : Type} `{TensorOps T}.

Definition forward (self : t) (x t : T) : result T :=
  (* First Conv *)
  c ← apply_conv (conv1 self) x;
  h ← apply_batch_norm (training self) (bnorm1 self) (torch_relu c);
  (* Time embedding *)
  l ← apply_linear (time_mlp self) t;
  let time_emb := torch_relu l in
  (* Extend last 2 dimensions *)
  let time_emb := append_two_axes time_emb in
  (* Add time channel *)
  h ← torch_add h time_emb;
  (* Second Conv *)
  c ← apply_conv (conv2 self) h;
  h ← apply_batch_norm (training self) (bnorm2 self) (torch_relu c);
  h ← (if attention self then
         match spatial_attention self with
         | Some sa => SpatialAttention.forward sa h
         | None => Raise AttributeError
         end
       else Return h);
  h ← (if dropout_set (dropout self) then
         match drop self with
         | Some d => Return (apply_dropout (training self) d h)
         | None => Raise AttributeError
         end
       else Return h);
  (* Down or Upsample *)
  apply_conv (transform self) h.
End forward.

(** [eval()]: leaves training mode. *)
Definition eval (self : t) : t :=
  mk (time_mlp self) (conv1 self) (transform self) (conv2 self) (bnorm1 self)
     (bnorm2 self) (attention self) (spatial_attention self) (dropout self)
     (drop self) false.

End Block.

(** ** models.py: SimpleUnet *)

(** The list [residual_inputs] of a forward pass, with two ghost counters:
    how many times [append] and [pop] were called on it. *)
Record skip_stack (T : Type) : Type := mk_skip_stack {
  items : list T;
  pushes : nat;
  pops : nat
}.
Global Arguments mk_skip_stack {T} items pushes pops.
Global Arguments items {T} _.
Global Arguments pushes {T} _.
Global Arguments pops {T} _.

Definition stack_append {T} (st : skip_stack T) (x : T) : skip_stack T :=
  mk_skip_stack (items st ++ [x]) (S (pushes st)) (pops st).

Definition stack_pop {T} (st : skip_stack T) : result (T * skip_stack T) :=
  '(x, rest) ← list_pop (items st);
  Return (x, mk_skip_stack rest (pushes st) (S (pops st))).

Module SimpleUnet.

Record t : Set := mk {
  input_channels : Z;
  output_channels : Z;
  down_channels : list Z;
  up_channels : list Z;
  up_in_channels : list Z;
  time_emb_dim : Z;
  time_mlp : nn.Lin;
  conv0 : nn.Conv;
  downs : list Block.t;
  ups : list Block.t;
  output : nn.Conv;
  training : bool
}.

Definition __init__ (unet_channels : list Z) (in_channels out_channels : Z)
    (emb_dim : Z) (attention : bool) (dropout : option Q) : result t :=
  let down_channels := unet_channels in
  let up_channels := reverse unet_channels in
  up0 ← py_index up_channels 0;
  doubled ← comprehension (fun i => c ← py_index up_channels i; Return (c * 2))
              (seqZ 1 (Z.of_nat (length up_channels) - 1));
  let up_in_channels := [up0] ++ doubled in
  (* Time embedding *)
  time_mlp ← nn.Linear "time_mlp.1" emb_dim emb_dim;
  (* Initial projection *)
  d0 ← py_index down_channels 0;
  conv0 ← nn.Conv2d "conv0" in_channels d0 3 1 1;
  (* Downsample *)
  downs ← comprehension
            (fun i =>
               a ← py_index down_channels i;
               b ← py_index down_channels (i + 1);
               Block.__init__ a b emb_dim attention false dropout)
            (seqZ 0 (Z.of_nat (length down_channels) - 1));
  (* Upsample *)
  ups ← comprehension
          (fun i =>
             a ← py_index up_in_channels i;
             b ← py_index up_channels (i + 1);
             Block.__init__ a b emb_dim attention true dropout)
          (seqZ 0 (Z.of_nat (length up_channels) - 1));
  last_up ← py_index up_channels (-1);
  output ← nn.Conv2d "output" last_up out_channels 1 1 0;
  Return (mk in_channels out_channels down_channels up_channels up_in_channels
            emb_dim time_mlp conv0 downs ups output true).

Section forward.
Context {T : Type} `{TensorOps T}.

(** [for i, down in enumerate(self.downs)], from position [i] on. *)
Fixpoint down_pass (n_downs : nat) (i : nat) (rest : list Block.t)
    (x t : T) (residual_inputs : skip_stack T) : result (T * skip_stack T) :=
  match rest with
  | [] => Return (x, residual_inputs)
  | down :: rest' =>
      x ← Block.forward down x t;
      let residual_inputs :=
        if decide (Z.of_nat i < Z.of_nat n_downs - 1)
        then stack_append residual_inputs x
        else residual_inputs in
      down_pass n_downs (S i) rest' x t residual_inputs
  end.

(** [for i, up in enumerate(self.ups)], from position [i] on. *)
Fixpoint up_pass (i : nat) (rest : list Block.t)
    (x t : T) (residual_inputs : skip_stack T) : result (T * skip_stack T) :=
  match rest with
  | [] => Return (x, residual_inputs)
  | up :: rest' =>
      '(x, residual_inputs) ←
        (if decide (i ≠ 0%nat) then
           '(residual_x, residual_inputs) ← stack_pop residual_inputs;
           (* Add residual x as additional channels *)
           x ← torch_cat [x; residual_x] 1;
           Return (x, residual_inputs)
         else Return (x, residual_inputs));
      x ← Block.forward up x t;
      up_pass (S i) rest' x t residual_inputs
  end.

(** The forward pass, returning the output together with
    [residual_inputs] as it is when the pass ends. *)
Definition forward_with_stack (self : t) (x timestep : T)
  : result (T * skip_stack T) :=
  (* Embedd time *)
  e ← SinusoidalPositionEmbeddings.forward (time_emb_dim self) timestep;
  l ← apply_linear (time_mlp self) e;
  let t := torch_relu l in
  (* Initial conv *)
  x ← apply_conv (conv0 self) x;
  (* Unet *)
  let residual_inputs := mk_skip_stack [x] 0 0 in
  '(x, residual_inputs) ←
    down_pass (length (downs self)) 0 (downs self) x t residual_inputs;
  '(x, residual_inputs) ← up_pass 0 (ups self) x t residual_inputs;
  x ← apply_conv (output self) x;
  Return (x, residual_inputs).

Definition forward (self : t) (x timestep : T) : result T :=
  fst <$> forward_with_stack self x timestep.
End forward.

(** [eval()]: leaves training mode, in the model and in every block. *)
Definition eval (self : t) : t :=
  mk (input_channels self) (output_channels self) (down_channels self)
     (up_channels self) (up_in_channels self) (time_emb_dim self)
     (time_mlp self) (conv0 self) (Block.eval <$> downs self)
     (Block.eval <$> ups self) (output self) false.

End SimpleUnet.

(** ** Tensors as shapes *)

(** The instance that keeps of a tensor its [torch.Size] and performs the
    checks PyTorch makes on sizes. *)
Module Shape.

Definition tensor : Type := list Z.

Definition arange (n : Z) : result tensor :=
  if decide (n < 0) then Raise RuntimeError else Return [n].

Definition insert_axis (axis : nat) (s : tensor) : result tensor :=
  match s with
  | [] => Raise IndexError
  | _ :: _ => Return (take axis s ++ 1 :: drop axis s)
  end.

(** Broadcasting, on the sizes read from the last axis backwards. *)
Fixpoint broadcast_rev (a b : list Z) : result (list Z) :=
  match a, b with
  | [], _ => Return b
  | _, [] => Return a
  | x :: a', y :: b' =>
      r ← broadcast_rev a' b';
      if decide (x = y) then Return (x :: r)
      else if decide (x = 1) then Return (y :: r)
      else if decide (y = 1) then Return (x :: r)
      else Raise RuntimeError
  end.

Definition broadcast (a b : tensor) : result tensor :=
  reverse <$> broadcast_rev (reverse a) (reverse b).

(** A dimension argument, possibly negative, against a rank. *)
Definition norm_dim (rank : nat) (dim : Z) : result nat :=
  let d := if decide (dim < 0) then Z.of_nat rank + dim else dim in
  if decide (0 <= d < Z.of_nat rank) then Return (Z.to_nat d)
  else Raise IndexError.

Fixpoint cat_sizes (d : nat) (first : tensor) (rest : list tensor) : result Z :=
  match rest with
  | [] => Return 0
  | s :: rest' =>
      if decide (length s = length first /\ take d s = take d first
                 /\ drop (S d) s = drop (S d) first)
      then n ← cat_sizes d first rest'; Return (s !!! d + n)
      else Raise RuntimeError
  end.

Definition cat (l : list tensor) (dim : Z) : result tensor :=
  match l with
  | [] => Raise RuntimeError
  | first :: _ =>
      d ← norm_dim (length first) dim;
      n ← cat_sizes d first l;
      Return (<[d:=n]> first)
  end.

Definition mean (s : tensor) (dim : Z) : result tensor :=
  d ← norm_dim (length s) dim;
  Return (<[d:=1]> s).

Definition max (s : tensor) (dim : Z) : result tensor :=
  d ← norm_dim (length s) dim;
  if decide (s !!! d = 0) then Raise IndexError else Return (<[d:=1]> s).

(** Output size of a convolution along one spatial axis. *)
Definition conv_out (c : nn.Conv) (n : Z) : result Z :=
  if nn.transposed c then
    let o := (n - 1) * nn.stride c - 2 * nn.padding c + nn.kernel_size c in
    if decide (0 < o) then Return o else Raise RuntimeError
  else
    if decide (n + 2 * nn.padding c < nn.kernel_size c) then Raise RuntimeError
    else Return ((n + 2 * nn.padding c - nn.kernel_size c) `div` nn.stride c + 1).

(** A convolution without input channels or without output channels can
    be built but not applied. *)
Definition conv (c : nn.Conv) (s : tensor) : result tensor :=
  if decide (nn.in_channels c = 0 \/ nn.out_channels c = 0) then Raise RuntimeError
  else
    match s with
    | [b; ch; h; w] =>
        if decide (ch = nn.in_channels c) then
          h' ← conv_out c h;
          w' ← conv_out c w;
          Return [b; nn.out_channels c; h'; w']
        else Raise RuntimeError
    | [ch; h; w] =>
        if decide (ch = nn.in_channels c) then
          h' ← conv_out c h;
          w' ← conv_out c w;
          Return [nn.out_channels c; h'; w']
        else Raise RuntimeError
    | _ => Raise RuntimeError
    end.

(** In training mode the batch statistics need more than one value per
    channel. *)
Definition batch_norm (training : bool) (bn : nn.BatchNorm) (s : tensor)
  : result tensor :=
  match s with
  | [b; ch; h; w] =>
      if decide (training = true /\ b * (h * w) = 1) then Raise ValueError
      else if decide (ch = nn.num_features bn) then Return s
      else Raise RuntimeError
  | _ => Raise ValueError
  end.

Definition linear (l : nn.Lin) (s : tensor) : result tensor :=
  match last s with
  | Some n =>
      if decide (n = nn.in_features l)
      then Return (removelast s ++ [nn.out_features l])
      else Raise RuntimeError
  | None => Raise RuntimeError
  end.

Global Instance ops : TensorOps tensor := {|
  torch_arange := arange;
  mul_scalar := fun s _ => s;
  torch_exp := fun s => s;
  torch_sin := fun s => s;
  torch_cos := fun s => s;
  torch_sigmoid := fun s => s;
  torch_relu := fun s => s;
  index_none := insert_axis;
  append_two_axes := fun s => s ++ [1; 1];
  torch_mul := broadcast;
  torch_add := broadcast;
  torch_cat := cat;
  torch_mean := mean;
  torch_max := max;
  apply_conv := conv;
  apply_batch_norm := batch_norm;
  apply_linear := linear;
  apply_dropout := fun _ _ s => s
|}.

End Shape.

(** ** Tensors as expressions *)

(** The instance that records which operations were applied to which
    operands; no operation fails. *)
Module Symbolic.

Inductive term : Type :=
| Input (name : string)
| Arange (n : Z)
| MulScalar (a : term) (s : scalar)
| Exp (a : term)
| Sin (a : term)
| Cos (a : term)
| Sigmoid (a : term)
| Relu (a : term)
| IndexNone (axis : nat) (a : term)
| AppendTwoAxes (a : term)
| Mul (a b : term)
| Add (a b : term)
| Cat (l : list term) (dim : Z)
| Mean (a : term) (dim : Z)
| Max (a : term) (dim : Z)
| ApplyConv (c : nn.Conv) (a : term)
| ApplyBatchNorm (training : bool) (bn : nn.BatchNorm) (a : term)
| ApplyLinear (l : nn.Lin) (a : term)
| ApplyDropout (training : bool) (d : nn.Drop) (a : term).

Global Instance ops : TensorOps term := {|
  torch_arange := fun n => Return (Arange n);
  mul_scalar := MulScalar;
  torch_exp := Exp;
  torch_sin := Sin;
  torch_cos := Cos;
  torch_sigmoid := Sigmoid;
  torch_relu := Relu;
  index_none := fun axis a => Return (IndexNone axis a);
  append_two_axes := AppendTwoAxes;
  torch_mul := fun a b => Return (Mul a b);
  torch_add := fun a b => Return (Add a b);
  torch_cat := fun l dim => Return (Cat l dim);
  torch_mean := fun a dim => Return (Mean a dim);
  torch_max := fun a dim => Return (Max a dim);
  apply_conv := fun c a => Return (ApplyConv c a);
  apply_batch_norm := fun tr bn a => Return (ApplyBatchNorm tr bn a);
  apply_linear := fun l a => Return (ApplyLinear l a);
  apply_dropout := ApplyDropout
|}.

(** The real function that the operation at the head of a term applies to
    every element of its operand, when it is an elementwise one. *)
Definition pointwise (a : term) : option (R -> R) :=
  match a with
  | Exp _ => Some exp
  | Sin _ => Some sin
  | Cos _ => Some cos
  | Sigmoid _ => Some sigmoid
  | Relu _ => Some (Rmax 0)
  | _ => None
  end.

End Symbolic.

(** ** Closed forms and sample inputs *)

(** The rate given to a block, when one is given, is a probability. *)
Definition dropout_ok (rate : option Q) : Prop :=
  match rate with
  | Some q => Qle_bool 0 q = true /\ Qle_bool q 1 = true
  | None => True
  end.

(** The layers a block is made of, written out. *)
Definition Block_layers (in_ch out_ch emb_dim : Z) (attn up : bool)
    (rate : option Q) (training : bool) : Block.t :=
  Block.mk
    (nn.mk_Lin "time_mlp" emb_dim out_ch)
    (nn.mk_Conv "conv1" false in_ch out_ch 3 1 1)
    (nn.mk_Conv "transform" up out_ch out_ch 4 2 1)
    (nn.mk_Conv "conv2" false out_ch out_ch 3 1 1)
    (nn.mk_BatchNorm "bnorm1" out_ch)
    (nn.mk_BatchNorm "bnorm2" out_ch)
    attn
    (if attn then Some (SpatialAttention.mk (nn.mk_Conv "conv" false 2 1 7 1 3))
     else None)
    rate
    (if Block.dropout_set rate then nn.mk_Drop <$> rate else None)
    training.

(** The down stage and the up stage at position [i] for a channel plan:
    the up stages read the plan from its end, and from the second on take
    twice the width. *)
Definition down_stage (plan : list Z) (emb_dim : Z) (attn : bool)
    (rate : option Q) (training : bool) (i : Z) : Block.t :=
  Block_layers (plan !!! Z.to_nat i) (plan !!! Z.to_nat (i + 1))
    emb_dim attn false rate training.

Definition up_stage (plan : list Z) (emb_dim : Z) (attn : bool)
    (rate : option Q) (training : bool) (i : Z) : Block.t :=
  let last := Z.of_nat (length plan) - 1 in
  Block_layers
    ((if decide (i = 0) then 1 else 2) * (plan !!! Z.to_nat (last - i)))
    (plan !!! Z.to_nat (last - i - 1))
    emb_dim attn true rate training.

Definition up_in_width (plan : list Z) (i : Z) : Z :=
  (if decide (i = 0) then 1 else 2)
  * (plan !!! Z.to_nat (Z.of_nat (length plan) - 1 - i)).

(** The network a channel plan gives, written out. *)
Definition SimpleUnet_layers (plan : list Z) (in_ch out_ch emb_dim : Z)
    (attn : bool) (rate : option Q) (training : bool) : SimpleUnet.t :=
  let stages := Z.of_nat (length plan) - 1 in
  SimpleUnet.mk in_ch out_ch plan (reverse plan)
    (up_in_width plan <$> seqZ 0 (Z.of_nat (length plan)))
    emb_dim
    (nn.mk_Lin "time_mlp.1" emb_dim emb_dim)
    (nn.mk_Conv "conv0" false in_ch (plan !!! 0%nat) 3 1 1)
    (down_stage plan emb_dim attn rate training <$> seqZ 0 stages)
    (up_stage plan emb_dim attn rate training <$> seqZ 0 stages)
    (nn.mk_Conv "output" false (plan !!! 0%nat) out_ch 1 1 0)
    training.

(** Spatial size at depth [j] of a network with [K] stages on an input of
    size [2^K * h]. *)
Definition size_at (K h j : Z) : Z := 2 ^ (K - j) * h.

(** Shape of the feature map at depth [j] of the network of [plan] on a
    batch of [B] inputs of size [2^K * h] by [2^K * w], [K] being the number
    of stages: [plan[j]] channels at the spatial size of that depth. *)
Definition stage_shape (plan : list Z) (B h w j : Z) : Shape.tensor :=
  [B; plan !!! Z.to_nat j;
   size_at (Z.of_nat (length plan) - 1) h j;
   size_at (Z.of_nat (length plan) - 1) w j].

(** An entry of the timestamp array equal to [hour]. *)
Definition has_exact_match (dates : np.ndarray Q) (hour : Z) : Prop :=
  exists d, d ∈ np.data dates /\ (d == inject_Z hour)%Q.

Definition sample_rows : np.ndarray Q :=
  np.mk_ndarray [3%nat; 2%nat] [1%Q; 2%Q; 3%Q; 4%Q; 5%Q; 6%Q].

Definition sample_rng : rng := mk_rng (fun k => (7 * k + 3)%nat) 0.

Definition no_files : env := mk_env ∅ (fun _ => 0).
Definition empty_log : log := mk_log [] [].

(** An archive in which every year holds two fields, stamped 01:00 on
    1 January and 3600 seconds later when [stamped], and stamped 0
    otherwise; the low-resolution variable [u10] has one entry per field. *)
Definition year_files (stamped : bool) (year : Z) : list (string * file) :=
  let hour := if stamped then new_year_hour (mk_env ∅ (fun _ => 0)) year else 0 in
  [("download/cerra/si10-" +:+ pretty year +:+ ".npy",
    NpyFile (np.mk_ndarray [2; 1; 1]%nat [inject_Z year; inject_Z year]));
   ("download/cerra/datetime_" +:+ pretty year +:+ ".npy",
    NpyFile (np.mk_ndarray [2%nat] [inject_Z hour; inject_Z (hour + 3600)]))].

Definition sample_archive (stamped : bool) : env :=
  mk_env
    (list_to_map
       (("download/era5/u10-2010_2020.nc",
         NcFile {[ "u10" := np.mk_ndarray [22; 1; 1]%nat
                              (inject_Z <$> seqZ 0 22) ]})
        :: (seqZ 2010 11 ≫= year_files stamped)))
    (fun _ => 0).

(** The rational number a finite float stands for (0 for the others). *)
Definition float_value (x : float) : Q :=
  match x with
  | SpecFloat.S754_finite s m e =>
      (inject_Z (SpecFloat.cond_Zopp s (Z.pos m)) * 2 ^ e)%Q
  | _ => 0%Q
  end.

Definition float_finite (x : float) : Prop :=
  match x with
  | SpecFloat.S754_zero _ | SpecFloat.S754_finite _ _ _ => True
  | _ => False
  end.

(** Rounding to the nearest float raises a positive value by at most
    [float_u] of it, or by [float_eta] where floats are subnormal;
    [float_emin] is the exponent of the smallest float. *)
Definition float_u : Q := 1 # 9007199254740992.
Definition float_eta : Q := (2 ^ (-1075))%Q.
Definition float_emin : Z := 3 - float_emax - float_prec.

(** What [float(n)], and what a product [x * n] with [x <= 1], can reach
    at most. *)
Definition float_of_int_bound (n : Z) : Q :=
  (inject_Z n * (1 + float_u) + float_eta)%Q.

Definition product_bound (n : Z) : Q :=
  (float_of_int_bound n * (1 + float_u) + float_eta)%Q.

(** The floats that the literals [0.15], [0.29] and [0.6] denote. *)
Definition float_0_15 : float := SpecFloat.S754_finite false 5404319552844595 (-55).
Definition float_0_29 : float := SpecFloat.S754_finite false 5224175567749775 (-54).
Definition float_0_6 : float := SpecFloat.S754_finite false 5404319552844595 (-53).

(** ** Further samples and closed forms *)

(** ** Further definitions: well-formed arrays and archive paths *)

(** The data of an array fill its shape. *)
Definition ndarray_wf {V} (a : np.ndarray V) : Prop :=
  length (np.data a) = np.prod_list (np.shape a).

(** Size of the first axis of an array (0 for a 0-d array). *)
Definition axis0 {V} (a : np.ndarray V) : nat :=
  match np.shape a with
  | n :: _ => n
  | [] => 0%nat
  end.

(** The two files [merge_out_data] reads for a year. *)
Definition si10_path (year : Z) : string :=
  "download/cerra/si10-" +:+ pretty year +:+ ".npy".

Definition datetime_path (year : Z) : string :=
  "download/cerra/datetime_" +:+ pretty year +:+ ".npy".

Definition sample_low : np.ndarray Q :=
  np.mk_ndarray [3%nat; 2%nat] [1%Q; 2%Q; 3%Q; 4%Q; 5%Q; 6%Q].

Definition sample_high : np.ndarray Q :=
  np.mk_ndarray [2%nat; 1%nat] [7%Q; 8%Q].

(** The merged array of a list of per-year arrays that share the shape
    [rest] after the first axis. *)
Definition merged (rest : list nat) (parts : list (np.ndarray Q)) : np.ndarray Q :=
  np.mk_ndarray (sum_list (axis0 <$> parts) :: rest) (parts ≫= np.data).

(** The paths [merge_out_data] opens for a list of years, in order. *)
Definition cerra_paths (years : list Z) : list string :=
  years ≫= fun year => [si10_path year; datetime_path year].

(** The files of a year are on disk, holding [field] and [stamp], arrays
    with a first axis and the given shapes after it. *)
Definition year_on_disk (e : env) (rest_f rest_t : list nat)
    (field stamp : Z -> np.ndarray Q) (year : Z) : Prop :=
  fs e !! si10_path year = Some (NpyFile (field year))
  /\ fs e !! datetime_path year = Some (NpyFile (stamp year))
  /\ np.shape (field year) = axis0 (field year) :: rest_f
  /\ np.shape (stamp year) = axis0 (stamp year) :: rest_t.

(** The yearly arrays of [sample_archive true]. *)
Definition sample_field (year : Z) : np.ndarray Q :=
  np.mk_ndarray [2; 1; 1]%nat [inject_Z year; inject_Z year].

Definition sample_stamp (year : Z) : np.ndarray Q :=
  let hour := new_year_hour (mk_env ∅ (fun _ => 0)) year in
  np.mk_ndarray [2%nat] [inject_Z hour; inject_Z (hour + 3600)].

(** * Properties *)

Lemma bind_Return {A B} (r : result A) (k : A -> result B) b :
  r ≫= k = Return b -> exists a, r = Return a /\ k a = Return b.
Proof. destruct r as [a|e]; simpl; [eauto | discriminate]. Qed.

(** ** Paired sample provider *)

Section DownscalingDataset_facts.
Context {V : Type}.
Implicit Types low high : np.ndarray V.

Lemma norm_indices_in_range (n : nat) (idx : list Z) :
  Forall (fun i => - Z.of_nat n <= i < Z.of_nat n) idx ->
  exists js, np.norm_indices n idx = Return js.
Proof.
  induction 1 as [|i idx Hi _ [js IH]]; simpl; [by eexists|].
  rewrite IH. unfold np.norm_index.
  destruct (decide (0 <= i < Z.of_nat n)); [by eexists|].
  rewrite decide_True by lia. by eexists.
Qed.

Lemma take_rows_len low (idx : list Z) (n : nat) :
  np.len low = Return n ->
  Forall (fun i => - Z.of_nat n <= i < Z.of_nat n) idx ->
  exists g, np.take_rows low idx = Return g /\ np.len g = Return (length idx).
Proof.
  unfold np.len, np.take_rows. destruct (np.shape low) as [|k rest]; [done|].
  intros [= ->] Hidx. destruct (norm_indices_in_range n idx Hidx) as [js ->].
  simpl. by eexists.
Qed.
End DownscalingDataset_facts.

(** C6 (as amended). Without an index subset, construction raises the
    length-mismatch [ValueError] exactly when the two arrays differ in
    length, and otherwise succeeds with [len(dataset)] equal to the common
    length. With an index subset, all of whose indices are in range, over
    two arrays of equal length, construction succeeds and [len(dataset)] is
    the number of indices supplied. *)
Theorem DownscalingDataset_init_len {V : Type} (low high : np.ndarray V)
    (low_name high_name : option string) (n m : nat) :
  np.len low = Return n ->
  np.len high = Return m ->
  (n ≠ m ->
     DownscalingDataset.__init__ low high low_name high_name None = Raise ValueError)
  /\ (n = m ->
        exists ds,
          DownscalingDataset.__init__ low high low_name high_name None = Return ds
          /\ DownscalingDataset.__len__ ds = Return n)
  /\ (forall idx : list Z,
        n = m ->
        Forall (fun i => - Z.of_nat n <= i < Z.of_nat n) idx ->
        exists ds,
          DownscalingDataset.__init__ low high low_name high_name (Some idx) = Return ds
          /\ DownscalingDataset.__len__ ds = Return (length idx)).
Proof.
  intros Hlow Hhigh. repeat split.
  - intros Hne. unfold DownscalingDataset.__init__. simpl.
    rewrite Hlow, Hhigh. simpl. by rewrite decide_True.
  - intros <-. unfold DownscalingDataset.__init__. simpl.
    rewrite Hlow, Hhigh. simpl. rewrite decide_False by (intros ?; congruence).
    eexists. split; [done|]. by unfold DownscalingDataset.__len__.
  - intros idx <- Hidx.
    destruct (take_rows_len low idx n Hlow Hidx) as (gl & Hgl & Hlen_l).
    destruct (take_rows_len high idx n Hhigh Hidx) as (gh & Hgh & Hlen_h).
    unfold DownscalingDataset.__init__. simpl. rewrite Hgl, Hgh. simpl.
    rewrite Hlen_l, Hlen_h. simpl. rewrite decide_False by (intros ?; congruence).
    eexists. split; [done|]. by unfold DownscalingDataset.__len__.
Qed.

Lemma DownscalingDataset_init_len_witness :
  exists ds,
    DownscalingDataset.__init__ sample_rows sample_rows None None (Some [2; -3]) = Return ds
    /\ DownscalingDataset.__len__ ds = Return 2%nat.
Proof.
  destruct (DownscalingDataset_init_len sample_rows sample_rows None None 3 3
              eq_refl eq_refl) as (_ & _ & Hidx).
  apply (Hidx [2; -3] eq_refl).
  repeat constructor; lia.
Defined.

(** Counterexample to C6 as stated: with an index subset the stored arrays
    are the gathered rows, so two arrays of equal length 3 give a dataset of
    length 1. *)
Lemma DownscalingDataset_len_is_gathered_len :
  np.len sample_rows = Return 3%nat
  /\ exists ds,
       DownscalingDataset.__init__ sample_rows sample_rows None None (Some [0]) = Return ds
       /\ DownscalingDataset.__len__ ds = Return 1%nat
       /\ DownscalingDataset.__len__ ds ≠ np.len sample_rows.
Proof. split; [done|]. eexists. split; [reflexivity|]. split; [done|]. discriminate. Qed.

(** ** Split generator *)

Lemma swap_Permutation {A} (x : list A) (i j : nat) : swap x i j ≡ₚ x.
Proof.
  unfold swap. destruct (x !! i) as [a|] eqn:Hi; [|done].
  destruct (x !! j) as [b|] eqn:Hj; [|done].
  by apply Permutation_insert_swap.
Qed.

Lemma shuffle_from_Permutation {A} (i : nat) (x : list A) (g : rng) :
  (shuffle_from i x g).1 ≡ₚ x.
Proof.
  revert x g. induction i as [|i IH]; intros x g; simpl; [done|].
  rewrite IH. apply swap_Permutation.
Qed.

Lemma np_random_permutation_Permutation (n : Z) (g : rng) :
  (np_random_permutation n g).1 ≡ₚ seqZ 0 n.
Proof. apply shuffle_from_Permutation. Qed.

Lemma slice_bound_in_range (len : nat) (i : Z) :
  0 <= i <= Z.of_nat len -> np.slice_bound len i = Z.to_nat i.
Proof. intros Hi. unfold np.slice_bound. rewrite decide_False by lia. lia. Qed.

(** The three slices taken at two cut points inside the list are its
    consecutive pieces. *)
Lemma slice1_three_pieces {A} (l : list A) (a b : Z) :
  0 <= a -> 0 <= b -> a + b <= Z.of_nat (length l) ->
  np.slice1 l None (Some a) = take (Z.to_nat a) l
  /\ np.slice1 l (Some a) (Some (a + b)) = take (Z.to_nat b) (drop (Z.to_nat a) l)
  /\ np.slice1 l (Some (a + b)) None = drop (Z.to_nat a + Z.to_nat b) l.
Proof.
  intros Ha Hb Hab. unfold np.slice1. simpl.
  rewrite !slice_bound_in_range by lia. repeat split.
  - f_equal. lia.
  - f_equal. lia.
  - rewrite take_ge; [f_equal; lia|]. rewrite length_drop. lia.
Qed.

Lemma inject_Z_nonneg (n : Z) : 0 <= n -> (0 <= inject_Z n)%Q.
Proof. intros Hn. unfold Qle. simpl. lia. Qed.

(** *** Rounding to the nearest float

    What is needed of [SpecFloat]'s rounding: shifting a mantissa right
    divides it and keeps the last bit shifted out; rounding to nearest
    then exceeds the exact value by at most half a unit in the last
    place. *)

Lemma shr_1_m mrs :
  0 <= SpecFloat.shr_m mrs ->
  SpecFloat.shr_m (SpecFloat.shr_1 mrs) = SpecFloat.shr_m mrs `div` 2
  /\ SpecFloat.shr_r (SpecFloat.shr_1 mrs) = Z.odd (SpecFloat.shr_m mrs).
Proof.
  destruct mrs as [m r s]. simpl. intros Hm.
  destruct m as [|[p|p|]|p]; [done| | |done|lia].
  - split; [|done]. cbn [SpecFloat.shr_m]. rewrite Pos2Z.inj_xI.
    rewrite (Z.mul_comm 2), Z.div_add_l by lia. change (1 `div` 2) with 0. lia.
  - split; [|done]. cbn [SpecFloat.shr_m].
    replace (Z.pos p~0) with (Z.pos p * 2) by lia. by rewrite Z.div_mul by lia.
Qed.

Lemma iter_shr_1 (p : positive) mrs :
  0 <= SpecFloat.shr_m mrs ->
  SpecFloat.shr_m (SpecFloat.iter_pos SpecFloat.shr_1 p mrs)
  = SpecFloat.shr_m mrs `div` 2 ^ Z.pos p
  /\ SpecFloat.shr_r (SpecFloat.iter_pos SpecFloat.shr_1 p mrs)
     = Z.testbit (SpecFloat.shr_m mrs) (Z.pos p - 1).
Proof.
  revert mrs. induction p as [p IH|p IH|]; intros mrs Hm;
    cbn [SpecFloat.iter_pos].
  - destruct (shr_1_m mrs Hm) as [Hm1 Hr1].
    assert (0 <= SpecFloat.shr_m (SpecFloat.shr_1 mrs)) as H1
      by (rewrite Hm1; apply Z.div_pos; lia).
    destruct (IH _ H1) as [Hm2 Hr2].
    assert (0 <= SpecFloat.shr_m
                   (SpecFloat.iter_pos SpecFloat.shr_1 p (SpecFloat.shr_1 mrs)))
      as H2 by (rewrite Hm2; apply Z.div_pos; lia).
    destruct (IH _ H2) as [Hm3 Hr3].
    rewrite Hm3, Hr3, Hm2, Hm1. split.
    + rewrite !Z.div_div by lia. f_equal.
      rewrite Pos2Z.inj_xI.
      replace (2 * Z.pos p + 1) with (1 + Z.pos p + Z.pos p) by lia.
      rewrite !Z.pow_add_r, Z.pow_1_r by lia. ring.
    + rewrite Z.div_div by lia.
      replace (2 * 2 ^ Z.pos p) with (2 ^ (Z.pos p + 1))
        by (rewrite Z.pow_add_r, Z.pow_1_r by lia; ring).
      rewrite Z.div_pow2_bits by lia. f_equal. rewrite Pos2Z.inj_xI. lia.
  - destruct (IH _ Hm) as [Hm2 Hr2].
    assert (0 <= SpecFloat.shr_m (SpecFloat.iter_pos SpecFloat.shr_1 p mrs))
      as H2 by (rewrite Hm2; apply Z.div_pos; lia).
    destruct (IH _ H2) as [Hm3 Hr3].
    rewrite Hm3, Hr3, Hm2. split.
    + rewrite !Z.div_div by lia. f_equal.
      replace (Z.pos p~0) with (Z.pos p + Z.pos p) by lia.
      rewrite !Z.pow_add_r by lia. ring.
    + rewrite Z.div_pow2_bits by lia. f_equal. lia.
  - destruct (shr_1_m mrs Hm) as [Hm1 Hr1]. rewrite Hm1, Hr1. split.
    + done.
    + by rewrite Z.bit0_odd.
Qed.

(** Rounding the quotient by [2^k] up when the last bit shifted out is
    set exceeds the dividend by at most half a unit. *)
Lemma round_up_bound (m k : Z) :
  0 <= m -> 1 <= k ->
  (m `div` 2 ^ k + (if Z.testbit m (k - 1) then 1 else 0)) * 2 ^ k
  <= m + 2 ^ (k - 1).
Proof.
  intros Hm Hk.
  assert (0 < 2 ^ (k - 1)) as Hhalf by (apply Z.pow_pos_nonneg; lia).
  assert (2 ^ k = 2 * 2 ^ (k - 1)) as Hpow.
  { replace k with (1 + (k - 1)) at 1 by lia.
    by rewrite Z.pow_add_r, Z.pow_1_r by lia. }
  pose proof (Z.div_mod m (2 ^ k) ltac:(lia)) as Hdiv.
  pose proof (Z.mod_pos_bound m (2 ^ k) ltac:(lia)) as Hmod.
  destruct (Z.testbit m (k - 1)) eqn:Hbit; [|nia].
  rewrite <- (Z.mod_pow2_bits_low m k) in Hbit by lia.
  rewrite Z.testbit_odd, Z.shiftr_div_pow2 in Hbit by lia.
  assert ((m `mod` 2 ^ k) `div` 2 ^ (k - 1) = 1) as Hq.
  { assert (0 <= (m `mod` 2 ^ k) `div` 2 ^ (k - 1) < 2) as Hb.
    { split; [apply Z.div_pos; lia|]. apply Z.div_lt_upper_bound; lia. }
    destruct (decide ((m `mod` 2 ^ k) `div` 2 ^ (k - 1) = 0)) as [H0|]; [|lia].
    by rewrite H0 in Hbit. }
  pose proof (Z.div_mod (m `mod` 2 ^ k) (2 ^ (k - 1)) ltac:(lia)) as Hdiv2.
  pose proof (Z.mod_pos_bound (m `mod` 2 ^ k) (2 ^ (k - 1)) ltac:(lia)).
  nia.
Qed.

Lemma digits2_pos_bounds (m : positive) :
  2 ^ (Z.pos (SpecFloat.digits2_pos m) - 1) <= Z.pos m
  < 2 ^ Z.pos (SpecFloat.digits2_pos m).
Proof.
  induction m as [m IH|m IH|]; cbn [SpecFloat.digits2_pos]; [| |done].
  - rewrite Pos2Z.inj_succ, Pos2Z.inj_xI.
    replace (Z.succ (Z.pos (SpecFloat.digits2_pos m)) - 1)
      with (1 + (Z.pos (SpecFloat.digits2_pos m) - 1)) by lia.
    rewrite Z.pow_succ_r, Z.pow_add_r, Z.pow_1_r by lia. lia.
  - rewrite Pos2Z.inj_succ.
    replace (Z.pos m~0) with (2 * Z.pos m) by lia.
    replace (Z.succ (Z.pos (SpecFloat.digits2_pos m)) - 1)
      with (1 + (Z.pos (SpecFloat.digits2_pos m) - 1)) by lia.
    rewrite Z.pow_succ_r, Z.pow_add_r, Z.pow_1_r by lia. lia.
Qed.

Lemma round_nearest_even_bound mrs :
  SpecFloat.shr_m mrs
  <= SpecFloat.round_nearest_even (SpecFloat.shr_m mrs)
       (SpecFloat.loc_of_shr_record mrs)
  <= SpecFloat.shr_m mrs + (if SpecFloat.shr_r mrs then 1 else 0).
Proof.
  destruct mrs as [m [] []]; cbn [SpecFloat.shr_m SpecFloat.shr_r
    SpecFloat.loc_of_shr_record SpecFloat.round_nearest_even];
    try destruct (Z.even m); lia.
Qed.

(** One normalising shift: the mantissa is divided by [2^k], the exponent
    raised by [k], where [k] is what the format asks for (0 when the
    mantissa already fits). *)
Lemma shr_fexp_exact (m e : Z) :
  0 <= m ->
  let k := SpecFloat.fexp float_prec float_emax (SpecFloat.Zdigits2 m + e) - e in
  exists mrs,
    SpecFloat.shr_fexp float_prec float_emax m e SpecFloat.loc_Exact
    = (mrs, e + Z.max 0 k)
    /\ SpecFloat.shr_m mrs = m `div` 2 ^ Z.max 0 k
    /\ (1 <= k -> SpecFloat.shr_r mrs = Z.testbit m (k - 1))
    /\ (k <= 0 -> SpecFloat.shr_r mrs = false).
Proof.
  intros Hm k. unfold SpecFloat.shr_fexp, SpecFloat.shr. fold k.
  cbn [SpecFloat.shr_record_of_loc].
  destruct k as [|p|p] eqn:Hk.
  - eexists. split; [by rewrite Z.add_0_r|]. cbn [SpecFloat.shr_m SpecFloat.shr_r].
    split; [by rewrite Z.div_1_r|]. split; [lia|done].
  - destruct (iter_shr_1 p (SpecFloat.Build_shr_record m false false) Hm)
      as [Hm' Hr']. cbn [SpecFloat.shr_m] in Hm', Hr'.
    eexists. split; [by rewrite Z.max_r by lia|].
    rewrite Z.max_r by lia. split; [done|]. split; [done|lia].
  - eexists. split; [by rewrite Z.max_l, Z.add_0_r by lia|].
    cbn [SpecFloat.shr_m SpecFloat.shr_r]. rewrite Z.max_l by lia.
    split; [by rewrite Z.div_1_r|]. split; [lia|done].
Qed.

(** Rounding a positive [M * 2^E] to the format: the result is zero or
    [m * 2^e] (infinite when [e] is too large), and exceeds the exact value
    by at most [2^-53] of it, or by [2^(emin-1)] in the subnormal range. *)
Lemma binary_round_aux_upper (s : bool) (M : positive) (E : Z) :
  exists m e : Z,
    SpecFloat.binary_round_aux float_prec float_emax s (Z.pos M) E
      SpecFloat.loc_Exact
    = match m with
      | Z0 => SpecFloat.S754_zero s
      | Z.pos p =>
          if e <=? float_emax - float_prec then SpecFloat.S754_finite s p e
          else SpecFloat.S754_infinity s
      | Z.neg _ => SpecFloat.S754_nan
      end
    /\ 0 <= m /\ E <= e
    /\ (m * 2 ^ (e - E) <= Z.pos M
        \/ 2 ^ 53 * (m * 2 ^ (e - E) - Z.pos M) <= Z.pos M
        \/ (E < float_emin
            /\ m * 2 ^ (e - E) <= Z.pos M + 2 ^ (float_emin - 1 - E))).
Proof.
  unfold SpecFloat.binary_round_aux.
  destruct (shr_fexp_exact (Z.pos M) E ltac:(lia)) as (mrs1 & -> & Hm1 & Hr1 & Hr1').
  set (k := SpecFloat.fexp float_prec float_emax
              (SpecFloat.Zdigits2 (Z.pos M) + E) - E) in *.
  pose proof (round_nearest_even_bound mrs1) as Hrne.
  set (m1 := SpecFloat.round_nearest_even (SpecFloat.shr_m mrs1)
               (SpecFloat.loc_of_shr_record mrs1)) in *.
  assert (0 < 2 ^ Z.max 0 k) as Hpow by (apply Z.pow_pos_nonneg; lia).
  assert (0 <= SpecFloat.shr_m mrs1) as Hm1pos
    by (rewrite Hm1; apply Z.div_pos; lia).
  destruct (shr_fexp_exact m1 (E + Z.max 0 k) ltac:(lia))
    as (mrs2 & -> & Hm2 & _).
  set (k2 := SpecFloat.fexp float_prec float_emax
               (SpecFloat.Zdigits2 m1 + (E + Z.max 0 k)) - (E + Z.max 0 k)) in *.
  assert (0 < 2 ^ Z.max 0 k2) as Hpow2 by (apply Z.pow_pos_nonneg; lia).
  exists (SpecFloat.shr_m mrs2), (E + Z.max 0 k + Z.max 0 k2).
  split; [done|].
  assert (0 <= SpecFloat.shr_m mrs2) as Hm2pos
    by (rewrite Hm2; apply Z.div_pos; lia).
  split; [done|]. split; [lia|].
  replace (E + Z.max 0 k + Z.max 0 k2 - E) with (Z.max 0 k2 + Z.max 0 k) by lia.
  rewrite Z.pow_add_r by lia.
  assert (SpecFloat.shr_m mrs2 * 2 ^ Z.max 0 k2 <= m1) as Hstep2.
  { rewrite Hm2. rewrite Z.mul_comm. apply Z.mul_div_le. lia. }
  assert (SpecFloat.shr_m mrs2 * (2 ^ Z.max 0 k2 * 2 ^ Z.max 0 k)
          <= m1 * 2 ^ Z.max 0 k) as Hle by nia.
  destruct (decide (k <= 0)) as [Hk|Hk].
  - left. rewrite Hr1' in Hrne by done.
    assert (Z.max 0 k = 0) as HK by lia. rewrite HK in Hm1, Hle |- *.
    rewrite Z.pow_0_r in *. rewrite Z.div_1_r in Hm1. lia.
  - rewrite Hr1 in Hrne by lia.
    assert (Z.max 0 k = k) as HK by lia. rewrite HK in Hm1, Hle, Hpow |- *.
    pose proof (round_up_bound (Z.pos M) k ltac:(lia) ltac:(lia)) as Hup.
    rewrite <- Hm1 in Hup.
    assert (m1 * 2 ^ k <= Z.pos M + 2 ^ (k - 1)) as Hm1up by nia.
    pose proof (digits2_pos_bounds M) as [Hdig _].
    unfold k, SpecFloat.fexp, SpecFloat.emin, float_prec, float_emax in *.
    cbn [SpecFloat.Zdigits2] in *.
    set (d := Z.pos (SpecFloat.digits2_pos M)) in *.
    destruct (Z.max_spec (d + E - 53) (3 - 1024 - 53)) as [[Hlt Hmax]|[Hge Hmax]];
      rewrite Hmax in *.
    + right. right. unfold float_emin, float_prec, float_emax. split; [lia|].
      replace (3 - 1024 - 53 - 1 - E) with (3 - 1024 - 53 - E - 1) by lia. lia.
    + right. left.
      replace (d + E - 53 - E - 1) with (d - 1 - 53) in * by lia.
      assert (2 ^ 53 * 2 ^ (d - 1 - 53) = 2 ^ (d - 1)) as Hsplit.
      { rewrite <- Z.pow_add_r by lia. f_equal. lia. }
      lia.
Qed.

Lemma Qpower_2_pos (e : Z) : (0 < 2 ^ e)%Q.
Proof. by apply Qpower_0_lt. Qed.

Lemma inject_Z_pow2 (k : Z) : 0 <= k -> (inject_Z (2 ^ k) == 2 ^ k)%Q.
Proof. intros Hk. by rewrite Zpower_Qpower. Qed.

Lemma float_eta_small : (0 < float_eta <= 1 # 16)%Q.
Proof.
  split; [apply Qpower_2_pos|]. unfold float_eta.
  change (1 # 16)%Q with (2 ^ (-4))%Q.
  apply Qpower_le_compat_l; [lia|done].
Qed.

(** The rounded positive value, in rationals. *)
Lemma binary_round_aux_value (M : positive) (E : Z) :
  let x := (inject_Z (Z.pos M) * 2 ^ E)%Q in
  let r := SpecFloat.binary_round_aux float_prec float_emax false (Z.pos M) E
             SpecFloat.loc_Exact in
  r = SpecFloat.S754_zero false
  \/ exists (p : positive) (e : Z),
       r = (if e <=? float_emax - float_prec
            then SpecFloat.S754_finite false p e
            else SpecFloat.S754_infinity false)
       /\ (inject_Z (Z.pos p) * 2 ^ e <= x * (1 + float_u) + float_eta)%Q.
Proof.
  intros x r. subst r.
  destruct (binary_round_aux_upper false M E) as (m & e & -> & Hm & He & Hup).
  destruct m as [|p|p]; [by left| |lia]. right. exists p, e. split; [done|].
  pose proof (Qpower_2_pos E) as HE.
  pose proof float_eta_small as [Heta _].
  assert (inject_Z (Z.pos p) * 2 ^ e
          == inject_Z (Z.pos p * 2 ^ (e - E)) * 2 ^ E)%Q as ->.
  { rewrite inject_Z_mult, inject_Z_pow2 by lia.
    rewrite <- Qmult_assoc, <- Qpower_plus by done.
    by replace (e - E + E) with e by lia. }
  set (A := Z.pos p * 2 ^ (e - E)) in *.
  assert (0 <= inject_Z (Z.pos M))%Q as HM
    by (change 0%Q with (inject_Z 0); rewrite <- Zle_Qle; lia).
  subst x. unfold float_u.
  set (P := (2 ^ E)%Q) in *. set (X := inject_Z (Z.pos M)) in *.
  destruct Hup as [Hup|[Hup|[HE' Hup]]].
  - rewrite Zle_Qle in Hup. fold X in Hup. set (a := inject_Z A) in *.
    clearbody a X P.
    assert (a * P <= X * P)%Q by (apply Qmult_le_compat_r; lra).
    assert (0 <= X * P)%Q by (apply Qmult_le_0_compat; lra).
    lra.
  - rewrite Zle_Qle, inject_Z_mult in Hup.
    unfold Zminus in Hup. rewrite inject_Z_plus, inject_Z_opp in Hup.
    fold X in Hup. set (a := inject_Z A) in *.
    change (inject_Z (2 ^ 53)) with (9007199254740992 # 1)%Q in Hup.
    clearbody a X P.
    assert (a <= X * (1 + (1 # 9007199254740992)))%Q by lra.
    assert (a * P <= X * (1 + (1 # 9007199254740992)) * P)%Q
      by (apply Qmult_le_compat_r; lra).
    lra.
  - rewrite Zle_Qle, inject_Z_plus, inject_Z_pow2 in Hup
      by (unfold float_emin, float_emax, float_prec in *; lia).
    assert (2 ^ (float_emin - 1 - E) * P == float_eta)%Q as Heq.
    { unfold P. rewrite <- Qpower_plus by done. unfold float_eta.
      by replace (float_emin - 1 - E + E) with (-1075)
        by (unfold float_emin, float_emax, float_prec; lia). }
    fold X in Hup. set (a := inject_Z A) in *.
    set (h := (2 ^ (float_emin - 1 - E))%Q) in *.
    clearbody a X P h.
    assert (a * P <= (X + h) * P)%Q by (apply Qmult_le_compat_r; lra).
    assert (0 <= X * P)%Q by (apply Qmult_le_0_compat; lra).
    lra.
Qed.

Lemma iter_xO_value (m d : positive) :
  Z.pos (Pos.iter xO m d) = Z.pos m * 2 ^ Z.pos d.
Proof.
  induction d as [|d IH] using Pos.peano_ind.
  - simpl. lia.
  - rewrite Pos.iter_succ, Pos2Z.inj_succ, Z.pow_succ_r by lia.
    replace (Z.pos (Pos.iter xO m d)~0) with (2 * Z.pos (Pos.iter xO m d)) by lia.
    rewrite IH. ring.
Qed.

Lemma shl_align_value (mx : positive) (ex ex' : Z) :
  (inject_Z (Z.pos (SpecFloat.shl_align mx ex ex').1)
   * 2 ^ (SpecFloat.shl_align mx ex ex').2
   == inject_Z (Z.pos mx) * 2 ^ ex)%Q.
Proof.
  unfold SpecFloat.shl_align. destruct (ex' - ex) as [|d|d] eqn:Hd; simpl fst;
    simpl snd; try reflexivity.
  rewrite iter_xO_value, inject_Z_mult, inject_Z_pow2 by lia.
  rewrite <- Qmult_assoc, <- Qpower_plus by done.
  by replace (Z.pos d + ex') with ex by lia.
Qed.

Lemma finite_of_bound (p : positive) (e : Z) (b : Q) :
  (inject_Z (Z.pos p) * 2 ^ e <= b)%Q -> (b < 2 ^ 52)%Q ->
  (e <=? float_emax - float_prec) = true.
Proof.
  intros Hle Hlt. apply Z.leb_le.
  pose proof (Qpower_2_pos e) as He.
  assert (1 <= inject_Z (Z.pos p))%Q as Hp
    by (change 1%Q with (inject_Z 1); rewrite <- Zle_Qle; lia).
  assert (2 ^ e < 2 ^ 52)%Q as Hpow.
  { set (P := (2 ^ e)%Q) in *. set (X := inject_Z (Z.pos p)) in *.
    clearbody P X.
    assert (1 * P <= X * P)%Q by (apply Qmult_le_compat_r; lra). lra. }
  apply Qpower_lt_compat_l_inv in Hpow; [|done].
  unfold float_emax, float_prec. lia.
Qed.


(** [int] of a positive float is the floor of its value. *)
Lemma int_of_float_finite (p : positive) (e : Z) :
  exists k,
    int_of_float (SpecFloat.S754_finite false p e) = Return k
    /\ k = Qfloor (inject_Z (Z.pos p) * 2 ^ e)
    /\ 0 <= k /\ (inject_Z k <= inject_Z (Z.pos p) * 2 ^ e)%Q.
Proof.
  eexists. split; [done|]. cbn [SpecFloat.cond_Zopp].
  assert (Z.shiftl (Z.pos p) e = Qfloor (inject_Z (Z.pos p) * 2 ^ e)) as Hfloor.
  { destruct (decide (0 <= e)) as [He|He].
    - rewrite Z.shiftl_mul_pow2 by done.
      rewrite <- (Qfloor_Z (Z.pos p * 2 ^ e)). apply Qfloor_comp.
      by rewrite inject_Z_mult, inject_Z_pow2.
    - rewrite Z.shiftl_div_pow2 by lia. rewrite Zdiv_Qdiv. apply Qfloor_comp.
      rewrite inject_Z_pow2 by lia. unfold Qdiv.
      rewrite <- Qpower_opp. by replace (- - e) with e by lia. }
  split; [done|]. rewrite Hfloor. split; [|apply Qfloor_le].
  change 0 with (Qfloor 0). apply Qfloor_resp_le.
  apply Qmult_le_0_compat; [by apply inject_Z_nonneg|].
  apply Qlt_le_weak, Qpower_2_pos.
Qed.

Lemma product_bound_small (n : Z) :
  0 <= n < 2 ^ 50 ->
  (0 <= float_of_int_bound n /\ float_of_int_bound n < 2 ^ 52
   /\ 0 <= product_bound n
   /\ product_bound n + 2 * float_eta < inject_Z n + 1
   /\ inject_Z n + 1 <= 2 ^ 52)%Q.
Proof.
  intros [Hn0 Hn].
  pose proof (inject_Z_nonneg n Hn0) as H0.
  rewrite Zlt_Qlt in Hn.
  change (inject_Z (2 ^ 50)) with (1125899906842624 # 1)%Q in Hn.
  pose proof float_eta_small as [Heta0 Heta].
  unfold product_bound, float_of_int_bound, float_u.
  change (2 ^ 52)%Q with (4503599627370496 # 1)%Q.
  set (x := inject_Z n) in *. set (eta := float_eta) in *. clearbody x eta.
  repeat split; lra.
Qed.

(** [float(n)] for an [n] of moderate size is a float that is not
    negative, at most [float_of_int_bound n]. *)
Lemma float_of_int_value (n : Z) :
  0 <= n < 2 ^ 50 ->
  exists y,
    float_of_int n = Return y
    /\ (y = SpecFloat.S754_zero false
        \/ exists (p : positive) (e : Z),
             y = SpecFloat.S754_finite false p e
             /\ (inject_Z (Z.pos p) * 2 ^ e <= float_of_int_bound n)%Q).
Proof.
  intros Hn. destruct (product_bound_small n Hn) as (_ & Hsmall & _).
  unfold float_of_int. destruct n as [|n|n]; [by eexists; split; [|left]| |lia].
  cbn [SpecFloat.binary_normalize]. unfold SpecFloat.binary_round.
  pose proof (shl_align_value n 0
                (SpecFloat.fexp float_prec float_emax
                   (Z.pos (SpecFloat.digits2_pos n) + 0))) as Halign.
  destruct (SpecFloat.shl_align _ _ _) as [mz ez]. simpl fst in Halign.
  simpl snd in Halign.
  destruct (binary_round_aux_value mz ez) as [->|(p & e & -> & Hle)].
  { eexists. split; [done|by left]. }
  rewrite Halign in Hle. rewrite Qpower_0_r, Qmult_1_r in Hle.
  fold (float_of_int_bound (Z.pos n)) in Hle.
  rewrite (finite_of_bound p e _ Hle Hsmall).
  eexists. split; [done|]. right. by exists p, e.
Qed.

(** For a fraction [0 <= v <= 1] and an [n] of moderate size, the product
    [v * n] is a float, [int] of it is the floor of its value, which is not
    negative and at most [v * product_bound n + float_eta]. *)
Lemma int_of_product_bound (v : float) (n : Z) :
  float_finite v -> (0 <= float_value v <= 1)%Q -> 0 <= n < 2 ^ 50 ->
  exists (p : float) (k : Z),
    float_mul_int v n = Return p
    /\ int_of_product v n = Return k
    /\ k = Qfloor (float_value p)
    /\ 0 <= k
    /\ (inject_Z k <= float_value v * product_bound n + float_eta)%Q.
Proof.
  intros Hfin [Hv0 Hv1] Hn.
  destruct (product_bound_small n Hn) as (Hb0 & _ & Hpb0 & Hlast & Hn52).
  pose proof float_eta_small as [Heta0 Heta].
  assert (0 <= float_value v * product_bound n)%Q as Hprod0
    by (by apply Qmult_le_0_compat).
  assert (forall s, exists (p : float) (k : Z),
            Return (SpecFloat.S754_zero s) = Return p
            /\ int_of_float (SpecFloat.S754_zero s) = Return k
            /\ k = Qfloor (float_value p) /\ 0 <= k
            /\ (inject_Z k <= float_value v * product_bound n + float_eta)%Q)
    as Hzero.
  { intros s. exists (SpecFloat.S754_zero s), 0. repeat split; try done.
    change (inject_Z 0) with 0%Q.
    set (x := (float_value v * product_bound n)%Q) in *.
    set (eta := float_eta) in *. clearbody x eta. lra. }
  unfold int_of_product, float_mul_int.
  destruct (float_of_int_value n Hn) as (y & -> & Hy). cbn [mbind result_bind].
  destruct v as [sv| | |sv mv ev]; try done.
  { destruct Hy as [->|(p & e & -> & _)]; apply Hzero. }
  destruct sv.
  { exfalso. cbn [float_value SpecFloat.cond_Zopp] in Hv0.
    pose proof (Qpower_2_pos ev) as Hpow.
    assert (inject_Z (- Z.pos mv) <= -1)%Q as Hneg
      by (change (-1)%Q with (inject_Z (-1)); rewrite <- Zle_Qle; lia).
    set (P := (2 ^ ev)%Q) in *. set (X := inject_Z (- Z.pos mv)) in *.
    clearbody P X.
    assert (X * P <= (-1) * P)%Q by (apply Qmult_le_compat_r; lra). lra. }
  destruct Hy as [->|(p & e & -> & Hy)]; [apply Hzero|].
  cbn [float_value SpecFloat.cond_Zopp] in *.
  unfold float_mul. cbn [SpecFloat.SFmul xorb].
  destruct (binary_round_aux_value (mv * p) (ev + e)) as [->|(p' & e' & -> & Hle)];
    [apply Hzero|].
  assert (inject_Z (Z.pos (mv * p)) * 2 ^ (ev + e)
          == inject_Z (Z.pos mv) * 2 ^ ev * (inject_Z (Z.pos p) * 2 ^ e))%Q as Hx.
  { rewrite Pos2Z.inj_mul, inject_Z_mult, Qpower_plus by done. ring. }
  rewrite Hx in Hle.
  assert (inject_Z (Z.pos p') * 2 ^ e'
          <= inject_Z (Z.pos mv) * 2 ^ ev * product_bound n + float_eta)%Q as Hle'.
  { unfold product_bound.
    set (V := (inject_Z (Z.pos mv) * 2 ^ ev)%Q) in *.
    set (Y := (inject_Z (Z.pos p) * 2 ^ e)%Q) in *.
    set (b := float_of_int_bound n) in *. set (eta := float_eta) in *.
    set (a := (inject_Z (Z.pos p') * 2 ^ e')%Q) in *.
    unfold float_u in *. clearbody V Y b eta a.
    assert (V * Y <= V * b)%Q
      by (rewrite !(Qmult_comm V); apply Qmult_le_compat_r; lra).
    assert (V * eta <= 1 * eta)%Q by (apply Qmult_le_compat_r; lra).
    assert (0 <= V * eta)%Q by (apply Qmult_le_0_compat; lra).
    lra. }
  assert (inject_Z (Z.pos mv) * 2 ^ ev * product_bound n + float_eta < 2 ^ 52)%Q
    as Hfinite.
  { set (V := (inject_Z (Z.pos mv) * 2 ^ ev)%Q) in *.
    set (W := product_bound n) in *. set (eta := float_eta) in *.
    change (2 ^ 52)%Q with (4503599627370496 # 1)%Q in *.
    set (x := inject_Z n) in *. clearbody V W eta x.
    assert (V * W <= 1 * W)%Q by (apply Qmult_le_compat_r; lra). lra. }
  rewrite (finite_of_bound p' e' _ Hle' Hfinite).
  destruct (int_of_float_finite p' e') as (k & Hk & Hfloor & Hk0 & Hkle).
  exists (SpecFloat.S754_finite false p' e'), k.
  split; [done|]. split; [done|]. split; [done|]. split; [done|].
  by eapply Qle_trans.
Qed.

(** A count computed from a fraction at most 1 is at most [n]. *)
Lemma split_count_le (n k : Z) (v : Q) :
  0 <= n < 2 ^ 50 -> (0 <= v <= 1)%Q ->
  (inject_Z k <= v * product_bound n + float_eta)%Q -> k <= n.
Proof.
  intros Hn [Hv0 Hv1] Hk.
  destruct (product_bound_small n Hn) as (_ & _ & Hpb0 & Hlast & _).
  pose proof float_eta_small as [Heta0 _].
  assert (inject_Z k < inject_Z (n + 1))%Q as Hlt.
  { rewrite inject_Z_plus. change (inject_Z 1) with 1%Q.
    set (W := product_bound n) in *. set (eta := float_eta) in *.
    set (x := inject_Z n) in *. set (y := inject_Z k) in *. clearbody W eta x y.
    assert (v * W <= 1 * W)%Q by (apply Qmult_le_compat_r; lra). lra. }
  rewrite <- Zlt_Qlt in Hlt. lia.
Qed.

(** Two counts computed from fractions whose sum is at most 1 fit into
    [n] together. *)
Lemma split_counts_le (n k1 k2 : Z) (v t : Q) :
  0 <= n < 2 ^ 50 -> (0 <= v)%Q -> (0 <= t)%Q -> (v + t <= 1)%Q ->
  (inject_Z k1 <= v * product_bound n + float_eta)%Q ->
  (inject_Z k2 <= t * product_bound n + float_eta)%Q ->
  k1 + k2 <= n.
Proof.
  intros Hn Hv Ht Hvt Hk1 Hk2.
  destruct (product_bound_small n Hn) as (_ & _ & Hpb0 & Hlast & _).
  assert (inject_Z (k1 + k2) < inject_Z (n + 1))%Q as Hlt.
  { rewrite !inject_Z_plus. change (inject_Z 1) with 1%Q.
    set (W := product_bound n) in *. set (eta := float_eta) in *.
    set (x := inject_Z n) in *. set (y1 := inject_Z k1) in *.
    set (y2 := inject_Z k2) in *. clearbody W eta x y1 y2.
    assert ((v + t) * W <= 1 * W)%Q by (apply Qmult_le_compat_r; lra). lra. }
  rewrite <- Zlt_Qlt in Hlt. lia.
Qed.

(** With counts that fit, the three slices are the consecutive pieces of
    the permutation. *)
Lemma spliting_indices_pieces (n n_val n_test : Z) (val_pct test_pct : float)
    (g : rng) :
  0 <= n -> 0 <= n_val -> 0 <= n_test -> n_val + n_test <= n ->
  int_of_product val_pct n = Return n_val ->
  int_of_product test_pct n = Return n_test ->
  let indices := (np_random_permutation n g).1 in
  let a := Z.to_nat (n - n_val - n_test) in
  let b := Z.to_nat n_val in
  spliting_indices n val_pct test_pct g
  = Return (take a indices, take b (drop a indices), drop (a + b) indices,
            (np_random_permutation n g).2)
  /\ Z.of_nat (length indices) = n.
Proof.
  intros Hn Hval Htest Hsum Hv Ht indices a b. subst indices.
  unfold spliting_indices. rewrite Hv, Ht. cbn [mbind result_bind].
  pose proof (np_random_permutation_Permutation n g) as Hperm.
  destruct (np_random_permutation n g) as [indices g1]. simpl in Hperm. simpl.
  assert (Z.of_nat (length indices) = n) as Hlen.
  { rewrite Hperm, length_seqZ. lia. }
  split; [|done].
  destruct (slice1_three_pieces indices (n - n_val - n_test) n_val)
    as (Htrain & Hvalid & Htst); [lia..|].
  by rewrite Htrain, Hvalid, Htst.
Qed.



(** The sizes for two calls in which the float product is not the exact
    one: [0.29 * 100] is just below 29, and [0.15 * 20] is 3 although the
    float [0.15] is below 15/100. *)
Example spliting_indices_rounded_sizes :
  (let sizes r := (fun '(train, val, test, _) =>
                     (length train, length val, length test)) <$> r in
   sizes (spliting_indices 100 float_0_29 float_0_15 sample_rng)
   = Return (57, 28, 15)%nat
   /\ sizes (spliting_indices 20 float_0_15 float_0_15 sample_rng)
      = Return (14, 3, 3)%nat)
  /\ (float_value float_0_15 * 20 < 3)%Q.
Proof.
  split; [split; vm_compute; reflexivity|]. apply Qlt_alt. vm_compute. reflexivity.
Qed.

(** ** Temporal aligner *)

Lemma io_bind_Return {A B} (m : io A) (k : A -> io B) e l b l' :
  (m ≫= k) e l = (Return b, l') ->
  exists a l1, m e l = (Return a, l1) /\ k a e l1 = (Return b, l').
Proof.
  unfold mbind, io_bind. destruct (m e l) as [[a|x] l1]; [eauto | discriminate].
Qed.

Lemma lift_Return {A} (r : result A) e l a l' :
  lift r e l = (Return a, l') -> r = Return a /\ l' = l.
Proof. unfold lift. by intros [= -> ->]. Qed.

Lemma concatenate0_shape {V} (a b c : np.ndarray V) :
  np.concatenate0 a b = Return c -> np.shape c ≠ [].
Proof.
  unfold np.concatenate0. destruct (np.shape a), (np.shape b); try done.
  case_decide; [|done]. by intros [= <-].
Qed.

(** Once a year has been merged, the merged timestamp array has a first
    axis: it is never a 0-d array. *)
Lemma merge_out_loop_dates_sized years d dt e l r l' :
  np.shape dt ≠ [] \/ years ≠ [] ->
  merge_out_loop years (Some d) (Some dt) e l = (Return r, l') ->
  exists dates, r.2 = Some dates /\ np.shape dates ≠ [].
Proof.
  revert d dt l. induction years as [|year years IH]; intros d dt l Hsized; simpl.
  - intros [= <- _]. destruct Hsized as [?|?]; [by eexists | done].
  - intros Hrun.
    apply io_bind_Return in Hrun as (tmp & l1 & _ & Hrun).
    apply io_bind_Return in Hrun as (d' & l2 & _ & Hrun).
    apply io_bind_Return in Hrun as (tmp_dt & l3 & _ & Hrun).
    apply io_bind_Return in Hrun as (dt' & l4 & Hcat & Hrun).
    apply lift_Return in Hcat as [Hcat _].
    apply (IH d' dt' l4); [|done]. left. by eapply concatenate0_shape.
Qed.

Lemma merge_out_data_dates_sized e l r l' :
  merge_out_data 2010 2020 e l = (Return r, l') ->
  exists dates, r.2 = Some dates /\ np.shape dates ≠ [].
Proof.
  unfold merge_out_data.
  change (seqZ 2010 (2020 + 1 - 2010)) with (2010 :: seqZ 2011 10).
  assert (seqZ 2011 10 ≠ []) as Hyears by done.
  revert Hyears. generalize (seqZ 2011 10). intros years Hyears.
  simpl. intros Hrun.
  apply io_bind_Return in Hrun as (d & l1 & _ & Hrun).
  apply io_bind_Return in Hrun as (dt & l2 & _ & Hrun).
  eapply merge_out_loop_dates_sized; [|done]. by right.
Qed.

Lemma where_first_no_match (dates : np.ndarray Q) (hour : Z) :
  np.shape dates ≠ [] ->
  ~ has_exact_match dates hour ->
  np.where_first dates (inject_Z hour) = Raise IndexError.
Proof.
  intros Hsized Hno. unfold np.where_first.
  destruct (np.shape dates); [done|].
  destruct (list_find _ _) as [[k d]|] eqn:Hfind; [|done].
  apply list_find_Some in Hfind as (Hk & Heq & _).
  destruct Hno. exists d. split; [by eapply list_elem_of_lookup_2|].
  by apply Qeq_bool_iff.
Qed.

Lemma where_first_Raise (dates : np.ndarray Q) (v : Q) (x : exception) :
  np.shape dates ≠ [] -> np.where_first dates v = Raise x -> x = IndexError.
Proof.
  intros Hsized. unfold np.where_first. destruct (np.shape dates); [done|].
  destruct (list_find _ _) as [[k d]|]; [done|]. by intros [= <-].
Qed.

(** C5 (as amended). For a year range outside 2010..2020,
    [make_clean_data] prints its message and returns [None] to the caller:
    no exception is raised, and no file has been opened. *)
Theorem make_clean_data_out_of_range (in_vars : list string)
    (start_year end_year : Z) (e : env) (l : log) :
  start_year < 2010 \/ end_year > 2020 ->
  make_clean_data in_vars start_year end_year e l
  = (Return None,
     mk_log (stdout l ++ ["year must be greater than 2010 and less than 2020"])
            (opened l)).
Proof.
  intros Hout. unfold make_clean_data. by rewrite decide_True.
Qed.

Lemma make_clean_data_out_of_range_witness :
  make_clean_data ["u10"] 2009 2019 no_files empty_log
  = (Return None,
     mk_log ["year must be greater than 2010 and less than 2020"] []).
Proof.
  apply (make_clean_data_out_of_range ["u10"] 2009 2019 no_files empty_log).
  left. lia.
Defined.

(** Counterexample to C5 as stated: for the range 2009..2019 the call
    returns normally (with [None]); nothing is raised to the caller. *)
Lemma make_clean_data_bad_range_returns_None :
  2009 < 2010
  /\ ~ raises (make_clean_data ["u10"] 2009 2019 no_files empty_log).1.
Proof. split; [lia|]. vm_compute. tauto. Qed.

(** C8. When the archives have been read and one of the two boundary
    timestamps has no exact match in the merged high-resolution timestamp
    array, [make_clean_data] raises [IndexError]; no slice is returned. *)
Theorem make_clean_data_lookup_strict (in_vars : list string)
    (start_year end_year : Z) (e : env) (l l1 l2 : log)
    (out_data : option (np.ndarray Q)) (dates : np.ndarray Q)
    (in_data : option (np.ndarray Q)) :
  2010 <= start_year <= 9999 ->
  2 <= end_year <= 2020 ->
  merge_out_data 2010 2020 e l = (Return (out_data, Some dates), l1) ->
  load_in_vars in_vars None e l1 = (Return in_data, l2) ->
  ~ has_exact_match dates (new_year_hour e start_year)
  \/ ~ has_exact_match dates (new_year_hour e end_year) ->
  (make_clean_data in_vars start_year end_year e l).1 = Raise IndexError.
Proof.
  intros Hstart Hend Hmerge Hload Hno.
  destruct (merge_out_data_dates_sized _ _ _ _ Hmerge) as (dates' & [= <-] & Hsized).
  unfold make_clean_data. rewrite decide_False by lia.
  unfold mbind, io_bind. rewrite Hmerge, Hload.
  unfold datetime_timestamp. rewrite !decide_True by lia.
  unfold lift, lookup_hour.
  destruct Hno as [Hlow|Hhigh].
  - by rewrite (where_first_no_match dates (new_year_hour e start_year)).
  - rewrite (where_first_no_match dates (new_year_hour e end_year)) by done.
    destruct (np.where_first dates (inject_Z (new_year_hour e start_year)))
      as [low_index|x] eqn:Hlow; [done|].
    simpl. f_equal. by eapply where_first_Raise.
Qed.

Lemma has_exact_match_Exists (dates : np.ndarray Q) (hour : Z) :
  has_exact_match dates hour
  <-> Exists (fun d => Qeq_bool d (inject_Z hour) = true) (np.data dates).
Proof.
  unfold has_exact_match. rewrite Exists_exists.
  by setoid_rewrite Qeq_bool_iff.
Qed.

Lemma make_clean_data_lookup_strict_witness :
  (make_clean_data ["u10"] 2011 2013 (sample_archive false) empty_log).1
  = Raise IndexError.
Proof.
  eapply (make_clean_data_lookup_strict ["u10"] 2011 2013 (sample_archive false)
            empty_log).
  - lia.
  - lia.
  - vm_compute. reflexivity.
  - vm_compute. reflexivity.
  - left. rewrite has_exact_match_Exists.
    apply (bool_decide_unpack _). vm_compute. reflexivity.
Defined.

(** With exact matches present the same call returns the two slices
    [[low_index:high_index]]. *)
Example make_clean_data_aligned :
  (make_clean_data ["u10"] 2011 2013 (sample_archive true) empty_log).1
  = Return (Some (np.mk_ndarray [4; 1; 1; 1]%nat [2%Q; 3%Q; 4%Q; 5%Q],
                  np.mk_ndarray [4; 1; 1]%nat [2011%Q; 2011%Q; 2012%Q; 2012%Q])).
Proof. vm_compute. reflexivity. Qed.

(** ** Time embedding *)

Section SinusoidalPositionEmbeddings_facts.
Import SinusoidalPositionEmbeddings.

(** For a half-width other than 1 and not negative the embedding is
    computed, and its rows are as long as twice the half-width. *)
Lemma forward_real_rows (dim : Z) (time : list R) :
  0 <= dim `div` 2 ->
  dim `div` 2 ≠ 1 ->
  exists rows,
    forward_real dim time = Return rows
    /\ length rows = length time
    /\ Forall (fun r => Z.of_nat (length r) = 2 * (dim `div` 2)) rows.
Proof.
  intros Hhalf Hne. unfold forward_real, math_log_10000_div, arange.
  rewrite decide_False by lia. simpl. rewrite decide_False by lia. simpl.
  eexists. split; [done|]. split; [by rewrite !length_fmap|].
  apply Forall_fmap, Forall_fmap, Forall_true. intros t. simpl.
  rewrite length_app, !length_fmap, length_seqZ. lia.
Qed.

(** At timestep 0 every product with a frequency is 0. *)
Lemma sin_at_zero (embeddings : list R) :
  sin <$> ((fun e => (0 * e)%R) <$> embeddings)
  = replicate (length embeddings) 0%R.
Proof.
  induction embeddings as [|e embeddings IH]; csimpl; [done|].
  by rewrite IH, Rmult_0_l, sin_0.
Qed.

Lemma cos_at_zero (embeddings : list R) :
  cos <$> ((fun e => (0 * e)%R) <$> embeddings)
  = replicate (length embeddings) 1%R.
Proof.
  induction embeddings as [|e embeddings IH]; csimpl; [done|].
  by rewrite IH, Rmult_0_l, cos_0.
Qed.

Lemma forward_real_zero (dim : Z) :
  0 <= dim `div` 2 ->
  dim `div` 2 ≠ 1 ->
  forward_real dim [0%R]
  = Return [replicate (Z.to_nat (dim `div` 2)) 0%R
            ++ replicate (Z.to_nat (dim `div` 2)) 1%R].
Proof.
  intros Hhalf Hne. unfold forward_real, math_log_10000_div, arange.
  rewrite decide_False by lia. simpl. rewrite decide_False by lia. simpl.
  rewrite sin_at_zero, cos_at_zero, length_fmap, length_seqZ. done.
Qed.
End SinusoidalPositionEmbeddings_facts.

(** C9 (as amended). For [D = 32] and the single timestep 0 the embedding
    is one row whose first 16 entries (the sines) are 0 and whose last 16
    entries (the cosines) are 1. For every even [D >= 0] other than 2 and
    every batch of [B] timesteps the embedding has [B] rows of width [D]. *)
Theorem sinusoidal_embedding_even :
  SinusoidalPositionEmbeddings.forward_real 32 [0%R]
  = Return [replicate 16 0%R ++ replicate 16 1%R]
  /\ forall (D : Z) (time : list R),
       0 <= D -> D `mod` 2 = 0 -> D ≠ 2 ->
       exists rows,
         SinusoidalPositionEmbeddings.forward_real D time = Return rows
         /\ length rows = length time
         /\ Forall (fun r => Z.of_nat (length r) = D) rows.
Proof.
  split.
  - by rewrite forward_real_zero.
  - intros D time HD Heven Hne.
    pose proof (Z.div_mod D 2 ltac:(lia)) as Hdiv.
    destruct (forward_real_rows D time) as (rows & Hrun & Hlen & Hwidth); [lia..|].
    exists rows. split; [done|]. split; [done|].
    eapply Forall_impl; [exact Hwidth|]. simpl. intros r Hr. lia.
Qed.

Lemma sinusoidal_embedding_even_witness :
  exists rows,
    SinusoidalPositionEmbeddings.forward_real 4 [1%R; 2%R; 3%R] = Return rows
    /\ length rows = 3%nat
    /\ Forall (fun r => Z.of_nat (length r) = 4) rows.
Proof.
  destruct sinusoidal_embedding_even as [_ Hshape].
  apply (Hshape 4 [1%R; 2%R; 3%R]); [lia | reflexivity | lia].
Defined.

(** Counterexample to C9 as stated: [D = 2] is even, but then
    [half_dim - 1 = 0] and the division raises. *)
Lemma sinusoidal_embedding_dim_2_raises :
  2 `mod` 2 = 0
  /\ SinusoidalPositionEmbeddings.forward_real 2 [0%R] = Raise ZeroDivisionError.
Proof. split; reflexivity. Qed.

(** C10 (as amended). For every odd [D >= 5] and every batch of [B]
    timesteps the embedding is returned, without an exception, with [B] rows
    of width [D - 1]. *)
Theorem sinusoidal_embedding_odd (D : Z) (time : list R) :
  5 <= D -> D `mod` 2 = 1 ->
  exists rows,
    SinusoidalPositionEmbeddings.forward_real D time = Return rows
    /\ length rows = length time
    /\ Forall (fun r => Z.of_nat (length r) = D - 1) rows.
Proof.
  intros HD Hodd.
  pose proof (Z.div_mod D 2 ltac:(lia)) as Hdiv.
  destruct (forward_real_rows D time) as (rows & Hrun & Hlen & Hwidth); [lia..|].
  exists rows. split; [done|]. split; [done|].
  eapply Forall_impl; [exact Hwidth|]. simpl. intros r Hr. lia.
Qed.

Lemma sinusoidal_embedding_odd_witness :
  exists rows,
    SinusoidalPositionEmbeddings.forward_real 5 [1%R; 2%R] = Return rows
    /\ length rows = 2%nat
    /\ Forall (fun r => Z.of_nat (length r) = 4) rows.
Proof.
  apply (sinusoidal_embedding_odd 5 [1%R; 2%R]); [lia | reflexivity].
Defined.

(** Counterexample to C10 as stated: [D = 3] is odd and at least 3, but
    [half_dim - 1 = 0] and the division raises. *)
Lemma sinusoidal_embedding_dim_3_raises :
  3 <= 3 /\ 3 `mod` 2 = 1
  /\ SinusoidalPositionEmbeddings.forward_real 3 [0%R] = Raise ZeroDivisionError.
Proof. split; [lia|]. split; reflexivity. Qed.

(** ** Construction of the network *)

Lemma py_index_nonneg {A} `{Inhabited A} (l : list A) (i : Z) :
  0 <= i < Z.of_nat (length l) -> py_index l i = Return (l !!! Z.to_nat i).
Proof.
  intros Hi. unfold py_index. rewrite (decide_False (P := i < 0)) by lia.
  rewrite decide_True by lia.
  destruct (lookup_lt_is_Some_2 l (Z.to_nat i)) as [a Ha]; [lia|].
  rewrite Ha. f_equal. symmetry. by apply list_lookup_total_correct.
Qed.

Lemma py_index_last {A} `{Inhabited A} (l : list A) :
  l ≠ [] -> py_index l (-1) = Return (l !!! (length l - 1)%nat).
Proof.
  intros Hl. assert (0 < length l)%nat by (destruct l; [done|simpl; lia]).
  unfold py_index. rewrite (decide_True (P := -1 < 0)) by lia.
  rewrite decide_True by lia.
  replace (Z.to_nat (Z.of_nat (length l) + -1)) with (length l - 1)%nat by lia.
  destruct (lookup_lt_is_Some_2 l (length l - 1)) as [a Ha]; [lia|].
  rewrite Ha. f_equal. symmetry. by apply list_lookup_total_correct.
Qed.

Lemma reverse_lookup_total (l : list Z) (i : nat) :
  (i < length l)%nat -> reverse l !!! i = l !!! (length l - 1 - i)%nat.
Proof.
  intros Hi. rewrite !list_lookup_total_alt, reverse_lookup by done.
  do 2 f_equal. lia.
Qed.

(** A comprehension whose body returns [g a] on every element is the
    image of the list under [g]. *)
Lemma comprehension_fmap {A B} (f : A -> result B) (g : A -> B) (l : list A) :
  Forall (fun a => f a = Return (g a)) l ->
  comprehension f l = Return (g <$> l).
Proof.
  induction 1 as [|a l Ha _ IH]; simpl; [done|]. by rewrite Ha, IH.
Qed.

Lemma Block_init_layers (in_ch out_ch emb_dim : Z) (attn up : bool)
    (rate : option Q) :
  0 <= in_ch -> 0 <= out_ch -> 0 <= emb_dim -> dropout_ok rate ->
  Block.__init__ in_ch out_ch emb_dim attn up rate
  = Return (Block_layers in_ch out_ch emb_dim attn up rate true).
Proof.
  intros Hin Hout Hemb Hrate. unfold Block.__init__, Block_layers.
  unfold nn.Linear, nn.Conv2d, nn.ConvTranspose2d, nn.BatchNorm2d,
    SpatialAttention.__init__, nn.Conv2d.
  rewrite !decide_True by lia. simpl.
  assert ((if Block.dropout_set rate
           then match rate with
                | Some q => nn.Dropout q ≫= λ d, Return (Some d)
                | None => Return None
                end
           else Return None)
          = Return (if Block.dropout_set rate then nn.mk_Drop <$> rate else None))
    as ->.
  { destruct rate as [q|]; simpl; [|done].
    destruct (negb (Qeq_bool q 0)); [|done].
    unfold nn.Dropout. simpl in Hrate. by rewrite decide_True. }
  destruct up, attn; simpl; rewrite ?decide_True by lia; reflexivity.
Qed.

Lemma plan_width_nonneg (plan : list Z) (k : nat) :
  Forall (fun c => 0 <= c) plan -> (k < length plan)%nat -> 0 <= plan !!! k.
Proof.
  intros Hplan Hk.
  destruct (lookup_lt_is_Some_2 plan k Hk) as [c Hc].
  rewrite (list_lookup_total_correct _ _ _ Hc).
  by apply (Forall_lookup_1 _ _ _ _ Hplan Hc).
Qed.

Lemma up_in_width_lookup (plan : list Z) (i : Z) :
  0 <= i < Z.of_nat (length plan) ->
  (up_in_width plan <$> seqZ 0 (Z.of_nat (length plan))) !!! Z.to_nat i
  = up_in_width plan i.
Proof.
  intros Hi. rewrite list_lookup_total_alt, list_lookup_fmap.
  rewrite lookup_seqZ_lt by lia. simpl. f_equal. lia.
Qed.

Lemma Conv2d_Return (name : string) (in_ch out_ch k s pad : Z) :
  0 <= in_ch -> 0 <= out_ch ->
  nn.Conv2d name in_ch out_ch k s pad
  = Return (nn.mk_Conv name false in_ch out_ch k s pad).
Proof. intros. unfold nn.Conv2d. by rewrite decide_True. Qed.

(** Construction succeeds on a non-empty plan of non-negative widths and
    yields the layers written out in [SimpleUnet_layers]. *)
Lemma SimpleUnet_init_layers (plan : list Z) (in_ch out_ch emb_dim : Z)
    (attn : bool) (rate : option Q) :
  plan ≠ [] -> Forall (fun c => 0 <= c) plan ->
  0 <= in_ch -> 0 <= out_ch -> 0 <= emb_dim -> dropout_ok rate ->
  SimpleUnet.__init__ plan in_ch out_ch emb_dim attn rate
  = Return (SimpleUnet_layers plan in_ch out_ch emb_dim attn rate true).
Proof.
  intros Hne Hplan Hin Hout Hemb Hrate.
  assert (0 < length plan)%nat as Hlen by (destruct plan; [done|simpl; lia]).
  unfold SimpleUnet.__init__.
  rewrite (py_index_nonneg (reverse plan) 0) by (rewrite length_reverse; lia).
  simpl.
  rewrite (comprehension_fmap _ (fun i => reverse plan !!! Z.to_nat i * 2)); last first.
  { apply Forall_seqZ. intros i Hi. rewrite length_reverse in Hi.
    by rewrite py_index_nonneg by (rewrite length_reverse; lia). }
  simpl. unfold nn.Linear. rewrite decide_True by lia. simpl.
  rewrite (py_index_nonneg plan 0) by lia. simpl.
  rewrite (Conv2d_Return "conv0") by (by try apply plan_width_nonneg). simpl.
  change (Z.to_nat 0) with 0%nat.
  assert (reverse plan !!! 0%nat
            :: ((fun i => reverse plan !!! Z.to_nat i * 2)
                  <$> seqZ 1 (Z.of_nat (length (reverse plan)) - 1))
          = up_in_width plan <$> seqZ 0 (Z.of_nat (length plan))) as ->.
  { rewrite length_reverse. rewrite (seqZ_cons 0) by lia. csimpl.
    replace (Z.succ 0) with 1 by lia.
    replace (Z.pred (Z.of_nat (length plan))) with (Z.of_nat (length plan) - 1) by lia.
    f_equal.
    - unfold up_in_width. rewrite decide_True by done.
      rewrite reverse_lookup_total by lia.
      replace (Z.to_nat (Z.of_nat (length plan) - 1 - 0)) with (length plan - 1 - 0)%nat by lia.
      lia.
    - apply Forall_fmap_ext_1, Forall_seqZ. intros i Hi.
      unfold up_in_width. rewrite decide_False by lia.
      rewrite reverse_lookup_total by lia.
      replace (Z.to_nat (Z.of_nat (length plan) - 1 - i))
        with (length plan - 1 - Z.to_nat i)%nat by lia.
      lia. }
  rewrite (comprehension_fmap
             (fun i => a ← py_index plan i; b ← py_index plan (i + 1);
                       Block.__init__ a b emb_dim attn false rate)
             (down_stage plan emb_dim attn rate true)); last first.
  { apply Forall_seqZ. intros i Hi.
    rewrite !py_index_nonneg by lia. simpl.
    apply Block_init_layers; [apply plan_width_nonneg; [done|lia]..|done|done]. }
  simpl.
  rewrite (comprehension_fmap _ (up_stage plan emb_dim attn rate true)); last first.
  { apply Forall_seqZ. intros i Hi. rewrite length_reverse in Hi.
    rewrite (py_index_nonneg (up_in_width plan <$> _) i)
      by (rewrite length_fmap, length_seqZ; lia).
    rewrite up_in_width_lookup by lia. simpl.
    rewrite (py_index_nonneg (reverse plan)) by (rewrite length_reverse; lia).
    simpl.
    rewrite reverse_lookup_total by lia.
    replace (length plan - 1 - Z.to_nat (i + 1))%nat
      with (Z.to_nat (Z.of_nat (length plan) - 1 - i - 1)) by lia.
    apply Block_init_layers; [|apply plan_width_nonneg; [done|lia]|done|done].
    unfold up_in_width.
    pose proof (plan_width_nonneg plan (Z.to_nat (Z.of_nat (length plan) - 1 - i))
                  Hplan ltac:(lia)).
    case_decide; lia. }
  simpl. rewrite py_index_last
    by (intros Hrev; apply (f_equal length) in Hrev;
        rewrite length_reverse in Hrev; simpl in Hrev; lia).
  simpl. rewrite length_reverse, reverse_lookup_total by lia.
  replace (length plan - 1 - (length plan - 1))%nat with 0%nat by lia.
  rewrite (Conv2d_Return "output") by (by try apply plan_width_nonneg).
  reflexivity.
Qed.

Lemma SimpleUnet_eval_layers (plan : list Z) (in_ch out_ch emb_dim : Z)
    (attn : bool) (rate : option Q) (training : bool) :
  SimpleUnet.eval (SimpleUnet_layers plan in_ch out_ch emb_dim attn rate training)
  = SimpleUnet_layers plan in_ch out_ch emb_dim attn rate false.
Proof.
  unfold SimpleUnet.eval, SimpleUnet_layers. simpl.
  by rewrite <- !list_fmap_compose.
Qed.

(** C3. For every channel plan, that is every non-empty tuple of
    non-negative widths (with a valid configuration otherwise),
    construction succeeds; the
    down path and the up path both have [len(plan) - 1] stages; down stage
    [i] maps width [plan[i]] to [plan[i+1]]; up stage [i] runs over the
    reversed plan, its input width being the last down width for [i = 0] and
    twice the reversed-plan width [up[i]] otherwise, its output width
    [up[i+1]]. *)
Theorem SimpleUnet_init_channel_plan (plan : list Z) (in_ch out_ch emb_dim : Z)
    (attn : bool) (rate : option Q) :
  plan ≠ [] -> Forall (fun c => 0 <= c) plan ->
  0 <= in_ch -> 0 <= out_ch -> 0 <= emb_dim -> dropout_ok rate ->
  exists m,
    SimpleUnet.__init__ plan in_ch out_ch emb_dim attn rate = Return m
    /\ length (SimpleUnet.downs m) = (length plan - 1)%nat
    /\ length (SimpleUnet.ups m) = (length plan - 1)%nat
    /\ SimpleUnet.up_channels m = reverse plan
    /\ (forall (i : nat) (down : Block.t),
          SimpleUnet.downs m !! i = Some down ->
          nn.in_channels (Block.conv1 down) = plan !!! i
          /\ nn.out_channels (Block.conv1 down) = plan !!! S i
          /\ nn.transposed (Block.transform down) = false)
    /\ (forall (i : nat) (up : Block.t),
          SimpleUnet.ups m !! i = Some up ->
          nn.in_channels (Block.conv1 up)
          = (if decide (i = 0%nat) then plan !!! (length plan - 1)%nat
             else 2 * (reverse plan !!! i))
          /\ nn.out_channels (Block.conv1 up) = reverse plan !!! S i
          /\ nn.transposed (Block.transform up) = true).
Proof.
  intros Hne Hplan Hin Hout Hemb Hrate.
  assert (0 < length plan)%nat as Hlen by (destruct plan; [done|simpl; lia]).
  exists (SimpleUnet_layers plan in_ch out_ch emb_dim attn rate true).
  split; [by apply SimpleUnet_init_layers|]. simpl.
  rewrite !length_fmap, !length_seqZ.
  split; [lia|]. split; [lia|]. split; [done|]. split.
  - intros i down. rewrite list_lookup_fmap.
    destruct (seqZ 0 _ !! i) as [j|] eqn:Hj; [|done].
    apply lookup_seqZ in Hj as [-> Hi]. intros [= <-]. simpl.
    replace (Z.to_nat (0 + Z.of_nat i)) with i by lia.
    replace (Z.to_nat (0 + Z.of_nat i + 1)) with (S i) by lia. done.
  - intros i up. rewrite list_lookup_fmap.
    destruct (seqZ 0 _ !! i) as [j|] eqn:Hj; [|done].
    apply lookup_seqZ in Hj as [-> Hi]. intros [= <-]. simpl.
    rewrite !reverse_lookup_total by lia. repeat split.
    + destruct (decide (i = 0%nat)) as [->|Hi0].
      * rewrite decide_True by lia.
        replace (Z.to_nat (Z.of_nat (length plan) - 1 - (0 + Z.of_nat 0)))
          with (length plan - 1)%nat by lia.
        lia.
      * rewrite decide_False by lia. do 2 f_equal. lia.
    + f_equal. lia.
Qed.

Lemma SimpleUnet_init_channel_plan_witness :
  exists m,
    SimpleUnet.__init__ [64; 128; 256; 512; 1024] 3 3 32 false None = Return m
    /\ length (SimpleUnet.downs m) = 4%nat
    /\ length (SimpleUnet.ups m) = 4%nat.
Proof.
  destruct (SimpleUnet_init_channel_plan [64; 128; 256; 512; 1024] 3 3 32 false None)
    as (m & Hinit & Hdowns & Hups & _).
  - done.
  - repeat constructor; lia.
  - lia.
  - lia.
  - lia.
  - exact I.
  - exists m. repeat split; [exact Hinit | exact Hdowns | exact Hups].
Defined.

(** The empty tuple is no channel plan: it has no first up-channel, and
    construction raises before anything is built. *)
Lemma SimpleUnet_init_empty_plan_raises :
  SimpleUnet.__init__ [] 3 3 32 false None = Raise IndexError.
Proof. reflexivity. Qed.

(** ** Conditional resampling block *)

Lemma sigmoid_range (v : R) : (0 <= sigmoid v <= 1)%R.
Proof.
  unfold sigmoid. pose proof (exp_pos (- v)) as He.
  set (e := exp (- v)) in *.
  assert (0 < / (1 + e))%R as Hinv by (apply Rinv_0_lt_compat; lra).
  assert ((1 + e) * / (1 + e) = 1)%R as Hmul by (apply Rinv_r; lra).
  unfold Rdiv. nra.
Qed.

(** Construction returns nothing but the layers written out in
    [Block_layers]. *)
Lemma Block_init_inv (in_ch out_ch emb_dim : Z) (attn up : bool)
    (rate : option Q) (b : Block.t) :
  Block.__init__ in_ch out_ch emb_dim attn up rate = Return b ->
  b = Block_layers in_ch out_ch emb_dim attn up rate true.
Proof.
  unfold Block.__init__, Block_layers.
  unfold nn.Linear, nn.Conv2d, nn.ConvTranspose2d, nn.BatchNorm2d,
    SpatialAttention.__init__, nn.Conv2d, nn.Dropout.
  destruct (decide (0 <= emb_dim /\ 0 <= out_ch)); [simpl|done].
  destruct (decide (0 <= in_ch /\ 0 <= out_ch)); [|by destruct up].
  destruct (decide (0 <= out_ch /\ 0 <= out_ch)); [|by destruct up].
  destruct (decide (0 <= out_ch)); [|by destruct up].
  destruct up, attn; simpl;
    (destruct rate as [q|]; simpl;
     [destruct (negb (Qeq_bool q 0)); simpl;
      [case_decide; simpl; [|done]|] |]);
    by intros [= <-].
Qed.

Section Shape_facts.
Implicit Types B C H W : Z.

Lemma conv_out_same (name : string) (a b k pad : Z) H :
  1 <= H -> k = 2 * pad + 1 ->
  Shape.conv_out (nn.mk_Conv name false a b k 1 pad) H = Return H.
Proof.
  intros HH ->. unfold Shape.conv_out. simpl.
  rewrite decide_False by lia. f_equal. rewrite Z.div_1_r. lia.
Qed.

Lemma conv_out_down (name : string) (a b : Z) H :
  2 <= H ->
  Shape.conv_out (nn.mk_Conv name false a b 4 2 1) H = Return (H `div` 2).
Proof.
  intros HH. unfold Shape.conv_out. simpl.
  rewrite decide_False by lia. f_equal.
  replace (H + 2 * 1 - 4) with (H + (-1) * 2) by lia.
  rewrite Z.div_add by lia. lia.
Qed.

Lemma conv_out_up (name : string) (a b : Z) H :
  1 <= H ->
  Shape.conv_out (nn.mk_Conv name true a b 4 2 1) H = Return (2 * H).
Proof.
  intros HH. unfold Shape.conv_out. simpl.
  rewrite decide_True by lia. f_equal. lia.
Qed.

Lemma conv_4d (c : nn.Conv) B C H W H' W' :
  C = nn.in_channels c -> C ≠ 0 -> nn.out_channels c ≠ 0 ->
  Shape.conv_out c H = Return H' -> Shape.conv_out c W = Return W' ->
  Shape.conv c [B; C; H; W] = Return [B; nn.out_channels c; H'; W'].
Proof.
  intros HC HC0 Hout HH HW. unfold Shape.conv.
  rewrite decide_False by (subst C; tauto). rewrite decide_True by done.
  by rewrite HH, HW.
Qed.

(** Without input or without output channels a convolution raises,
    whatever it is applied to. *)
Lemma conv_no_channels (c : nn.Conv) (s : Shape.tensor) :
  nn.in_channels c = 0 \/ nn.out_channels c = 0 ->
  Shape.conv c s = Raise RuntimeError.
Proof. intros Hc. unfold Shape.conv. by rewrite decide_True. Qed.

Lemma batch_norm_4d (training : bool) (bn : nn.BatchNorm) B C H W :
  training = false \/ B * (H * W) ≠ 1 ->
  C = nn.num_features bn ->
  Shape.batch_norm training bn [B; C; H; W] = Return [B; C; H; W].
Proof.
  intros Hmode HC. unfold Shape.batch_norm.
  rewrite decide_False by (destruct Hmode as [->|?]; [by intros [? _]|tauto]).
  by rewrite decide_True.
Qed.

Lemma linear_2d (l : nn.Lin) B D :
  D = nn.in_features l ->
  Shape.linear l [B; D] = Return [B; nn.out_features l].
Proof. intros HD. unfold Shape.linear. simpl. by rewrite decide_True. Qed.

(** A per-channel bias [B, C, 1, 1] and a one-channel gate [B, 1, H, W]
    both broadcast against a feature map without changing its shape. *)
Lemma broadcast_bias B C H W :
  Shape.broadcast [B; C; H; W] [B; C; 1; 1] = Return [B; C; H; W].
Proof.
  unfold Shape.broadcast. simpl.
  repeat (case_decide; simplify_eq/=; try done).
Qed.

Lemma broadcast_gate B C H W :
  Shape.broadcast [B; C; H; W] [B; 1; H; W] = Return [B; C; H; W].
Proof.
  unfold Shape.broadcast. simpl.
  repeat (case_decide; simplify_eq/=; try done).
Qed.

Lemma SpatialAttention_forward_shape B C H W :
  C ≠ 0 -> 1 <= H -> 1 <= W ->
  SpatialAttention.forward (T := Shape.tensor)
    (SpatialAttention.mk (nn.mk_Conv "conv" false 2 1 7 1 3)) [B; C; H; W]
  = Return [B; C; H; W].
Proof.
  intros HC HH HW. unfold SpatialAttention.forward. simpl.
  unfold Shape.mean, Shape.max, Shape.norm_dim. simpl.
  rewrite decide_False by done. simpl.
  unfold Shape.cat, Shape.norm_dim. simpl.
  rewrite !decide_True by done. simpl.
  unfold Shape.conv. cbn [nn.in_channels nn.out_channels].
  rewrite decide_False by lia. rewrite decide_True by done.
  rewrite !conv_out_same by lia.
  simpl. apply broadcast_gate.
Qed.

(** Shape of the output of a block: the channel count becomes [out_ch];
    a down block halves, an up block doubles both spatial sizes. *)
Lemma Block_forward_shape (in_ch out_ch emb_dim : Z) (attn up : bool)
    (rate : option Q) (training : bool) B H W :
  in_ch ≠ 0 -> out_ch ≠ 0 ->
  (if up then 1 <= H /\ 1 <= W else 2 <= H /\ 2 <= W) ->
  training = false \/ B * (H * W) ≠ 1 ->
  Block.forward (T := Shape.tensor)
    (Block_layers in_ch out_ch emb_dim attn up rate training)
    [B; in_ch; H; W] [B; emb_dim]
  = Return [B; out_ch; if up then 2 * H else H `div` 2;
            if up then 2 * W else W `div` 2].
Proof.
  intros Hin Hout Hsize Hmode.
  assert (1 <= H /\ 1 <= W) as [HH HW] by (destruct up; lia).
  unfold Block.forward, Block_layers. cbn [Block.conv1 Block.bnorm1
    Block.time_mlp Block.conv2 Block.bnorm2 Block.attention Block.training
    Block.spatial_attention Block.dropout Block.drop Block.transform].
  cbn [apply_conv apply_batch_norm apply_linear torch_relu append_two_axes
    torch_add apply_dropout Shape.ops].
  rewrite (conv_4d _ B in_ch H W H W);
    [|done|done|done|apply conv_out_same; lia..].
  cbn [mbind result_bind nn.out_channels].
  rewrite batch_norm_4d by done. cbn [mbind result_bind].
  rewrite linear_2d by done. cbn [mbind result_bind nn.out_features app].
  rewrite broadcast_bias. cbn [mbind result_bind].
  rewrite (conv_4d _ B out_ch H W H W);
    [|done|done|done|apply conv_out_same; lia..].
  cbn [mbind result_bind nn.out_channels].
  rewrite batch_norm_4d by done. cbn [mbind result_bind].
  assert (forall k : Shape.tensor -> result Shape.tensor,
            (if attn
             then match (if attn
                         then Some (SpatialAttention.mk
                                      (nn.mk_Conv "conv" false 2 1 7 1 3))
                         else None) with
                  | Some sa => SpatialAttention.forward sa [B; out_ch; H; W]
                  | None => Raise AttributeError
                  end
             else Return [B; out_ch; H; W]) ≫= k
            = k [B; out_ch; H; W]) as ->.
  { intros k. destruct attn; [|done].
    by rewrite SpatialAttention_forward_shape. }
  assert (forall k : Shape.tensor -> result Shape.tensor,
            (if Block.dropout_set rate
             then match (if Block.dropout_set rate then nn.mk_Drop <$> rate
                         else None) with
                  | Some d => Return [B; out_ch; H; W]
                  | None => Raise AttributeError
                  end
             else Return [B; out_ch; H; W]) ≫= k
            = k [B; out_ch; H; W]) as ->.
  { intros k. destruct rate as [q|]; simpl; [|done].
    by destruct (negb (Qeq_bool q 0)). }
  destruct up.
  - apply conv_4d; [done|done|done|apply conv_out_up; lia..].
  - apply conv_4d; [done|done|done|apply conv_out_down; lia..].
Qed.
End Shape_facts.

(** C4. On symbolic inputs [x] and [t], a constructed block computes, in
    this order: the first convolution, the activation, then the
    normalisation; the linear projection of the time embedding to [out_ch],
    the same activation, two appended axes and a broadcast addition; the
    second convolution, activation, normalisation; when attention is on,
    the product with the sigmoid of the 2-to-1-channel convolution of the
    concatenated channel mean and channel max; when a drop rate is set,
    dropout; last the resampling, a strided convolution (down) or a strided
    transposed convolution (up) from [out_ch] to [out_ch] channels. On
    shapes, adding the extended time embedding [[B, C, 1, 1]] leaves the
    feature map [[B, C, H, W]] as it is; the mean and the max have one
    channel, their concatenation two, the gate one, the gated map the
    channels of its input; and, for a block with at least one output
    channel, the resampling halves (down) or doubles (up) the spatial sizes
    at unchanged channel count. The gate is an elementwise sigmoid, whose
    values lie in [[0, 1]]. *)
Theorem Block_forward_order (in_ch out_ch emb_dim : Z) (attn up : bool)
    (rate : option Q) (b : Block.t) (x t : Symbolic.term) :
  Block.__init__ in_ch out_ch emb_dim attn up rate = Return b ->
  let conv1 := nn.mk_Conv "conv1" false in_ch out_ch 3 1 1 in
  let conv2 := nn.mk_Conv "conv2" false out_ch out_ch 3 1 1 in
  let bnorm1 := nn.mk_BatchNorm "bnorm1" out_ch in
  let bnorm2 := nn.mk_BatchNorm "bnorm2" out_ch in
  let time_mlp := nn.mk_Lin "time_mlp" emb_dim out_ch in
  let gate_conv := nn.mk_Conv "conv" false 2 1 7 1 3 in
  let transform := nn.mk_Conv "transform" up out_ch out_ch 4 2 1 in
  let h1 :=
    Symbolic.ApplyBatchNorm true bnorm1
      (Symbolic.Relu (Symbolic.ApplyConv conv1 x)) in
  let time_emb :=
    Symbolic.AppendTwoAxes (Symbolic.Relu (Symbolic.ApplyLinear time_mlp t)) in
  let h2 :=
    Symbolic.ApplyBatchNorm true bnorm2
      (Symbolic.Relu (Symbolic.ApplyConv conv2 (Symbolic.Add h1 time_emb))) in
  let gate :=
    Symbolic.Sigmoid
      (Symbolic.ApplyConv gate_conv
         (Symbolic.Cat [Symbolic.Mean h2 1; Symbolic.Max h2 1] 1)) in
  let h3 := if attn then Symbolic.Mul h2 gate else h2 in
  let h4 :=
    match rate with
    | Some q =>
        if Qeq_bool q 0 then h3 else Symbolic.ApplyDropout true (nn.mk_Drop q) h3
    | None => h3
    end in
  Block.forward b x t = Return (Symbolic.ApplyConv transform h4)
  /\ (forall B C H W : Z,
        torch_add (T := Shape.tensor) [B; C; H; W]
          (append_two_axes (T := Shape.tensor) [B; C])
        = Return [B; C; H; W])
  /\ (forall B C H W : Z,
        C ≠ 0 -> 1 <= H -> 1 <= W ->
        torch_mean (T := Shape.tensor) [B; C; H; W] 1 = Return [B; 1; H; W]
        /\ torch_max (T := Shape.tensor) [B; C; H; W] 1 = Return [B; 1; H; W]
        /\ torch_cat (T := Shape.tensor) [[B; 1; H; W]; [B; 1; H; W]] 1
           = Return [B; 2; H; W]
        /\ apply_conv (T := Shape.tensor) gate_conv [B; 2; H; W]
           = Return [B; 1; H; W]
        /\ torch_mul (T := Shape.tensor) [B; C; H; W] [B; 1; H; W]
           = Return [B; C; H; W])
  /\ (forall B H W : Z,
        0 < out_ch ->
        (if up then 1 <= H /\ 1 <= W else 2 <= H /\ 2 <= W) ->
        apply_conv (T := Shape.tensor) transform [B; out_ch; H; W]
        = Return [B; out_ch; if up then 2 * H else H `div` 2;
                  if up then 2 * W else W `div` 2])
  /\ (exists f : R -> R,
        Symbolic.pointwise gate = Some f
        /\ forall v : R, (0 <= f v <= 1)%R).
Proof.
  intros Hinit. apply Block_init_inv in Hinit as ->.
  split; [|split; [|split; [|split]]].
  - unfold Block.forward, Block_layers.
    cbn [Block.conv1 Block.bnorm1 Block.time_mlp Block.conv2 Block.bnorm2
      Block.attention Block.training Block.spatial_attention Block.dropout
      Block.drop Block.transform].
    unfold Block.dropout_set.
    destruct attn, rate as [q|]; try destruct (Qeq_bool q 0); reflexivity.
  - intros B C H W. apply broadcast_bias.
  - intros B C H W HC HH HW.
    cbn [torch_mean torch_max torch_cat apply_conv torch_mul Shape.ops].
    unfold Shape.mean, Shape.max, Shape.cat, Shape.norm_dim. simpl.
    rewrite decide_False by done. rewrite !decide_True by done. simpl.
    split; [done|]. split; [done|]. split; [done|]. split.
    + apply conv_4d; [done|done|done|apply conv_out_same; lia..].
    + apply broadcast_gate.
  - intros B H W Hout Hsize. destruct up.
    + apply conv_4d; [done|lia|cbn [nn.out_channels]; lia|apply conv_out_up; lia..].
    + apply conv_4d; [done|lia|cbn [nn.out_channels]; lia|apply conv_out_down; lia..].
  - exists sigmoid. split; [done|]. apply sigmoid_range.
Qed.

Lemma Block_forward_order_witness :
  exists b,
    Block.__init__ 3 8 32 true false (Some (1 # 2)) = Return b
    /\ exists gated,
         Block.forward b (Symbolic.Input "x") (Symbolic.Input "t")
         = Return (Symbolic.ApplyConv (nn.mk_Conv "transform" false 8 8 4 2 1)
                     (Symbolic.ApplyDropout true (nn.mk_Drop (1 # 2)) gated)).
Proof.
  exists (Block_layers 3 8 32 true false (Some (1 # 2)) true).
  split; [reflexivity|]. eexists.
  apply (Block_forward_order 3 8 32 true false (Some (1 # 2))
           (Block_layers 3 8 32 true false (Some (1 # 2)) true)
           (Symbolic.Input "x") (Symbolic.Input "t")).
  reflexivity.
Defined.

(** ** Skip-connection stack *)

Lemma comprehension_length {A B} (f : A -> result B) (l : list A) (bs : list B) :
  comprehension f l = Return bs -> length bs = length l.
Proof.
  revert bs. induction l as [|a l IH]; intros bs; simpl.
  - by intros [= <-].
  - intros Hrun. apply bind_Return in Hrun as (b & _ & Hrun).
    apply bind_Return in Hrun as (bs' & Hbs & [= <-]).
    simpl. f_equal. by apply IH.
Qed.

(** Whatever construction returns has as many down stages and as many up
    stages as the plan has steps. *)
Lemma SimpleUnet_init_stages (plan : list Z) (in_ch out_ch emb_dim : Z)
    (attn : bool) (rate : option Q) (m : SimpleUnet.t) :
  SimpleUnet.__init__ plan in_ch out_ch emb_dim attn rate = Return m ->
  length (SimpleUnet.downs m) = (length plan - 1)%nat
  /\ length (SimpleUnet.ups m) = (length plan - 1)%nat.
Proof.
  unfold SimpleUnet.__init__. intros Hrun.
  apply bind_Return in Hrun as (up0 & _ & Hrun).
  apply bind_Return in Hrun as (doubled & _ & Hrun).
  apply bind_Return in Hrun as (time_mlp & _ & Hrun).
  apply bind_Return in Hrun as (d0 & _ & Hrun).
  apply bind_Return in Hrun as (conv0 & _ & Hrun).
  apply bind_Return in Hrun as (downs & Hdowns & Hrun).
  apply bind_Return in Hrun as (ups & Hups & Hrun).
  apply bind_Return in Hrun as (last_up & _ & Hrun).
  apply bind_Return in Hrun as (output & _ & [= <-]).
  simpl. apply comprehension_length in Hdowns, Hups.
  rewrite length_seqZ in Hdowns, Hups. rewrite length_reverse in Hups. lia.
Qed.

Section stack_discipline.
Context {T : Type} `{TensorOps T}.

(** The down pass appends once per stage except the last, and never pops. *)
Lemma down_pass_stack (n i : nat) (rest : list Block.t) (x t x' : T)
    (st st' : skip_stack T) :
  (i + length rest = n)%nat ->
  SimpleUnet.down_pass n i rest x t st = Return (x', st') ->
  pushes st' = (pushes st + (length rest - 1))%nat
  /\ pops st' = pops st
  /\ exists pushed,
       items st' = items st ++ pushed
       /\ length pushed = (length rest - 1)%nat.
Proof.
  revert i x st. induction rest as [|down rest IH]; intros i x st Hn; simpl.
  - intros [= <- <-]. split; [lia|]. split; [done|].
    exists []. by rewrite app_nil_r.
  - intros Hrun. apply bind_Return in Hrun as (x1 & _ & Hrun).
    apply IH in Hrun as (Hpush & Hpop & pushed & Hitems & Hlen); [|simpl in Hn; lia].
    simpl in Hn. case_decide as Hlast; simpl in *.
    + split; [lia|]. split; [done|]. exists (x1 :: pushed).
      rewrite Hitems, <- app_assoc. split; [done|]. simpl. lia.
    + split; [lia|]. split; [done|]. exists pushed. split; [done|]. lia.
Qed.

Lemma list_pop_removelast (l : list T) (a : T) (l' : list T) :
  list_pop l = Return (a, l') ->
  l' = take (length l - 1) l /\ (1 <= length l)%nat.
Proof.
  unfold list_pop. destruct (last l) as [b|] eqn:Hlast; [|done].
  intros [= <- <-]. apply last_Some in Hlast as [l' ->].
  rewrite removelast_last, length_app. simpl. split; [|lia].
  rewrite take_app_le by lia. rewrite take_ge by lia. done.
Qed.

(** The up pass pops once per stage except at position 0, never appends,
    and leaves the stack it found, shortened from the top. *)
Lemma up_pass_stack (i : nat) (rest : list Block.t) (x t x' : T)
    (st st' : skip_stack T) :
  SimpleUnet.up_pass i rest x t st = Return (x', st') ->
  let k := if decide (i = 0%nat) then (length rest - 1)%nat else length rest in
  pops st' = (pops st + k)%nat
  /\ pushes st' = pushes st
  /\ items st' = take (length (items st) - k) (items st)
  /\ (k <= length (items st))%nat.
Proof.
  revert i x st. induction rest as [|up rest IH]; intros i x st; simpl.
  - intros [= <- <-]. case_decide; simpl;
      (split; [lia|]; split; [done|]; split; [|lia]);
      by rewrite Nat.sub_0_r, firstn_all.
  - intros Hrun. apply bind_Return in Hrun as ([x1 st1] & Hpop & Hrun).
    apply bind_Return in Hrun as (x2 & _ & Hrun).
    apply IH in Hrun as (Hpops & Hpushes & Hitems & Hk).
    rewrite decide_False in Hpops, Hitems, Hk by lia.
    destruct (decide (i ≠ 0%nat)) as [Hi|Hi].
    + apply bind_Return in Hpop as ([r st0] & Hpop & Hcat).
      apply bind_Return in Hcat as (x3 & _ & [= _ <-]).
      unfold stack_pop in Hpop.
      apply bind_Return in Hpop as ([r' l'] & Hpop & [= _ <-]).
      apply list_pop_removelast in Hpop as [-> Hlen]. simpl in *.
      rewrite decide_False by done.
      rewrite length_take in Hitems, Hk. rewrite take_take in Hitems.
      split; [lia|]. split; [done|]. split; [|lia].
      rewrite Hitems. f_equal. lia.
    + injection Hpop as _ <-. rewrite decide_True by lia.
      split; [lia|]. split; [done|]. split; [|lia].
      rewrite Hitems. f_equal. lia.
Qed.

(** Position 0 of the up pass leaves the stack as it is. *)
Lemma up_pass_first_stage (up : Block.t) (x t x' : T) (st st' : skip_stack T) :
  SimpleUnet.up_pass 0 [up] x t st = Return (x', st') -> st' = st.
Proof.
  simpl. intros Hrun. apply bind_Return in Hrun as (x1 & _ & [= _ <-]). done.
Qed.
End stack_discipline.

(** C1 (as amended). For a channel plan of length at least 2, a forward
    pass that completes has appended to the skip-connection stack during
    the down pass exactly as often as it has popped from it during the up
    pass, [len(plan) - 2] times; up stage 0 pops nothing; and when the up
    pass has completed the stack holds exactly one entry, the output of the
    initial projection with which it was created. *)
Theorem skip_stack_discipline {T : Type} `{TensorOps T} (plan : list Z)
    (in_ch out_ch emb_dim : Z) (attn : bool) (rate : option Q) (evaluating : bool)
    (m : SimpleUnet.t) (x timestep out : T) (st : skip_stack T) :
  (2 <= length plan)%nat ->
  SimpleUnet.__init__ plan in_ch out_ch emb_dim attn rate = Return m ->
  SimpleUnet.forward_with_stack (if evaluating then SimpleUnet.eval m else m)
    x timestep = Return (out, st) ->
  pushes st = (length plan - 2)%nat
  /\ pops st = (length plan - 2)%nat
  /\ (exists x0, apply_conv (SimpleUnet.conv0 m) x = Return x0 /\ items st = [x0])
  /\ (forall (up : Block.t) (x1 t x2 : T) (st1 st2 : skip_stack T),
        SimpleUnet.up_pass 0 [up] x1 t st1 = Return (x2, st2) -> st2 = st1).
Proof.
  intros Hplan Hinit Hrun.
  apply SimpleUnet_init_stages in Hinit as [Hdowns Hups].
  set (m' := if evaluating then SimpleUnet.eval m else m) in *.
  assert (length (SimpleUnet.downs m') = (length plan - 1)%nat
          /\ length (SimpleUnet.ups m') = (length plan - 1)%nat
          /\ SimpleUnet.conv0 m' = SimpleUnet.conv0 m) as (Hd & Hu & Hconv).
  { subst m'. destruct evaluating; simpl; by rewrite ?length_fmap. }
  unfold SimpleUnet.forward_with_stack in Hrun.
  apply bind_Return in Hrun as (e & _ & Hrun).
  apply bind_Return in Hrun as (l & _ & Hrun).
  apply bind_Return in Hrun as (x0 & Hx0 & Hrun).
  apply bind_Return in Hrun as ([x1 st1] & Hdown & Hrun).
  apply bind_Return in Hrun as ([x2 st2] & Hup & Hrun).
  apply bind_Return in Hrun as (x3 & _ & [= _ <-]).
  apply down_pass_stack in Hdown
    as (Hpush1 & Hpop1 & pushed & Hitems1 & Hpushed); [|simpl; lia].
  apply up_pass_stack in Hup as (Hpop2 & Hpush2 & Hitems2 & _).
  simpl in *. rewrite Hd in *. rewrite Hu in *.
  split; [lia|]. split; [lia|]. split; [|by apply @up_pass_first_stage].
  exists x0. rewrite <- Hconv. split; [done|].
  rewrite Hitems2, Hitems1. simpl. rewrite Hpushed.
  replace (S (length plan - 1 - 1) - (length plan - 1 - 1))%nat with 1%nat by lia.
  done.
Qed.

Lemma skip_stack_discipline_witness :
  exists m out st,
    SimpleUnet.__init__ [64; 128; 256; 512; 1024] 3 3 32 false None = Return m
    /\ SimpleUnet.forward_with_stack (T := Shape.tensor) m [1; 3; 64; 64] [1]
       = Return (out, st)
    /\ pushes st = 3%nat /\ pops st = 3%nat
    /\ exists x0, items st = [x0].
Proof.
  eexists _, _, _. split; [reflexivity|]. split; [vm_compute; reflexivity|].
  destruct (skip_stack_discipline (T := Shape.tensor)
              [64; 128; 256; 512; 1024] 3 3 32 false None false
              (SimpleUnet_layers [64; 128; 256; 512; 1024] 3 3 32 false None true)
              [1; 3; 64; 64] [1] [1; 3; 64; 64]
              (mk_skip_stack [[1; 64; 64; 64]] 3 3))
    as (Hpushes & Hpops & (x0 & _ & Hitems) & _).
  - simpl. lia.
  - reflexivity.
  - vm_compute. reflexivity.
  - split; [exact Hpushes|]. split; [exact Hpops|]. exists x0. exact Hitems.
Defined.

(** Counterexample to C1 as stated: for the plan (64, 128, 256, 512, 1024)
    and a [1, 3, 64, 64] input the pass completes with three appends and
    three pops, and the stack is not empty: it still holds the output of
    the initial projection. *)
Lemma skip_stack_not_empty_at_end :
  exists m out st,
    SimpleUnet.__init__ [64; 128; 256; 512; 1024] 3 3 32 false None = Return m
    /\ SimpleUnet.forward_with_stack (T := Shape.tensor) m [1; 3; 64; 64] [1]
       = Return (out, st)
    /\ items st = [[1; 64; 64; 64]]
    /\ items st ≠ [].
Proof.
  eexists _, _, _. split; [reflexivity|]. split; [vm_compute; reflexivity|].
  split; [reflexivity|discriminate].
Qed.

(** ** Shapes through the network *)

(** On shapes, the time embedding of a batch of [B] timesteps has width
    [2 * (dim // 2)]. *)
Lemma SinusoidalPositionEmbeddings_forward_shape (dim B : Z) :
  0 <= dim `div` 2 -> dim `div` 2 ≠ 1 ->
  SinusoidalPositionEmbeddings.forward (T := Shape.tensor) dim [B]
  = Return [B; 2 * (dim `div` 2)].
Proof.
  intros Hhalf Hne. unfold SinusoidalPositionEmbeddings.forward.
  unfold math_log_10000_div. rewrite decide_False by lia.
  cbn [mbind result_bind torch_arange mul_scalar torch_exp index_none
    torch_mul torch_sin torch_cos torch_cat Shape.ops].
  unfold Shape.arange. rewrite decide_False by lia.
  cbn [mbind result_bind]. unfold Shape.insert_axis. cbn [mbind result_bind].
  set (half := dim `div` 2) in *.
  change (take 1 [B] ++ 1 :: drop 1 [B]) with [B; 1].
  change (take 0 [half] ++ 1 :: drop 0 [half]) with [1; half].
  assert (Shape.broadcast [B; 1] [1; half] = Return [B; half]) as ->.
  { unfold Shape.broadcast. simpl.
    repeat (case_decide; simplify_eq/=; try done). }
  cbn [mbind result_bind]. unfold Shape.cat, Shape.norm_dim. simpl.
  rewrite !decide_True by done. simpl. do 3 f_equal. lia.
Qed.

Lemma size_at_bottom (K h : Z) : size_at K h K = h.
Proof. unfold size_at. rewrite Z.sub_diag. simpl. lia. Qed.

Lemma size_at_double (K h j : Z) :
  0 <= j < K -> 2 * size_at K h (j + 1) = size_at K h j.
Proof.
  intros Hj. unfold size_at.
  replace (K - j) with (Z.succ (K - (j + 1))) by lia.
  rewrite Z.pow_succ_r by lia. lia.
Qed.

Lemma size_at_halve (K h j : Z) :
  0 <= j < K -> size_at K h j `div` 2 = size_at K h (j + 1).
Proof.
  intros Hj. rewrite <- (size_at_double K h j) by done.
  rewrite Z.mul_comm. apply Z.div_mul. lia.
Qed.

Lemma size_at_pos (K h j : Z) : 0 <= j <= K -> 1 <= h -> 1 <= size_at K h j.
Proof.
  intros Hj Hh. unfold size_at.
  pose proof (Z.pow_pos_nonneg 2 (K - j) ltac:(lia) ltac:(lia)). nia.
Qed.

Lemma size_at_ge_2 (K h j : Z) : 0 <= j < K -> 1 <= h -> 2 <= size_at K h j.
Proof.
  intros Hj Hh. rewrite <- (size_at_double K h j) by done.
  pose proof (size_at_pos K h (j + 1) ltac:(lia) Hh). lia.
Qed.

Section network_shapes.
Variables (plan : list Z) (emb_dim : Z) (attn : bool) (rate : option Q).
Variables (training : bool) (B h w : Z).
Hypothesis plan_pos : Forall (fun c => 0 < c) plan.
Hypothesis batch_pos : 1 <= B.
Hypothesis height_pos : 1 <= h.
Hypothesis width_pos : 1 <= w.

Local Abbreviation K := (Z.of_nat (length plan) - 1).
Local Abbreviation stage := (stage_shape plan B h w).

Lemma plan_width_pos (k : nat) : (k < length plan)%nat -> 0 < plan !!! k.
Proof.
  intros Hk. destruct (lookup_lt_is_Some_2 plan k Hk) as [c Hc].
  rewrite (list_lookup_total_correct _ _ _ Hc).
  by apply (Forall_lookup_1 _ _ _ _ plan_pos Hc).
Qed.

(** One down stage takes depth [j] to depth [j + 1]. *)
Lemma down_stage_shape (j : Z) :
  0 <= j < K ->
  Block.forward (T := Shape.tensor)
    (down_stage plan emb_dim attn rate training j) (stage j) [B; emb_dim]
  = Return (stage (j + 1)).
Proof.
  intros Hj. unfold down_stage, stage_shape.
  pose proof (size_at_ge_2 K h j Hj height_pos).
  pose proof (size_at_ge_2 K w j Hj width_pos).
  rewrite Block_forward_shape.
  - by rewrite !size_at_halve.
  - pose proof (plan_width_pos (Z.to_nat j) ltac:(lia)). lia.
  - pose proof (plan_width_pos (Z.to_nat (j + 1)) ltac:(lia)). lia.
  - done.
  - right. nia.
Qed.

(** One up stage takes depth [j + 1], after the concatenation when it is
    not the first, back to depth [j]. *)
Lemma up_stage_shape (i : Z) :
  0 <= i < K ->
  training = false \/ i ≠ 0 \/ B * (h * w) ≠ 1 ->
  Block.forward (T := Shape.tensor)
    (up_stage plan emb_dim attn rate training i)
    [B; up_in_width plan i; size_at K h (K - i); size_at K w (K - i)]
    [B; emb_dim]
  = Return (stage (K - i - 1)).
Proof.
  intros Hi Hmode. unfold up_stage, up_in_width, stage_shape.
  pose proof (size_at_pos K h (K - i) ltac:(lia) height_pos).
  pose proof (size_at_pos K w (K - i) ltac:(lia) width_pos).
  rewrite Block_forward_shape.
  - rewrite <- (size_at_double K h (K - i - 1)), <- (size_at_double K w (K - i - 1)) by lia.
    by replace (K - i - 1 + 1) with (K - i) by lia.
  - pose proof (plan_width_pos (Z.to_nat (K - i)) ltac:(lia)).
    case_decide; lia.
  - pose proof (plan_width_pos (Z.to_nat (K - i - 1)) ltac:(lia)). lia.
  - done.
  - destruct Hmode as [?|[Hi0|?]]; [by left|right|right].
    + pose proof (size_at_ge_2 K h (K - i) ltac:(lia) height_pos).
      pose proof (size_at_ge_2 K w (K - i) ltac:(lia) width_pos). nia.
    + destruct (decide (i = 0)) as [->|Hi0].
      * by rewrite Z.sub_0_r, !size_at_bottom.
      * pose proof (size_at_ge_2 K h (K - i) ltac:(lia) height_pos).
        pose proof (size_at_ge_2 K w (K - i) ltac:(lia) width_pos). nia.
Qed.

(** The down pass from position [i] on: it ends at the deepest shape and
    has appended the shapes of the depths in between. *)
Lemma down_pass_shape (k i : nat) (l : list Shape.tensor) (p q : nat) :
  (i + k = length plan - 1)%nat ->
  SimpleUnet.down_pass (length plan - 1) i
    (down_stage plan emb_dim attn rate training
       <$> seqZ (Z.of_nat i) (Z.of_nat k))
    (stage (Z.of_nat i)) [B; emb_dim] (mk_skip_stack l p q)
  = Return (stage (Z.of_nat (i + k)),
            mk_skip_stack
              (l ++ (stage <$> seqZ (Z.of_nat i + 1) (Z.of_nat k - 1)))
              (p + (k - 1)) q).
Proof.
  revert i l p. induction k as [|k IH]; intros i l p Hik.
  - simpl. rewrite Nat.add_0_r, app_nil_r, Nat.add_0_r. done.
  - rewrite seqZ_cons by lia. rewrite fmap_cons.
    cbn [SimpleUnet.down_pass]. rewrite down_stage_shape by lia.
    cbn [mbind result_bind].
    replace (Z.succ (Z.of_nat i)) with (Z.of_nat (S i)) by lia.
    replace (Z.pred (Z.of_nat (S k))) with (Z.of_nat k) by lia.
    replace (Z.of_nat i + 1) with (Z.of_nat (S i)) by lia.
    replace (Z.of_nat (S k) - 1) with (Z.of_nat k) by lia.
    destruct k as [|k].
    + rewrite decide_False by lia. rewrite IH by lia.
      simpl. rewrite Nat.add_0_r, !app_nil_r.
      by replace (i + 1)%nat with (S i) by lia.
    + rewrite decide_True by lia. unfold stack_append. simpl items.
      simpl pushes. simpl pops. rewrite IH by lia.
      replace (S i + S k)%nat with (i + S (S k))%nat by lia.
      rewrite <- app_assoc.
      rewrite (seqZ_cons (Z.of_nat (S i)) (Z.of_nat (S k))) by lia.
      rewrite fmap_cons.
      replace (Z.succ (Z.of_nat (S i))) with (Z.of_nat (S i) + 1) by lia.
      replace (Z.pred (Z.of_nat (S k))) with (Z.of_nat (S k) - 1) by lia.
      replace (S p + (S k - 1))%nat with (p + (S (S k) - 1))%nat by lia.
      done.
Qed.

Lemma list_pop_snoc {A} (l : list A) (a : A) :
  list_pop (l ++ [a]) = Return (a, l).
Proof. unfold list_pop. by rewrite last_snoc, removelast_last. Qed.

(** The up pass from a position [i >= 1] on: every stage pops the shape
    of its own depth, and the pass ends at depth 0 with the first entry
    of the stack left. *)
Lemma up_pass_shape (k i : nat) (p q : nat) :
  (1 <= i)%nat -> (i + k = length plan - 1)%nat ->
  SimpleUnet.up_pass i
    (up_stage plan emb_dim attn rate training
       <$> seqZ (Z.of_nat i) (Z.of_nat k))
    (stage (K - Z.of_nat i)) [B; emb_dim]
    (mk_skip_stack (stage <$> seqZ 0 (K - Z.of_nat i + 1)) p q)
  = Return (stage 0, mk_skip_stack [stage 0] p (q + k)).
Proof.
  revert i q. induction k as [|k IH]; intros i q Hi Hik.
  - simpl. replace (K - Z.of_nat i) with 0 by lia.
    by rewrite Nat.add_0_r.
  - rewrite seqZ_cons by lia. rewrite fmap_cons.
    cbn [SimpleUnet.up_pass]. rewrite decide_True by lia.
    unfold stack_pop. cbn [items pushes pops].
    replace (K - Z.of_nat i + 1)
      with (Z.of_nat (S (Z.to_nat (K - Z.of_nat i)))) by lia.
    rewrite seqZ_S, fmap_app. cbn [fmap list_fmap].
    rewrite list_pop_snoc. cbn [mbind result_bind].
    replace (0 + Z.of_nat (Z.to_nat (K - Z.of_nat i)))
      with (K - Z.of_nat i) by lia.
    assert (torch_cat (T := Shape.tensor)
              [stage (K - Z.of_nat i); stage (K - Z.of_nat i)] 1
            = Return [B; up_in_width plan (Z.of_nat i);
                      size_at K h (K - Z.of_nat i);
                      size_at K w (K - Z.of_nat i)]) as ->.
    { cbn [torch_cat Shape.ops]. unfold Shape.cat, Shape.norm_dim, stage_shape.
      simpl. rewrite !decide_True by done. simpl. do 3 f_equal.
      unfold up_in_width. rewrite decide_False by lia. lia. }
    cbn [mbind result_bind].
    rewrite up_stage_shape by lia. cbn [mbind result_bind].
    replace (Z.succ (Z.of_nat i)) with (Z.of_nat (S i)) by lia.
    replace (Z.pred (Z.of_nat (S k))) with (Z.of_nat k) by lia.
    replace (K - Z.of_nat i - 1) with (K - Z.of_nat (S i)) by lia.
    replace (Z.of_nat (Z.to_nat (K - Z.of_nat i)))
      with (K - Z.of_nat (S i) + 1) by lia.
    rewrite IH by lia. do 3 f_equal. lia.
Qed.

Lemma output_conv_shape (out_ch : Z) :
  plan ≠ [] -> out_ch ≠ 0 ->
  Shape.conv (nn.mk_Conv "output" false (plan !!! 0%nat) out_ch 1 1 0)
    (stage 0)
  = Return [B; out_ch; size_at K h 0; size_at K w 0].
Proof.
  intros Hne Hout.
  assert (0 < length plan)%nat as Hlen by (destruct plan; [done|simpl; lia]).
  pose proof (size_at_pos K h 0 ltac:(lia) height_pos).
  pose proof (size_at_pos K w 0 ltac:(lia) width_pos).
  pose proof (plan_width_pos 0 Hlen).
  unfold stage_shape. change (Z.to_nat 0) with 0%nat.
  apply conv_4d; [done|lia|done|apply conv_out_same; lia..].
Qed.

(** The whole pass on the layers of a plan: the output has the shape of
    the input with [out_ch] channels, and the stack ends with its first
    entry only. *)
Lemma forward_layers_shape (in_ch out_ch : Z) :
  plan ≠ [] -> in_ch ≠ 0 -> out_ch ≠ 0 ->
  0 <= emb_dim -> emb_dim `mod` 2 = 0 -> emb_dim ≠ 2 ->
  training = false \/ length plan = 1%nat \/ B * (h * w) ≠ 1 ->
  SimpleUnet.forward_with_stack (T := Shape.tensor)
    (SimpleUnet_layers plan in_ch out_ch emb_dim attn rate training)
    [B; in_ch; size_at K h 0; size_at K w 0] [B]
  = Return ([B; out_ch; size_at K h 0; size_at K w 0],
            mk_skip_stack [stage 0] (length plan - 2) (length plan - 2)).
Proof.
  intros Hne Hin Hout Hemb Heven Hemb2 Hmode.
  assert (0 < length plan)%nat as Hlen by (destruct plan; [done|simpl; lia]).
  pose proof (plan_width_pos 0 Hlen) as Hwidth.
  pose proof (Z.div_mod emb_dim 2 ltac:(lia)) as Hdiv.
  pose proof (size_at_pos K h 0 ltac:(lia) height_pos).
  pose proof (size_at_pos K w 0 ltac:(lia) width_pos).
  unfold SimpleUnet.forward_with_stack, SimpleUnet_layers.
  cbn [SimpleUnet.time_emb_dim SimpleUnet.time_mlp SimpleUnet.conv0
    SimpleUnet.downs SimpleUnet.ups SimpleUnet.output].
  rewrite SinusoidalPositionEmbeddings_forward_shape by lia.
  replace (2 * (emb_dim `div` 2)) with emb_dim by lia.
  cbn [mbind result_bind apply_linear apply_conv torch_relu Shape.ops].
  rewrite linear_2d by done. cbn [mbind result_bind nn.out_features].
  rewrite (conv_4d _ B in_ch _ _ (size_at K h 0) (size_at K w 0));
    [|done|done|cbn [nn.out_channels]; lia|apply conv_out_same; lia..].
  cbn [mbind result_bind nn.out_channels].
  change [B; plan !!! 0%nat; size_at K h 0; size_at K w 0] with (stage 0).
  rewrite length_fmap, length_seqZ.
  replace (Z.to_nat (Z.of_nat (length plan) - 1)) with (length plan - 1)%nat by lia.
  replace (Z.of_nat (length plan) - 1) with (Z.of_nat (length plan - 1)) by lia.
  pose proof (down_pass_shape (length plan - 1) 0 [stage 0] 0 0
                ltac:(lia)) as Hdown.
  change (Z.of_nat 0) with 0 in Hdown. rewrite Hdown. clear Hdown.
  cbn [mbind result_bind].
  destruct (decide (length plan = 1%nat)) as [Hone|Hmore].
  - replace (length plan - 1)%nat with 0%nat by lia.
    rewrite !seqZ_nil by lia. rewrite !fmap_nil, app_nil_r.
    cbn [SimpleUnet.up_pass mbind result_bind].
    change (Z.of_nat (0 + 0)) with 0. rewrite output_conv_shape by done.
    cbn [mbind result_bind]. rewrite Hone. done.
  - replace (Z.of_nat (length plan - 1)) with K at 2 by lia.
    rewrite (seqZ_cons 0 (Z.of_nat (length plan - 1))) by lia.
    rewrite fmap_cons. cbn [SimpleUnet.up_pass].
    rewrite decide_False by lia. cbn [mbind result_bind].
    replace (stage (Z.of_nat (0 + (length plan - 1))))
      with [B; up_in_width plan 0; size_at K h (K - 0); size_at K w (K - 0)];
      last first.
    { unfold stage_shape, up_in_width. rewrite decide_True by done.
      rewrite Z.sub_0_r. replace (Z.of_nat (0 + (length plan - 1))) with K
        by lia.
      f_equal. f_equal. lia. }
    rewrite up_stage_shape; [|lia|]; last first.
    { destruct Hmode as [?|[?|?]]; [by left|done|by right; right]. }
    cbn [mbind result_bind].
    replace (Z.succ 0) with (Z.of_nat 1) by lia.
    replace (Z.pred (Z.of_nat (length plan - 1)))
      with (Z.of_nat (length plan - 2)) by lia.
    replace (K - 0 - 1) with (K - Z.of_nat 1) by lia.
    assert ([stage 0]
            ++ (stage <$> seqZ (0 + 1) (K - 1))
            = stage <$> seqZ 0 (K - Z.of_nat 1 + 1)) as ->.
    { rewrite (seqZ_cons 0 (K - Z.of_nat 1 + 1)) by lia.
      rewrite fmap_cons. simpl app. do 3 f_equal; lia. }
    rewrite (up_pass_shape (length plan - 2) 1) by lia.
    cbn [mbind result_bind].
    rewrite output_conv_shape by done.
    cbn [mbind result_bind].
    replace (Z.of_nat (length plan - 1)) with K by lia.
    do 3 f_equal; lia.
Qed.
End network_shapes.




(** * Further properties *)

(** ** Paired sample provider: construction and indexing *)

Lemma norm_index_Return (n : nat) (i : Z) (j : nat) :
  np.norm_index n i = Return j -> - Z.of_nat n <= i < Z.of_nat n /\ (j < n)%nat.
Proof.
  unfold np.norm_index. repeat case_decide; intros [= <-]; lia.
Qed.

Lemma norm_index_Raise (n : nat) (i : Z) (x : exception) :
  np.norm_index n i = Raise x ->
  x = IndexError /\ ~ (- Z.of_nat n <= i < Z.of_nat n).
Proof.
  unfold np.norm_index. repeat case_decide; intros [= <-]. split; [done|lia].
Qed.

Lemma norm_indices_Return (n : nat) (idx : list Z) (js : list nat) :
  np.norm_indices n idx = Return js ->
  Forall (fun i => - Z.of_nat n <= i < Z.of_nat n) idx
  /\ Forall (fun j => (j < n)%nat) js
  /\ length js = length idx.
Proof.
  revert js. induction idx as [|i idx IH]; intros js; simpl.
  - intros [= <-]. by repeat constructor.
  - intros Hrun. apply bind_Return in Hrun as (j & Hj & Hrun).
    apply bind_Return in Hrun as (js' & Hjs & [= <-]).
    apply norm_index_Return in Hj as [Hi Hj].
    destruct (IH js' Hjs) as (Hidx & Hjs' & Hlen).
    split; [by constructor|]. split; [by constructor|]. simpl. by rewrite Hlen.
Qed.

Lemma norm_indices_Raise (n : nat) (idx : list Z) (x : exception) :
  np.norm_indices n idx = Raise x ->
  x = IndexError /\ Exists (fun i => ~ (- Z.of_nat n <= i < Z.of_nat n)) idx.
Proof.
  induction idx as [|i idx IH]; simpl; [done|].
  destruct (np.norm_index n i) as [j|y] eqn:Hi; simpl.
  - destruct (np.norm_indices n idx) as [js|y] eqn:Hidx; simpl; [done|].
    intros [= <-]. destruct (IH eq_refl) as [-> Hex]. split; [done|by right].
  - intros [= <-]. apply norm_index_Raise in Hi as [-> Hi]. split; [done|by left].
Qed.

Lemma take_rows_Return {V} (a g : np.ndarray V) (idx : list Z) :
  np.take_rows a idx = Return g ->
  exists n rest,
    np.shape a = n :: rest
    /\ np.shape g = length idx :: rest
    /\ Forall (fun i => - Z.of_nat n <= i < Z.of_nat n) idx.
Proof.
  unfold np.take_rows. destruct (np.shape a) as [|n rest]; [done|].
  intros Hrun. apply bind_Return in Hrun as (js & Hjs & [= <-]).
  apply norm_indices_Return in Hjs as (Hidx & _ & _). by exists n, rest.
Qed.

Lemma take_rows_Raise {V} (a : np.ndarray V) (idx : list Z) (x : exception) :
  np.take_rows a idx = Raise x -> x = IndexError.
Proof.
  unfold np.take_rows. destruct (np.shape a) as [|n rest]; [by intros [= <-]|].
  destruct (np.norm_indices n idx) as [js|y] eqn:Hjs; simpl; [done|].
  intros [= <-]. by apply norm_indices_Raise in Hjs as [-> _].
Qed.

Lemma init_lengths {V : Type} (low high : np.ndarray V)
    (low_name high_name : option string) (indices : option (list Z))
    (ds : DownscalingDataset.t V) :
  DownscalingDataset.__init__ low high low_name high_name indices = Return ds ->
  exists n,
    np.len (DownscalingDataset.low_res_data ds) = Return n
    /\ np.len (DownscalingDataset.high_res_data ds) = Return n
    /\ DownscalingDataset.__len__ ds = Return n.
Proof.
  unfold DownscalingDataset.__init__. intros Hrun.
  apply bind_Return in Hrun as ([l h] & _ & Hrun).
  apply bind_Return in Hrun as (n_low & Hlow & Hrun).
  apply bind_Return in Hrun as (n_high & Hhigh & Hrun).
  case_decide as Hne; [done|]. injection Hrun as <-.
  exists n_low. simpl. unfold DownscalingDataset.__len__. simpl.
  split; [done|]. split; [|done]. rewrite Hhigh. f_equal.
  destruct (decide (n_low = n_high)); [done|]. by destruct Hne.
Qed.

(** X1. Whatever the arguments, a dataset that construction returns holds
    two arrays with the same size of the first axis. *)
Theorem DownscalingDataset_lengths_agree {V : Type} (low high : np.ndarray V)
    (low_name high_name : option string) (indices : option (list Z))
    (ds : DownscalingDataset.t V) :
  DownscalingDataset.__init__ low high low_name high_name indices = Return ds ->
  exists n,
    np.len (DownscalingDataset.low_res_data ds) = Return n
    /\ np.len (DownscalingDataset.high_res_data ds) = Return n
    /\ DownscalingDataset.__len__ ds = Return n.
Proof. apply init_lengths. Qed.

Lemma DownscalingDataset_lengths_agree_witness :
  exists ds n,
    DownscalingDataset.__init__ sample_low sample_high None None (Some [0; -1; 1])
    = Return ds
    /\ np.len (DownscalingDataset.low_res_data ds) = Return n
    /\ np.len (DownscalingDataset.high_res_data ds) = Return n.
Proof.
  eexists. 
  destruct (DownscalingDataset_lengths_agree sample_low sample_high None None
              (Some [0; -1; 1]) _ eq_refl) as (n & Hlow & Hhigh & _).
  exists n. split; [reflexivity|]. split; [exact Hlow|exact Hhigh].
Defined.

(** X2. With an index subset, construction returns exactly when both
    arrays have a first axis and every index is in range for both; when it
    fails it raises [IndexError], never the length-mismatch [ValueError],
    whatever the lengths of the two arrays. *)
Theorem DownscalingDataset_init_with_indices {V : Type} (low high : np.ndarray V)
    (low_name high_name : option string) (idx : list Z) :
  ((exists ds,
      DownscalingDataset.__init__ low high low_name high_name (Some idx) = Return ds)
   <-> exists n m,
         np.len low = Return n /\ np.len high = Return m
         /\ Forall (fun i => - Z.of_nat n <= i < Z.of_nat n
                             /\ - Z.of_nat m <= i < Z.of_nat m) idx)
  /\ forall x,
       DownscalingDataset.__init__ low high low_name high_name (Some idx) = Raise x ->
       x = IndexError.
Proof.
  unfold DownscalingDataset.__init__. split; [split|].
  - intros [ds Hrun].
    apply bind_Return in Hrun as ([l h] & Hgather & _).
    apply bind_Return in Hgather as (gl & Hgl & Hgather).
    apply bind_Return in Hgather as (gh & Hgh & _).
    apply take_rows_Return in Hgl as (n & rl & Hsl & _ & Hl).
    apply take_rows_Return in Hgh as (m & rh & Hsh & _ & Hh).
    exists n, m. unfold np.len. rewrite Hsl, Hsh. split; [done|]. split; [done|].
    apply Forall_and. by split.
  - intros (n & m & Hlow & Hhigh & Hidx). apply Forall_and in Hidx as [Hl Hh].
    destruct (take_rows_len low idx n Hlow Hl) as (gl & -> & Hlen_l).
    destruct (take_rows_len high idx m Hhigh Hh) as (gh & -> & Hlen_h).
    simpl. rewrite Hlen_l, Hlen_h. simpl.
    rewrite decide_False by (intros ?; congruence). by eexists.
  - intros x.
    destruct (np.take_rows low idx) as [gl|y] eqn:Hgl; simpl;
      [|intros [= <-]; by eapply take_rows_Raise].
    destruct (np.take_rows high idx) as [gh|y] eqn:Hgh; simpl;
      [|intros [= <-]; by eapply take_rows_Raise].
    apply take_rows_Return in Hgl as (n & rl & _ & Hsl & _).
    apply take_rows_Return in Hgh as (m & rh & _ & Hsh & _).
    unfold np.len. rewrite Hsl, Hsh. simpl.
    by rewrite decide_False by (intros ?; congruence).
Qed.

Lemma DownscalingDataset_init_with_indices_witness :
  DownscalingDataset.__init__ sample_low sample_high None None (Some [0; 2])
  = Raise IndexError.
Proof.
  destruct (DownscalingDataset.__init__ sample_low sample_high None None
              (Some [0; 2])) as [ds|x] eqn:Hrun; [discriminate Hrun|].
  f_equal.
  apply (proj2 (DownscalingDataset_init_with_indices sample_low sample_high
                  None None [0; 2]) x Hrun).
Defined.

Lemma scalar_index_in_range (n : nat) (i : Z) :
  - Z.of_nat n <= i < Z.of_nat n ->
  np.scalar_index n i
  = Return (Z.to_nat (if decide (i < 0) then Z.of_nat n + i else i)).
Proof.
  intros Hi. unfold np.scalar_index, np.norm_index.
  destruct (decide (i < 0)).
  - rewrite decide_False by lia. by rewrite decide_True by lia.
  - by rewrite decide_True by lia.
Qed.

Lemma scalar_index_out_of_range (n : nat) (i : Z) :
  ~ (- Z.of_nat n <= i < Z.of_nat n) ->
  np.scalar_index n i
  = Raise (if decide (- 2 ^ 63 <= i < 2 ^ 63) then IndexError else OverflowError).
Proof.
  intros Hi. unfold np.scalar_index, np.norm_index.
  rewrite !decide_False by lia. by case_decide.
Qed.



(** Taking the [i]-th run of [k] elements out of a concatenation of runs
    of [k] elements gives back the [i]-th run. *)
Lemma take_drop_bind {A B} (k : nat) (f : A -> list B) (l : list A)
    (i : nat) (x : A) :
  Forall (fun x => length (f x) = k) l ->
  l !! i = Some x ->
  take k (drop (i * k) (l ≫= f)) = f x.
Proof.
  intros Hl. revert i.
  induction Hl as [|x0 l Hx0 Hl IH]; intros i; [done|].
  destruct i as [|i]; csimpl.
  - intros [= <-]. by rewrite drop_0, take_app_length'.
  - intros Hi. rewrite drop_app_ge by lia.
    replace (k + i * k - length (f x0))%nat with (i * k)%nat by lia. by apply IH.
Qed.

Lemma row_length {V} (a : np.ndarray V) (n : nat) (rest : list nat) (j : nat) :
  ndarray_wf a -> np.shape a = n :: rest -> (j < n)%nat ->
  length (np.row a j) = np.row_size a.
Proof.
  unfold ndarray_wf, np.row, np.row_size. intros Hwf Hshape Hj.
  rewrite Hshape in *. simpl in *.
  rewrite length_take, length_drop, Hwf. nia.
Qed.

(** The entry at position [i] of a gathered array is the entry of the
    original array that the [i]-th index names. *)
Lemma take_rows_row {V} (a g : np.ndarray V) (idx : list Z) (n : nat)
    (i : nat) (k : Z) (j : nat) :
  ndarray_wf a ->
  np.len a = Return n ->
  np.take_rows a idx = Return g ->
  idx !! i = Some k ->
  np.norm_index n k = Return j ->
  np.row g i = np.row a j /\ tail (np.shape g) = tail (np.shape a).
Proof.
  intros Hwf Hlen Hrun Hi Hk. unfold np.len, np.take_rows in *.
  destruct (np.shape a) as [|n' rest] eqn:Hshape; [done|]. injection Hlen as ->.
  apply bind_Return in Hrun as (js & Hjs & [= <-]). split; [|done].
  unfold np.row at 1, np.row_size at 1 2. simpl.
  fold (np.row_size a). change (np.prod_list rest) with (np.prod_list (tail (n :: rest))).
  rewrite <- Hshape. fold (np.row_size a).
  apply take_drop_bind.
  - apply norm_indices_Return in Hjs as (_ & Hjs & _).
    eapply Forall_impl; [exact Hjs|]. simpl. intros j' Hj'.
    by eapply row_length.
  - clear -Hjs Hi Hk. revert js i Hjs Hi.
    induction idx as [|k0 idx IH]; intros js i Hjs Hi; [done|].
    simpl in Hjs. apply bind_Return in Hjs as (j0 & Hj0 & Hjs).
    apply bind_Return in Hjs as (js' & Hjs' & [= <-]).
    destruct i as [|i]; simpl in *.
    + injection Hi as ->. congruence.
    + by apply IH.
Qed.

(** X4. Indexing a dataset built with an index subset is indexing the
    dataset built from the whole arrays at the index the subset holds:
    [DownscalingDataset(low, high, indices=idx)[i]] is
    [DownscalingDataset(low, high)[idx[i]]]. *)
Theorem DownscalingDataset_getitem_gathered {V : Type} (low high : np.ndarray V)
    (low_name high_name : option string) (idx : list Z)
    (whole sub : DownscalingDataset.t V) (i : nat) (k : Z) :
  ndarray_wf low -> ndarray_wf high ->
  DownscalingDataset.__init__ low high low_name high_name None = Return whole ->
  DownscalingDataset.__init__ low high low_name high_name (Some idx) = Return sub ->
  idx !! i = Some k ->
  DownscalingDataset.__getitem__ sub (Z.of_nat i)
  = DownscalingDataset.__getitem__ whole k.
Proof.
  intros Hwl Hwh Hwhole Hsub Hi.
  unfold DownscalingDataset.__init__ in Hwhole, Hsub. simpl in Hwhole.
  apply bind_Return in Hwhole as (n & Hlow & Hwhole).
  apply bind_Return in Hwhole as (m & Hhigh & Hwhole).
  case_decide as Hnm; [done|]. injection Hwhole as <-.
  assert (m = n) as -> by (destruct (decide (n = m)); [done|by destruct Hnm]).
  apply bind_Return in Hsub as ([gl gh] & Hgather & Hsub).
  apply bind_Return in Hgather as (gl' & Hgl & Hgather).
  apply bind_Return in Hgather as (gh' & Hgh & [= <- <-]).
  apply bind_Return in Hsub as (nl & Hnl & Hsub).
  apply bind_Return in Hsub as (nh & Hnh & Hsub).
  case_decide; [done|]. injection Hsub as <-.
  pose proof Hgl as Hgl'. pose proof Hgh as Hgh'.
  apply take_rows_Return in Hgl' as (n1 & rl & Hsl & Hsgl & Hidx).
  apply take_rows_Return in Hgh' as (n2 & rh & Hsh & Hsgh & _).
  assert (n1 = n) as -> by (unfold np.len in Hlow; rewrite Hsl in Hlow; congruence).
  assert (n2 = n) as -> by (unfold np.len in Hhigh; rewrite Hsh in Hhigh; congruence).
  assert (- Z.of_nat n <= k < Z.of_nat n) as Hk
    by (by apply (Forall_lookup_1 _ _ _ _ Hidx Hi)).
  assert (exists j, np.norm_index n k = Return j) as [j Hj].
  { unfold np.norm_index. repeat case_decide; try lia; by eexists. }
  destruct (take_rows_row low gl' idx n i k j Hwl Hlow Hgl Hi Hj) as [Hrl Htl].
  destruct (take_rows_row high gh' idx n i k j Hwh Hhigh Hgh Hi Hj) as [Hrh Hth].
  unfold DownscalingDataset.__getitem__. simpl.
  rewrite Hsgl, Hsgh, Hsl, Hsh. unfold np.scalar_index. rewrite Hj. simpl.
  assert (np.norm_index (length idx) (Z.of_nat i) = Return i) as ->.
  { apply lookup_lt_Some in Hi. unfold np.norm_index.
    rewrite decide_True by lia. f_equal. lia. }
  simpl. by rewrite Hrl, Hrh.
Qed.

Lemma DownscalingDataset_getitem_gathered_witness :
  exists whole sub,
    DownscalingDataset.__init__ sample_low sample_low None None None = Return whole
    /\ DownscalingDataset.__init__ sample_low sample_low None None (Some [2; -3])
       = Return sub
    /\ DownscalingDataset.__getitem__ sub 1
       = DownscalingDataset.__getitem__ whole (-3).
Proof.
  eexists _, _. split; [reflexivity|]. split; [reflexivity|].
  apply (DownscalingDataset_getitem_gathered sample_low sample_low None None
           [2; -3] _ _ 1 (-3)); reflexivity.
Defined.

(** ** Split generator: fractions that sum to more than the whole *)

Lemma slice_bound_negative (len : nat) (i : Z) :
  - Z.of_nat len <= i < 0 -> np.slice_bound len i = Z.to_nat (Z.of_nat len + i).
Proof. intros Hi. unfold np.slice_bound. rewrite decide_True by lia. lia. Qed.

(** X5. [spliting_indices] does not check its fractions. When both lie in
    [[0, 1]] but the two counts [n_val = int(val_pct*n)] and
    [n_test = int(test_pct*n)] together exceed [n], no exception is raised:
    the validation part is empty, the test part has its [n_test] indices,
    the training part has the first [2n - n_val - n_test] indices of the
    permutation, and, unless [n_val = n], the training and the test part
    share an index. *)
Theorem spliting_indices_oversubscribed (n : Z) (val_pct test_pct : float)
    (g : rng) (n_val n_test : Z) :
  0 <= n < 2 ^ 50 ->
  float_finite val_pct -> float_finite test_pct ->
  (0 <= float_value val_pct <= 1)%Q -> (0 <= float_value test_pct <= 1)%Q ->
  int_of_product val_pct n = Return n_val ->
  int_of_product test_pct n = Return n_test ->
  n < n_val + n_test ->
  exists (train val test : list Z) (g' : rng),
    spliting_indices n val_pct test_pct g = Return (train, val, test, g')
    /\ val = []
    /\ Z.of_nat (length test) = n_test
    /\ Z.of_nat (length train) = 2 * n - n_val - n_test
    /\ (n_val < n -> exists i, i ∈ train /\ i ∈ test).
Proof.
  intros Hn Hfv Hft Hv Ht Hnv Hnt Hover.
  assert (0 <= n_val <= n) as Hval.
  { destruct (int_of_product_bound val_pct n Hfv Hv Hn)
      as (p & k & _ & Hk & _ & Hk0 & Hkle).
    rewrite Hnv in Hk. injection Hk as <-.
    split; [done|]. exact (split_count_le n n_val _ Hn Hv Hkle). }
  assert (0 <= n_test <= n) as Htest.
  { destruct (int_of_product_bound test_pct n Hft Ht Hn)
      as (p & k & _ & Hk & _ & Hk0 & Hkle).
    rewrite Hnt in Hk. injection Hk as <-.
    split; [done|]. exact (split_count_le n n_test _ Hn Ht Hkle). }
  unfold spliting_indices. rewrite Hnv, Hnt. cbn [mbind result_bind].
  pose proof (np_random_permutation_Permutation n g) as Hperm.
  destruct (np_random_permutation n g) as [indices g1]. simpl in Hperm.
  assert (Z.of_nat (length indices) = n) as Hlen.
  { rewrite Hperm, length_seqZ. lia. }
  eexists _, _, _, _. split; [done|]. unfold np.slice1. simpl.
  rewrite (slice_bound_negative (length indices) (n - n_val - n_test)) by lia.
  rewrite (slice_bound_in_range (length indices) (n - n_val - n_test + n_val)) by lia.
  rewrite drop_0, Nat.sub_0_r.
  split; [|split; [|split]].
  - match goal with |- take ?k _ = _ => replace k with 0%nat by lia end. done.
  - rewrite take_ge by (rewrite length_drop; lia). rewrite length_drop. lia.
  - rewrite length_take. lia.
  - intros Hlt.
    destruct (lookup_lt_is_Some_2 indices (Z.to_nat (n - n_test))) as [i Hi]; [lia|].
    exists i. split.
    + apply list_elem_of_lookup.
      exists (Z.to_nat (n - n_test)). rewrite lookup_take_lt by lia. done.
    + rewrite take_ge by (rewrite length_drop; lia).
      apply list_elem_of_lookup. exists 0%nat. rewrite lookup_drop.
      rewrite <- Hi. f_equal. lia.
Qed.

Lemma spliting_indices_oversubscribed_witness :
  exists train val test g',
    spliting_indices 10 float_0_6 float_0_6 sample_rng
    = Return (train, val, test, g')
    /\ val = [] /\ exists i, i ∈ train /\ i ∈ test.
Proof.
  destruct (spliting_indices_oversubscribed 10 float_0_6 float_0_6 sample_rng 6 6)
    as (train & val & test & g' & Hrun & Hval & _ & _ & Hshare).
  - split; [lia|reflexivity].
  - exact I.
  - exact I.
  - split; apply Qle_bool_iff; vm_compute; reflexivity.
  - split; apply Qle_bool_iff; vm_compute; reflexivity.
  - vm_compute. reflexivity.
  - vm_compute. reflexivity.
  - lia.
  - exists train, val, test, g'. split; [exact Hrun|]. split; [exact Hval|].
    apply Hshare. lia.
Defined.

(** ** Temporal aligner: merging the yearly archives *)

Lemma np_load_npy (e : env) (l : log) (path : string) (a : np.ndarray Q) :
  fs e !! path = Some (NpyFile a) ->
  np_load path e l = (Return a, mk_log (stdout l) (opened l ++ [path])).
Proof.
  intros Hpath. unfold np_load, mbind, io_bind, open_file. by rewrite Hpath.
Qed.

Lemma np_load_missing (e : env) (l : log) (path : string) :
  fs e !! path = None ->
  np_load path e l
  = (Raise FileNotFoundError, mk_log (stdout l) (opened l ++ [path])).
Proof.
  intros Hpath. unfold np_load, mbind, io_bind, open_file. by rewrite Hpath.
Qed.

Lemma concatenate0_merged (rest : list nat) (n : nat) (acc : list Q)
    (a : np.ndarray Q) :
  np.shape a = axis0 a :: rest ->
  np.concatenate0 (np.mk_ndarray (n :: rest) acc) a
  = Return (np.mk_ndarray ((n + axis0 a)%nat :: rest) (acc ++ np.data a)).
Proof.
  intros Hshape. unfold np.concatenate0. simpl. rewrite Hshape.
  by rewrite decide_True.
Qed.

Section merge_out_data_facts.
Variables (e : env) (rest_f rest_t : list nat) (field stamp : Z -> np.ndarray Q).
Local Abbreviation on_disk := (year_on_disk e rest_f rest_t field stamp).

(** The loop, started on already merged arrays, appends the arrays of the
    years that follow, in order. *)
Lemma merge_out_loop_on_disk (years : list Z) (n k : nat) (acc_f acc_t : list Q)
    (l : log) :
  Forall on_disk years ->
  merge_out_loop years (Some (np.mk_ndarray (n :: rest_f) acc_f))
    (Some (np.mk_ndarray (k :: rest_t) acc_t)) e l
  = (Return
       (Some (np.mk_ndarray
                ((n + sum_list (axis0 <$> (field <$> years)))%nat :: rest_f)
                (acc_f ++ ((field <$> years) ≫= np.data))),
        Some (np.mk_ndarray
                ((k + sum_list (axis0 <$> (stamp <$> years)))%nat :: rest_t)
                (acc_t ++ ((stamp <$> years) ≫= np.data)))),
     mk_log (stdout l) (opened l ++ cerra_paths years)).
Proof.
  intros Hyears. revert n k acc_f acc_t l.
  induction Hyears as [|year years (Hf & Ht & Hsf & Hst) _ IH];
    intros n k acc_f acc_t l.
  - csimpl. rewrite !Nat.add_0_r, !app_nil_r. by destruct l.
  - cbn [merge_out_loop]. fold (si10_path year). fold (datetime_path year).
    unfold mbind at 1, io_bind at 1. rewrite (np_load_npy _ _ _ _ Hf).
    unfold mbind at 1, io_bind at 1, lift at 1.
    rewrite (concatenate0_merged rest_f n acc_f (field year) Hsf).
    unfold mbind at 1, io_bind at 1. rewrite (np_load_npy _ _ _ _ Ht).
    unfold mbind at 1, io_bind at 1, lift at 1.
    rewrite (concatenate0_merged rest_t k acc_t (stamp year) Hst).
    rewrite IH. csimpl. unfold cerra_paths. csimpl.
    rewrite <- !app_assoc, !Nat.add_assoc. done.
Qed.

Lemma merge_out_data_on_disk (start_year end_year : Z) (l : log) :
  start_year <= end_year ->
  (forall year, start_year <= year <= end_year -> on_disk year) ->
  let years := seqZ start_year (end_year + 1 - start_year) in
  merge_out_data start_year end_year e l
  = (Return (Some (merged rest_f (field <$> years)),
             Some (merged rest_t (stamp <$> years))),
     mk_log (stdout l) (opened l ++ cerra_paths years)).
Proof.
  intros Hrange Hdisk years. subst years. unfold merge_out_data.
  assert (Forall on_disk (seqZ start_year (end_year + 1 - start_year))) as Hall.
  { apply Forall_seqZ. intros year Hyear. apply Hdisk. lia. }
  rewrite seqZ_cons in * by lia.
  apply Forall_cons in Hall as [(Hf & Ht & Hsf & Hst) Hall].
  cbn [merge_out_loop]. fold (si10_path start_year). fold (datetime_path start_year).
  unfold mbind at 1, io_bind at 1. rewrite (np_load_npy _ _ _ _ Hf).
  unfold mbind at 1, io_bind at 1. rewrite (np_load_npy _ _ _ _ Ht).
  destruct (field start_year) as [sf df] eqn:Hfield.
  destruct (stamp start_year) as [st dt] eqn:Hstamp.
  destruct sf as [|n sf]; [done|]. destruct st as [|k st]; [done|].
  unfold axis0 in Hsf, Hst. simpl in Hsf, Hst. simplify_eq.
  rewrite (merge_out_loop_on_disk _ _ _ _ _ _ Hall).
  unfold merged, cerra_paths. csimpl. rewrite Hfield, Hstamp.
  by rewrite <- !app_assoc.
Qed.
(** The loop stops at the first year whose field file is missing. *)
Lemma merge_out_loop_missing (before after : list Z) (year : Z) (n k : nat)
    (acc_f acc_t : list Q) (l : log) :
  Forall on_disk before ->
  fs e !! si10_path year = None ->
  merge_out_loop (before ++ year :: after)
    (Some (np.mk_ndarray (n :: rest_f) acc_f))
    (Some (np.mk_ndarray (k :: rest_t) acc_t)) e l
  = (Raise FileNotFoundError,
     mk_log (stdout l) (opened l ++ cerra_paths before ++ [si10_path year])).
Proof.
  intros Hbefore Hmissing. revert n k acc_f acc_t l.
  induction Hbefore as [|y before (Hf & Ht & Hsf & Hst) _ IH];
    intros n k acc_f acc_t l.
  - cbn [app merge_out_loop]. fold (si10_path year).
    unfold mbind at 1, io_bind at 1. by rewrite (np_load_missing _ _ _ Hmissing).
  - cbn [app merge_out_loop]. fold (si10_path y). fold (datetime_path y).
    unfold mbind at 1, io_bind at 1. rewrite (np_load_npy _ _ _ _ Hf).
    unfold mbind at 1, io_bind at 1, lift at 1.
    rewrite (concatenate0_merged rest_f n acc_f (field y) Hsf).
    unfold mbind at 1, io_bind at 1. rewrite (np_load_npy _ _ _ _ Ht).
    unfold mbind at 1, io_bind at 1, lift at 1.
    rewrite (concatenate0_merged rest_t k acc_t (stamp y) Hst).
    rewrite IH. unfold cerra_paths. csimpl. by rewrite <- !app_assoc.
Qed.

Lemma merge_out_data_missing (start_year end_year year : Z) (l : log) :
  start_year <= year <= end_year ->
  (forall y, start_year <= y < year -> on_disk y) ->
  fs e !! si10_path year = None ->
  merge_out_data start_year end_year e l
  = (Raise FileNotFoundError,
     mk_log (stdout l)
       (opened l ++ cerra_paths (seqZ start_year (year - start_year))
                 ++ [si10_path year])).
Proof.
  intros Hrange Hdisk Hmissing. unfold merge_out_data.
  replace (end_year + 1 - start_year)
    with ((year - start_year) + (end_year + 1 - year)) by lia.
  rewrite seqZ_app by lia.
  replace (start_year + (year - start_year)) with year by lia.
  rewrite (seqZ_cons year) by lia.
  assert (Forall on_disk (seqZ start_year (year - start_year))) as Hall.
  { apply Forall_seqZ. intros y Hy. apply Hdisk. lia. }
  destruct (decide (year = start_year)) as [->|Hlater].
  - rewrite Z.sub_diag. cbn [seqZ app]. rewrite seqZ_nil by lia.
    cbn [app merge_out_loop cerra_paths]. fold (si10_path start_year).
    unfold mbind at 1, io_bind at 1. by rewrite (np_load_missing _ _ _ Hmissing).
  - rewrite (seqZ_cons start_year) in * by lia.
    apply Forall_cons in Hall as [(Hf & Ht & Hsf & Hst) Hall].
    cbn [app merge_out_loop]. fold (si10_path start_year).
    fold (datetime_path start_year).
    unfold mbind at 1, io_bind at 1. rewrite (np_load_npy _ _ _ _ Hf).
    unfold mbind at 1, io_bind at 1. rewrite (np_load_npy _ _ _ _ Ht).
    destruct (field start_year) as [sf df]. destruct (stamp start_year) as [st dt].
    destruct sf as [|n sf]; [done|]. destruct st as [|k st]; [done|].
    unfold axis0 in Hsf, Hst. simpl in Hsf, Hst. simplify_eq.
    rewrite (merge_out_loop_missing _ _ _ _ _ _ _ _ Hall Hmissing).
    unfold cerra_paths. csimpl. by rewrite <- !app_assoc.
Qed.
End merge_out_data_facts.

(** X6. When the two files of every year of a non-empty range are on
    disk, with arrays that agree in shape after the first axis,
    [merge_out_data] returns the yearly fields, and the yearly timestamps,
    concatenated in ascending year order (so the first axis is as long as
    the years' first axes together), having opened, year by year, the field
    file then the timestamp file and printed nothing. For an empty range it
    returns [(None, None)] and opens no file. *)
Theorem merge_out_data_concatenates (e : env) (rest_f rest_t : list nat)
    (field stamp : Z -> np.ndarray Q) (start_year end_year : Z) (l : log) :
  (start_year <= end_year ->
   (forall year, start_year <= year <= end_year ->
                 year_on_disk e rest_f rest_t field stamp year) ->
   let years := seqZ start_year (end_year + 1 - start_year) in
   merge_out_data start_year end_year e l
   = (Return (Some (merged rest_f (field <$> years)),
              Some (merged rest_t (stamp <$> years))),
      mk_log (stdout l) (opened l ++ cerra_paths years))
   /\ np.len (merged rest_f (field <$> years))
      = Return (sum_list (axis0 <$> (field <$> years))))
  /\ (end_year < start_year ->
      merge_out_data start_year end_year e l = (Return (None, None), l)).
Proof.
  split.
  - intros Hrange Hdisk years. split; [|done].
    by apply merge_out_data_on_disk.
  - intros Hempty. unfold merge_out_data. by rewrite seqZ_nil by lia.
Qed.

Lemma merge_out_data_concatenates_witness :
  merge_out_data 2010 2011 (sample_archive true) empty_log
  = (Return (Some (merged [1; 1]%nat [sample_field 2010; sample_field 2011]),
             Some (merged [] [sample_stamp 2010; sample_stamp 2011])),
     mk_log [] (cerra_paths [2010; 2011]))
  /\ np.len (merged [1; 1]%nat [sample_field 2010; sample_field 2011])
     = Return 4%nat.
Proof.
  destruct (merge_out_data_concatenates (sample_archive true) [1; 1]%nat []
              sample_field sample_stamp 2010 2011 empty_log) as [Hmerge _].
  apply Hmerge; [lia|]. intros year Hyear.
  assert (year = 2010 \/ year = 2011) as [-> | ->] by lia;
    repeat split; vm_compute; reflexivity.
Defined.

(** X7. [merge_out_data] stops at the first year of the range whose field
    file is missing: when the years before it are on disk (with arrays
    that agree in shape after the first axis), the call raises
    [FileNotFoundError] having opened the files of the earlier years and
    then the missing path; no file of a later year is opened, whatever the
    disk holds for them. *)
Theorem merge_out_data_missing_year (e : env) (rest_f rest_t : list nat)
    (field stamp : Z -> np.ndarray Q) (start_year end_year year : Z) (l : log) :
  start_year <= year <= end_year ->
  (forall y, start_year <= y < year ->
             year_on_disk e rest_f rest_t field stamp y) ->
  fs e !! si10_path year = None ->
  merge_out_data start_year end_year e l
  = (Raise FileNotFoundError,
     mk_log (stdout l)
       (opened l ++ cerra_paths (seqZ start_year (year - start_year))
                 ++ [si10_path year])).
Proof. apply merge_out_data_missing. Qed.

Lemma merge_out_data_missing_year_witness :
  merge_out_data 2019 2025 (sample_archive true) empty_log
  = (Raise FileNotFoundError,
     mk_log [] (cerra_paths [2019; 2020] ++ [si10_path 2021])).
Proof.
  apply (merge_out_data_missing_year (sample_archive true) [1; 1]%nat []
           sample_field sample_stamp 2019 2025 2021 empty_log); [lia| |].
  - intros y Hy. assert (y = 2019 \/ y = 2020) as [-> | ->] by lia;
      repeat split; vm_compute; reflexivity.
  - vm_compute. reflexivity.
Defined.

(** ** Temporal aligner: the window returned by [make_clean_data] *)

Lemma where_first_nonneg (a : np.ndarray Q) (v : Q) (i : Z) :
  np.where_first a v = Return i -> 0 <= i.
Proof.
  unfold np.where_first. destruct (np.shape a); [done|].
  destruct (list_find _ _) as [[k d]|]; [|done]. intros [= <-]. lia.
Qed.

Lemma slice_bound_nonneg (n : nat) (i : Z) :
  0 <= i -> np.slice_bound n i = (n `min` Z.to_nat i)%nat.
Proof. intros Hi. unfold np.slice_bound. by rewrite decide_False by lia. Qed.

(** [a[lo:hi]] for bounds that are not negative: the entries [lo .. hi-1]
    of [a], both bounds clipped to the length of the first axis. *)
Lemma slice_window {V} (a : np.ndarray V) (n : nat) (rest : list nat) (lo hi : Z) :
  np.shape a = n :: rest -> 0 <= lo -> 0 <= hi ->
  let l := (n `min` Z.to_nat lo)%nat in
  let h := (n `min` Z.to_nat hi)%nat in
  exists s,
    np.slice a lo hi = Return s
    /\ np.shape s = (h - l)%nat :: rest
    /\ forall i, (l <= i < h)%nat -> np.row s (i - l) = np.row a i.
Proof.
  intros Hshape Hlo Hhi l h. unfold np.slice. rewrite Hshape.
  rewrite !slice_bound_nonneg by done. fold l h.
  eexists. split; [done|]. split; [done|].
  intros i Hi. unfold np.row, np.row_size. simpl. rewrite Hshape. simpl.
  set (rs := np.prod_list rest).
  rewrite skipn_firstn_comm, take_take, drop_drop.
  f_equal; [|f_equal]; nia.
Qed.

(** A successful merge of the eleven years yields two arrays, both with a
    first axis. *)
Lemma merge_out_loop_sized years d dt e l r l' :
  (np.shape d ≠ [] /\ np.shape dt ≠ []) \/ years ≠ [] ->
  merge_out_loop years (Some d) (Some dt) e l = (Return r, l') ->
  exists out dates,
    r = (Some out, Some dates) /\ np.shape out ≠ [] /\ np.shape dates ≠ [].
Proof.
  revert d dt l. induction years as [|year years IH]; intros d dt l Hsized; simpl.
  - intros [= <- _]. destruct Hsized as [[? ?]|?]; [by eexists _, _ | done].
  - intros Hrun.
    apply io_bind_Return in Hrun as (tmp & l1 & _ & Hrun).
    apply io_bind_Return in Hrun as (d' & l2 & Hcat1 & Hrun).
    apply io_bind_Return in Hrun as (tmp_dt & l3 & _ & Hrun).
    apply io_bind_Return in Hrun as (dt' & l4 & Hcat2 & Hrun).
    apply lift_Return in Hcat1 as [Hcat1 _].
    apply lift_Return in Hcat2 as [Hcat2 _].
    apply (IH d' dt' l4); [|done]. left. split; by eapply concatenate0_shape.
Qed.

Lemma merge_out_data_sized e l r l' :
  merge_out_data 2010 2020 e l = (Return r, l') ->
  exists out dates,
    r = (Some out, Some dates) /\ np.shape out ≠ [] /\ np.shape dates ≠ [].
Proof.
  unfold merge_out_data.
  change (seqZ 2010 (2020 + 1 - 2010)) with (2010 :: seqZ 2011 10).
  assert (seqZ 2011 10 ≠ []) as Hyears by done.
  revert Hyears. generalize (seqZ 2011 10). intros years Hyears.
  simpl. intros Hrun.
  apply io_bind_Return in Hrun as (d & l1 & _ & Hrun).
  apply io_bind_Return in Hrun as (dt & l2 & _ & Hrun).
  eapply merge_out_loop_sized; [|done]. by right.
Qed.

(** Every array the variable loop returns has at least four axes. *)
Lemma load_in_vars_sized in_vars acc e l r l' :
  (forall a, acc = Some a -> (4 <= length (np.shape a))%nat) ->
  load_in_vars in_vars acc e l = (Return r, l') ->
  (forall a, r = Some a -> (4 <= length (np.shape a))%nat)
  /\ (in_vars = [] -> r = acc).
Proof.
  revert acc l. induction in_vars as [|v in_vars IH]; intros acc l Hacc; simpl.
  - intros [= <- _]. done.
  - intros Hrun.
    apply io_bind_Return in Hrun as (ds & l1 & _ & Hrun).
    apply io_bind_Return in Hrun as (var & l2 & _ & Hrun).
    apply io_bind_Return in Hrun as (tmp & l3 & Htmp & Hrun).
    apply lift_Return in Htmp as [Htmp _].
    assert (4 <= length (np.shape tmp))%nat as Htmp4.
    { unfold np.expand_dims in Htmp. case_decide as Hlen; [|done].
      injection Htmp as <-. cbn [np.shape].
      rewrite length_app, length_take, length_cons, length_drop. lia. }
    destruct acc as [a|].
    + apply io_bind_Return in Hrun as (c & l4 & Hc & Hrun).
      apply lift_Return in Hc as [Hc _].
      split; [|done]. eapply (IH (Some c)); [|done].
      intros ? [= <-]. unfold np.concatenate in Hc.
      destruct (np.shape a !! 3%nat) as [n|] eqn:Hn; [|done].
      destruct (np.shape tmp !! 3%nat) as [m|]; [|done].
      case_decide; [|done]. injection Hc as <-. cbn [np.shape].
      apply lookup_lt_Some in Hn.
      rewrite length_app, length_take, length_cons, length_drop. lia.
    + split; [|done]. eapply (IH (Some tmp)); [|done]. by intros ? [= <-].
Qed.

Section make_clean_data_facts.
Variables (in_vars : list string) (start_year end_year : Z) (e : env).
Variables (l l1 l2 : log) (out dates inp : np.ndarray Q) (low_index high_index : Z).
Hypothesis start_ok : 2010 <= start_year <= 9999.
Hypothesis end_ok : 2 <= end_year <= 2020.
Hypothesis merged_ok :
  merge_out_data 2010 2020 e l = (Return (Some out, Some dates), l1).
Hypothesis low_found :
  np.where_first dates (inject_Z (new_year_hour e start_year)) = Return low_index.
Hypothesis high_found :
  np.where_first dates (inject_Z (new_year_hour e end_year)) = Return high_index.

(** The run of [make_clean_data] up to its last line, whatever the
    variable loop returned. *)
Lemma make_clean_data_run (in_data : option (np.ndarray Q)) :
  load_in_vars in_vars None e l1 = (Return in_data, l2) ->
  make_clean_data in_vars start_year end_year e l
  = (lows ← subscript_slice in_data low_index high_index;
     highs ← np.slice out low_index high_index;
     Return (Some (lows, highs)),
     mk_log (stdout l2 ++ [pretty low_index +:+ " " +:+ pretty high_index])
            (opened l2)).
Proof.
  intros Hload. unfold make_clean_data. rewrite decide_False by lia.
  unfold mbind at 1, io_bind at 1. rewrite merged_ok.
  unfold mbind at 1, io_bind at 1. rewrite Hload.
  unfold datetime_timestamp. unfold mbind at 1, io_bind at 1.
  rewrite decide_True by lia.
  unfold mbind at 1, io_bind at 1. rewrite decide_True by lia.
  unfold lookup_hour, lift, print, mbind, io_bind, mret, io_ret.
  rewrite low_found, high_found. simpl.
  destruct (subscript_slice in_data low_index high_index) as [lows|x]; [|done].
  simpl. by destruct (np.slice out low_index high_index).
Qed.

Lemma make_clean_data_slices (n_in n_out : nat) :
  load_in_vars in_vars None e l1 = (Return (Some inp), l2) ->
  np.len inp = Return n_in -> np.len out = Return n_out ->
  exists lows highs rest_in rest_out,
    make_clean_data in_vars start_year end_year e l
    = (Return (Some (lows, highs)),
       mk_log (stdout l2 ++ [pretty low_index +:+ " " +:+ pretty high_index])
              (opened l2))
    /\ np.shape inp = n_in :: rest_in /\ np.shape out = n_out :: rest_out
    /\ np.shape lows
       = (n_in `min` Z.to_nat high_index - n_in `min` Z.to_nat low_index)%nat
         :: rest_in
    /\ np.shape highs
       = (n_out `min` Z.to_nat high_index - n_out `min` Z.to_nat low_index)%nat
         :: rest_out
    /\ (forall i, (n_in `min` Z.to_nat low_index <= i
                   < n_in `min` Z.to_nat high_index)%nat ->
          np.row lows (i - n_in `min` Z.to_nat low_index) = np.row inp i)
    /\ (forall i, (n_out `min` Z.to_nat low_index <= i
                   < n_out `min` Z.to_nat high_index)%nat ->
          np.row highs (i - n_out `min` Z.to_nat low_index) = np.row out i).
Proof.
  intros Hload Hin Hout. rewrite (make_clean_data_run _ Hload).
  pose proof (where_first_nonneg _ _ _ low_found) as Hlo.
  pose proof (where_first_nonneg _ _ _ high_found) as Hhi.
  unfold np.len in Hin, Hout.
  destruct (np.shape inp) as [|n_in' rest_in] eqn:Hsi; [done|].
  destruct (np.shape out) as [|n_out' rest_out] eqn:Hso; [done|].
  injection Hin as ->. injection Hout as ->.
  destruct (slice_window inp n_in rest_in low_index high_index Hsi Hlo Hhi)
    as (lows & Hlows & Hslows & Hrows_l).
  destruct (slice_window out n_out rest_out low_index high_index Hso Hlo Hhi)
    as (highs & Hhighs & Hshighs & Hrows_h).
  exists lows, highs, rest_in, rest_out. simpl. rewrite Hlows, Hhighs. simpl.
  done.
Qed.
End make_clean_data_facts.

(** X8. When the archives have been read, at least one variable was
    requested and both boundary hours occur among the merged timestamps,
    [make_clean_data] prints the two indices found and returns the entries
    [low_index .. high_index - 1] of the stacked low-resolution array and
    of the merged high-resolution array: the upper bound is exclusive, and
    each bound is clipped to the length of the array it cuts. *)
Theorem make_clean_data_window (in_vars : list string) (start_year end_year : Z)
    (e : env) (l l1 l2 : log) (out dates inp : np.ndarray Q)
    (low_index high_index : Z) (n_in n_out : nat) :
  2010 <= start_year <= 9999 ->
  2 <= end_year <= 2020 ->
  merge_out_data 2010 2020 e l = (Return (Some out, Some dates), l1) ->
  load_in_vars in_vars None e l1 = (Return (Some inp), l2) ->
  np.where_first dates (inject_Z (new_year_hour e start_year)) = Return low_index ->
  np.where_first dates (inject_Z (new_year_hour e end_year)) = Return high_index ->
  np.len inp = Return n_in -> np.len out = Return n_out ->
  exists lows highs,
    make_clean_data in_vars start_year end_year e l
    = (Return (Some (lows, highs)),
       mk_log (stdout l2 ++ [pretty low_index +:+ " " +:+ pretty high_index])
              (opened l2))
    /\ np.len lows
       = Return (n_in `min` Z.to_nat high_index - n_in `min` Z.to_nat low_index)%nat
    /\ np.len highs
       = Return (n_out `min` Z.to_nat high_index - n_out `min` Z.to_nat low_index)%nat
    /\ (forall i, (n_in `min` Z.to_nat low_index <= i
                   < n_in `min` Z.to_nat high_index)%nat ->
          np.row lows (i - n_in `min` Z.to_nat low_index) = np.row inp i)
    /\ (forall i, (n_out `min` Z.to_nat low_index <= i
                   < n_out `min` Z.to_nat high_index)%nat ->
          np.row highs (i - n_out `min` Z.to_nat low_index) = np.row out i).
Proof.
  intros Hstart Hend Hmerge Hload Hlow Hhigh Hin Hout.
  destruct (make_clean_data_slices in_vars start_year end_year e l l1 l2 out dates
              inp low_index high_index Hstart Hend Hmerge Hlow Hhigh n_in n_out
              Hload Hin Hout)
    as (lows & highs & rest_in & rest_out & Hrun & _ & _ & Hsl & Hsh & Hrl & Hrh).
  exists lows, highs. unfold np.len. rewrite Hsl, Hsh. done.
Qed.

Lemma make_clean_data_window_witness :
  exists lows highs l',
    make_clean_data ["u10"] 2011 2013 (sample_archive true) empty_log
    = (Return (Some (lows, highs)), l')
    /\ np.len lows = Return 4%nat /\ np.len highs = Return 4%nat.
Proof.
  edestruct (make_clean_data_window ["u10"] 2011 2013 (sample_archive true)
               empty_log) as (lows & highs & Hrun & Hl & Hh & _).
  - lia.
  - lia.
  - vm_compute. reflexivity.
  - vm_compute. reflexivity.
  - vm_compute. reflexivity.
  - vm_compute. reflexivity.
  - vm_compute. reflexivity.
  - vm_compute. reflexivity.
  - exists lows, highs. eexists. split; [exact Hrun|]. split; [exact Hl|exact Hh].
Defined.

(** X9. The pair [make_clean_data] returns can be handed to
    [DownscalingDataset] exactly when the two clipped windows are equally
    long (as they are when the low- and the high-resolution archive have
    the same number of time steps); otherwise construction raises
    [ValueError]. For [start_year = end_year] the window is empty: the
    call does not fail, and the dataset built from it has length 0. *)
Theorem make_clean_data_feeds_dataset (in_vars : list string)
    (start_year end_year : Z) (e : env) (l l1 l2 : log)
    (out dates inp : np.ndarray Q) (low_index high_index : Z) (n_in n_out : nat)
    (low_name high_name : option string) :
  2010 <= start_year <= 9999 ->
  2 <= end_year <= 2020 ->
  merge_out_data 2010 2020 e l = (Return (Some out, Some dates), l1) ->
  load_in_vars in_vars None e l1 = (Return (Some inp), l2) ->
  np.where_first dates (inject_Z (new_year_hour e start_year)) = Return low_index ->
  np.where_first dates (inject_Z (new_year_hour e end_year)) = Return high_index ->
  np.len inp = Return n_in -> np.len out = Return n_out ->
  let k_in := (n_in `min` Z.to_nat high_index - n_in `min` Z.to_nat low_index)%nat in
  let k_out := (n_out `min` Z.to_nat high_index - n_out `min` Z.to_nat low_index)%nat in
  exists lows highs,
    (make_clean_data in_vars start_year end_year e l).1 = Return (Some (lows, highs))
    /\ (k_in = k_out ->
        exists ds,
          DownscalingDataset.__init__ lows highs low_name high_name None = Return ds
          /\ DownscalingDataset.__len__ ds = Return k_in)
    /\ (k_in ≠ k_out ->
        DownscalingDataset.__init__ lows highs low_name high_name None
        = Raise ValueError)
    /\ (start_year = end_year -> k_in = 0%nat /\ k_out = 0%nat).
Proof.
  intros Hstart Hend Hmerge Hload Hlow Hhigh Hin Hout k_in k_out.
  destruct (make_clean_data_slices in_vars start_year end_year e l l1 l2 out dates
              inp low_index high_index Hstart Hend Hmerge Hlow Hhigh n_in n_out
              Hload Hin Hout)
    as (lows & highs & rest_in & rest_out & Hrun & _ & _ & Hsl & Hsh & _).
  fold k_in in Hsl. fold k_out in Hsh.
  exists lows, highs. rewrite Hrun. split; [done|].
  unfold DownscalingDataset.__init__, DownscalingDataset.__len__, np.len.
  simpl. rewrite Hsl, Hsh. simpl. split; [|split].
  - intros Heq. rewrite decide_False by (intros ?; congruence).
    eexists. split; [done|]. simpl. by rewrite Hsl.
  - intros Hne. by rewrite decide_True.
  - intros ->. rewrite Hlow in Hhigh. injection Hhigh as ->.
    subst k_in k_out. lia.
Qed.

Lemma make_clean_data_feeds_dataset_witness :
  exists lows highs ds,
    (make_clean_data ["u10"] 2012 2012 (sample_archive true) empty_log).1
    = Return (Some (lows, highs))
    /\ DownscalingDataset.__init__ lows highs (Some "u10") (Some "si10") None
       = Return ds
    /\ DownscalingDataset.__len__ ds = Return 0%nat.
Proof.
  edestruct make_clean_data_feeds_dataset
    with (in_vars := ["u10"]) (start_year := 2012) (end_year := 2012)
         (e := sample_archive true) (l := empty_log)
         (n_in := 22%nat) (n_out := 22%nat)
         (low_name := Some "u10") (high_name := Some "si10")
    as (lows & highs & Hrun & Hsame & _ & Hempty).
  - lia.
  - lia.
  - vm_compute. reflexivity.
  - vm_compute. reflexivity.
  - vm_compute. reflexivity.
  - vm_compute. reflexivity.
  - vm_compute. reflexivity.
  - vm_compute. reflexivity.
  - destruct (Hempty eq_refl) as [Hin Hout].
    destruct Hsame as (ds & Hinit & Hlen); [exact (eq_trans Hin (eq_sym Hout))|].
    exists lows, highs, ds. split; [exact Hrun|]. split; [exact Hinit|].
    exact Hlen.
Defined.

(** X10. With an empty list of variables the aligner still reads the whole
    high-resolution archive, looks both hours up and prints the indices;
    only then does slicing the low-resolution data, which is still [None],
    raise [TypeError]. No low-resolution file has been opened. *)
Theorem make_clean_data_no_variables (start_year end_year : Z) (e : env)
    (l l1 : log) (out : option (np.ndarray Q)) (dates : np.ndarray Q)
    (low_index high_index : Z) :
  2010 <= start_year <= 9999 ->
  2 <= end_year <= 2020 ->
  merge_out_data 2010 2020 e l = (Return (out, Some dates), l1) ->
  np.where_first dates (inject_Z (new_year_hour e start_year)) = Return low_index ->
  np.where_first dates (inject_Z (new_year_hour e end_year)) = Return high_index ->
  make_clean_data [] start_year end_year e l
  = (Raise TypeError,
     mk_log (stdout l1 ++ [pretty low_index +:+ " " +:+ pretty high_index])
            (opened l1)).
Proof.
  intros Hstart Hend Hmerge Hlow Hhigh.
  destruct (merge_out_data_sized _ _ _ _ Hmerge) as (out' & dates' & [= -> <-] & _).
  by rewrite (make_clean_data_run [] start_year end_year e l l1 l1 out' dates
                low_index high_index Hstart Hend Hmerge Hlow Hhigh None eq_refl).
Qed.

Lemma make_clean_data_no_variables_witness :
  make_clean_data [] 2011 2013 (sample_archive true) empty_log
  = (Raise TypeError, mk_log ["2 6"] (cerra_paths (seqZ 2010 11))).
Proof.
  erewrite (make_clean_data_no_variables 2011 2013 (sample_archive true) empty_log);
    [|lia|lia|vm_compute; reflexivity..].
  vm_compute. reflexivity.
Defined.

(** X11. Whatever years are requested inside 2010..2020 and whatever the
    variables, [make_clean_data] first reads the high-resolution files of
    all of 2010..2020: if the field file of any of these years is missing
    (the earlier years being on disk), the call raises
    [FileNotFoundError] at that file, before any low-resolution file is
    opened and without printing anything. *)
Theorem make_clean_data_reads_whole_archive (in_vars : list string)
    (start_year end_year year : Z) (e : env) (rest_f rest_t : list nat)
    (field stamp : Z -> np.ndarray Q) (l : log) :
  2010 <= start_year -> end_year <= 2020 ->
  2010 <= year <= 2020 ->
  (forall y, 2010 <= y < year -> year_on_disk e rest_f rest_t field stamp y) ->
  fs e !! si10_path year = None ->
  make_clean_data in_vars start_year end_year e l
  = (Raise FileNotFoundError,
     mk_log (stdout l)
       (opened l ++ cerra_paths (seqZ 2010 (year - 2010)) ++ [si10_path year])).
Proof.
  intros Hstart Hend Hyear Hdisk Hmissing.
  unfold make_clean_data. rewrite decide_False by lia.
  unfold mbind at 1, io_bind at 1.
  by rewrite (merge_out_data_missing e rest_f rest_t field stamp 2010 2020 year l
                Hyear Hdisk Hmissing).
Qed.

Lemma make_clean_data_reads_whole_archive_witness :
  make_clean_data ["u10"] 2010 2011
    (mk_env (delete (si10_path 2020) (fs (sample_archive true))) (fun _ => 0))
    empty_log
  = (Raise FileNotFoundError,
     mk_log [] (cerra_paths (seqZ 2010 10) ++ [si10_path 2020])).
Proof.
  apply (make_clean_data_reads_whole_archive ["u10"] 2010 2011 2020 _ [1; 1]%nat []
           sample_field sample_stamp empty_log); [lia|lia|lia| |].
  - intros y Hy.
    assert (y ∈ seqZ 2010 10) as Hin by (apply elem_of_seqZ; lia).
    clear Hy. revert y Hin. apply Forall_forall.
    repeat (apply Forall_cons; split;
            [repeat split; vm_compute; reflexivity|]).
    apply Forall_nil_2.
  - vm_compute. reflexivity.
Defined.
